(** * Layered-parallax widget: RotationController and LayerManager

    A shallow embedding of the two controller classes of the repository
    ([src/js/rotation-controller.js] and the layer manager) together with
    the part of the browser they talk to: the listener lists of the event
    targets, the animation-frame queue, the timers and the focused element.

    Conventions.
    - A JavaScript number that holds an angle, a scale factor, a time stamp
      or a pixel distance is a rational ([Q]); [NaN] and the infinities are
      outside the model.  Numeric comparison ([===], [!==], [<], [>]) is
      comparison of rationals, and [Math.max], [Math.min] and [Math.abs]
      are exact, as they are on doubles.
    - The frames of the two animations store the value they compute as it
      is, so what they store depends on the rounding of double arithmetic:
      their operations round to the nearest double ([Binary64]).  Elsewhere
      sums and products are the exact ones.
    - A layer index is an integer ([Z]); [null] is [None].
    - A method that mutates [this] or the page is a function from states to
      states; the page record carries what the browser keeps (listeners,
      frame callbacks, timers, dispatched events). *)

From Stdlib Require Import ZArith QArith Qabs Qminmax Qround Lqa Lia.
From stdpp Require Import base decidable option list strings pretty.

(** ** Event targets and listeners *)

Module DOM.

(** The event targets the two classes register listeners on. *)
Inductive node :=
| Window
| Document
| Body
| Container
| LayersWrapper
| LayerEl (k : nat)          (* k-th element of querySelectorAll('.layer') *)
| IndicatorEl (k : nat)      (* k-th element of querySelectorAll('.indicator-dot') *)
| OverlayEl (id : nat)       (* a div.layer-detail-overlay created by the manager *)
| CloseButton (id : nat).    (* the button.close-button inside overlay [id] *)

(** Function objects, compared by identity as [removeEventListener] does.
    [Method m] is the function stored on the prototype under the name [m];
    [Bound m n] is the [n]-th object returned by a call of [.bind(this)]
    (each call returns a new object); [Arrow site n] is the [n]-th closure
    created by an arrow-function expression. *)
Inductive fn :=
| Method (name : string)
| Bound (name : string) (serial : nat)
| Arrow (site : string) (serial : nat).

Record registration := Registration {
  target : node;
  type : string;
  callback : fn
}.

#[global] Instance node_eq_dec : EqDecision node.
Proof. solve_decision. Defined.
#[global] Instance fn_eq_dec : EqDecision fn.
Proof. solve_decision. Defined.
#[global] Instance registration_eq_dec : EqDecision registration.
Proof. solve_decision. Defined.

(** [target.addEventListener(type, callback)]: appended unless the same
    listener is already in the list. *)
Definition addEventListener (n : node) (ty : string) (f : fn)
    (ls : list registration) : list registration :=
  let r := Registration n ty f in
  if bool_decide (r ∈ ls) then ls else ls ++ [r].

(** [target.removeEventListener(type, callback)]: removes the listener with
    this very callback object, and nothing when there is none. *)
Definition removeEventListener (n : node) (ty : string) (f : fn)
    (ls : list registration) : list registration :=
  filter (fun r => r ≠ Registration n ty f) ls.

(** The callbacks a dispatch of [ty] at [n] invokes, in registration order. *)
Definition listenersOf (n : node) (ty : string)
    (ls : list registration) : list fn :=
  callback <$> filter (fun r => target r = n ∧ type r = ty) ls.

End DOM.

(** ** Numbers *)

Definition Qltb (x y : Q) : bool := negb (Qle_bool y x).

(** The arithmetic of IEEE 754 binary64 on the rationals that are doubles:
    an operation returns the double nearest to the exact result, the one
    with the even significand when two are equally near.  A finite double
    is [m * 2^e] with [|m| < 2^53] and [e >= -1074]; overflow to an infinity
    (beyond 1.8e308) is outside the model. *)
Module Binary64.

#[local] Open Scope Z_scope.

(** [floor (log2 (a / d))] for positive [a] and [d]. *)
Definition ilog2 (a d : Z) : Z :=
  let l := Z.log2 a - Z.log2 d in
  if d * 2 ^ Z.log2 a <=? a * 2 ^ Z.log2 d then l else l - 1.

(** The integer nearest to [num / den], the even one of two that are
    equally near. *)
Definition nearestEven (num den : Z) : Z :=
  let q := num / den in
  let r := num mod den in
  if 2 * r <? den then q
  else if den <? 2 * r then q + 1
  else if Z.even q then q else q + 1.

(** The double nearest to [x], as a fraction in lowest terms. *)
Definition round (x : Q) : Q :=
  let n := Qnum x in
  let d := Z.pos (Qden x) in
  if n =? 0 then 0%Q
  else
    let a := Z.abs n in
    let e := Z.max (ilog2 a d - 52) (-1074) in
    let m := if 0 <=? e then nearestEven a (d * 2 ^ e)
             else nearestEven (a * 2 ^ (- e)) d in
    let v := if 0 <=? e then inject_Z (m * 2 ^ e)
             else Qmake m (Z.to_pos (2 ^ (- e))) in
    Qred (if n <? 0 then (- v)%Q else v).

(** [x + y], [x - y], [x * y] and [x / y]. *)
Definition add (x y : Q) : Q := round (x + y).
Definition sub (x y : Q) : Q := round (x - y).
Definition mul (x y : Q) : Q := round (x * y).
Definition div (x y : Q) : Q := round (x / y).

(** [Math.pow(x, n)] for a positive integer [n]: the double nearest to the
    power.  (An engine may be off by a unit in the last place where the
    power is not a double; at 0 and 1, the two values the final frame of an
    animation meets, the power is exact.) *)
Definition pow (x : Q) (n : positive) : Q := round (x ^ Z.pos n).

End Binary64.



(** [Math.max(lo, Math.min(hi, x))]. *)
Definition clamp (lo hi x : Q) : Q := Qmax lo (Qmin hi x).

(** ** RotationController ([src/js/rotation-controller.js]) *)

Module RotationController.
Import DOM.
#[local] Open Scope Q_scope.

(** Configuration constants ([CONFIG]). *)
Module CONFIG.
Definition LAYER_SPACING : Q := 100.
Definition ROTATION_SENSITIVITY : Q := 0.5.
Definition MAX_ROTATION_X : Q := 90.
Definition MAX_ROTATION_Y : Q := 360.
Definition TRANSITION_DURATION : Q := 300.
Module BREAKPOINTS.
Definition MOBILE : Q := 480.
Definition TABLET : Q := 768.
Definition DESKTOP : Q := 1024.
End BREAKPOINTS.
End CONFIG.

Record Velocity := { vx : Q; vy : Q }.
Record Touch := { clientX : Q; clientY : Q }.

(** The fields of [this], grouped as the constructor groups them. *)
Record RotationState := {
  rotateX : Q;
  rotateY : Q;
  velocity : Velocity
}.

Record ZoomState := {
  scale : Q;
  minScale : Q;
  maxScale : Q;
  zoomSensitivity : Q
}.

Record PointerState := {
  isDragging : bool;
  lastMouseX : Q;
  lastMouseY : Q;
  lastTouchX : Q;
  lastTouchY : Q
}.

Record MultiTouchState := {
  isZooming : bool;
  lastDistance : Q;
  touches : list Touch
}.

Record AnimationState := {
  animationId : option nat;
  dampening : Q
}.

Record SensitivityState := {
  sensitivity : Q;
  touchSensitivity : Q
}.

Record PerformanceState := {
  lastUpdateTime : Q;
  updateThrottle : Q
}.

(** Custom events dispatched on the container, with their [detail]. *)
Inductive CustomEvent :=
| rotationUpdate (rotateX rotateY scale : Q)
| zoomUpdate (scale minScale maxScale : Q).

(** The closures handed to [requestAnimationFrame], with the variables
    they capture. *)
Inductive FrameCallback :=
| LoopFrame                                            (* startAnimationLoop *)
| RotationFrame (startX startY targetX targetY startTime : Q) (* animateToRotation *)
| ScaleFrame (startScale targetScale startTime : Q).   (* animateToScale *)

(** What the browser holds for the controller. *)
Record Page := {
  now : Q;                                   (* performance.now() *)
  listeners : list registration;
  nextFn : nat;                              (* serial of the next function object *)
  frameQueue : list (nat * FrameCallback);   (* pending animation-frame callbacks *)
  nextHandle : nat;                          (* next requestAnimationFrame handle *)
  dispatched : list CustomEvent;             (* events dispatched on the container *)
  wrapperTransform : option (Q * Q * Q);     (* layersWrapper.style.transform *)
  containerDragging : bool;                  (* container.classList has 'dragging' *)
  pointerEvents : option string;             (* container.style.pointerEvents *)
  bodyCursor : option string                 (* document.body.style.cursor *)
}.

Record t := {
  rotation : RotationState;
  zoom : ZoomState;
  pointer : PointerState;
  multiTouch : MultiTouchState;
  animation : AnimationState;
  sens : SensitivityState;
  perf : PerformanceState;
  page : Page
}.

(** *** Field updates *)

Definition set_rotation (f : RotationState -> RotationState) (s : t) : t :=
  {| rotation := f (rotation s); zoom := zoom s; pointer := pointer s;
     multiTouch := multiTouch s; animation := animation s; sens := sens s;
     perf := perf s; page := page s |}.
Definition set_zoom (f : ZoomState -> ZoomState) (s : t) : t :=
  {| rotation := rotation s; zoom := f (zoom s); pointer := pointer s;
     multiTouch := multiTouch s; animation := animation s; sens := sens s;
     perf := perf s; page := page s |}.
Definition set_pointer (f : PointerState -> PointerState) (s : t) : t :=
  {| rotation := rotation s; zoom := zoom s; pointer := f (pointer s);
     multiTouch := multiTouch s; animation := animation s; sens := sens s;
     perf := perf s; page := page s |}.
Definition set_multiTouch (f : MultiTouchState -> MultiTouchState) (s : t) : t :=
  {| rotation := rotation s; zoom := zoom s; pointer := pointer s;
     multiTouch := f (multiTouch s); animation := animation s; sens := sens s;
     perf := perf s; page := page s |}.
Definition set_animation (f : AnimationState -> AnimationState) (s : t) : t :=
  {| rotation := rotation s; zoom := zoom s; pointer := pointer s;
     multiTouch := multiTouch s; animation := f (animation s); sens := sens s;
     perf := perf s; page := page s |}.
Definition set_sens (f : SensitivityState -> SensitivityState) (s : t) : t :=
  {| rotation := rotation s; zoom := zoom s; pointer := pointer s;
     multiTouch := multiTouch s; animation := animation s; sens := f (sens s);
     perf := perf s; page := page s |}.
Definition set_perf (f : PerformanceState -> PerformanceState) (s : t) : t :=
  {| rotation := rotation s; zoom := zoom s; pointer := pointer s;
     multiTouch := multiTouch s; animation := animation s; sens := sens s;
     perf := f (perf s); page := page s |}.
Definition set_page (f : Page -> Page) (s : t) : t :=
  {| rotation := rotation s; zoom := zoom s; pointer := pointer s;
     multiTouch := multiTouch s; animation := animation s; sens := sens s;
     perf := perf s; page := f (page s) |}.

Definition set_rotateX (v : Q) : t -> t :=
  set_rotation (fun r => {| rotateX := v; rotateY := rotateY r; velocity := velocity r |}).
Definition set_rotateY (v : Q) : t -> t :=
  set_rotation (fun r => {| rotateX := rotateX r; rotateY := v; velocity := velocity r |}).
Definition set_velocity (v : Velocity) : t -> t :=
  set_rotation (fun r => {| rotateX := rotateX r; rotateY := rotateY r; velocity := v |}).
Definition set_scale (v : Q) : t -> t :=
  set_zoom (fun z => {| scale := v; minScale := minScale z; maxScale := maxScale z;
                        zoomSensitivity := zoomSensitivity z |}).
Definition set_isDragging (b : bool) : t -> t :=
  set_pointer (fun p => {| isDragging := b; lastMouseX := lastMouseX p;
                           lastMouseY := lastMouseY p; lastTouchX := lastTouchX p;
                           lastTouchY := lastTouchY p |}).
Definition set_lastTouch (tx ty : Q) : t -> t :=
  set_pointer (fun p => {| isDragging := isDragging p; lastMouseX := lastMouseX p;
                           lastMouseY := lastMouseY p; lastTouchX := tx;
                           lastTouchY := ty |}).
Definition set_touches (l : list Touch) : t -> t :=
  set_multiTouch (fun m => {| isZooming := isZooming m; lastDistance := lastDistance m;
                              touches := l |}).
Definition set_isZooming (b : bool) : t -> t :=
  set_multiTouch (fun m => {| isZooming := b; lastDistance := lastDistance m;
                              touches := touches m |}).
Definition set_lastDistance (d : Q) : t -> t :=
  set_multiTouch (fun m => {| isZooming := isZooming m; lastDistance := d;
                              touches := touches m |}).
Definition set_animationId (h : option nat) : t -> t :=
  set_animation (fun a => {| animationId := h; dampening := dampening a |}).
Definition set_sensitivities (v w : Q) : t -> t :=
  set_sens (fun _ => {| sensitivity := v; touchSensitivity := w |}).
Definition set_lastUpdateTime (v : Q) : t -> t :=
  set_perf (fun p => {| lastUpdateTime := v; updateThrottle := updateThrottle p |}).

Definition page_set_now (v : Q) (p : Page) : Page :=
  {| now := v; listeners := listeners p; nextFn := nextFn p;
     frameQueue := frameQueue p; nextHandle := nextHandle p;
     dispatched := dispatched p; wrapperTransform := wrapperTransform p;
     containerDragging := containerDragging p; pointerEvents := pointerEvents p;
     bodyCursor := bodyCursor p |}.
Definition page_set_listeners (v : list registration) (n : nat) (p : Page) : Page :=
  {| now := now p; listeners := v; nextFn := n;
     frameQueue := frameQueue p; nextHandle := nextHandle p;
     dispatched := dispatched p; wrapperTransform := wrapperTransform p;
     containerDragging := containerDragging p; pointerEvents := pointerEvents p;
     bodyCursor := bodyCursor p |}.
Definition page_set_frames (q : list (nat * FrameCallback)) (h : nat) (p : Page) : Page :=
  {| now := now p; listeners := listeners p; nextFn := nextFn p;
     frameQueue := q; nextHandle := h;
     dispatched := dispatched p; wrapperTransform := wrapperTransform p;
     containerDragging := containerDragging p; pointerEvents := pointerEvents p;
     bodyCursor := bodyCursor p |}.
Definition page_set_dispatched (v : list CustomEvent) (p : Page) : Page :=
  {| now := now p; listeners := listeners p; nextFn := nextFn p;
     frameQueue := frameQueue p; nextHandle := nextHandle p;
     dispatched := v; wrapperTransform := wrapperTransform p;
     containerDragging := containerDragging p; pointerEvents := pointerEvents p;
     bodyCursor := bodyCursor p |}.
Definition page_set_transform (v : option (Q * Q * Q)) (p : Page) : Page :=
  {| now := now p; listeners := listeners p; nextFn := nextFn p;
     frameQueue := frameQueue p; nextHandle := nextHandle p;
     dispatched := dispatched p; wrapperTransform := v;
     containerDragging := containerDragging p; pointerEvents := pointerEvents p;
     bodyCursor := bodyCursor p |}.
Definition page_set_dragging (v : bool) (p : Page) : Page :=
  {| now := now p; listeners := listeners p; nextFn := nextFn p;
     frameQueue := frameQueue p; nextHandle := nextHandle p;
     dispatched := dispatched p; wrapperTransform := wrapperTransform p;
     containerDragging := v; pointerEvents := pointerEvents p;
     bodyCursor := bodyCursor p |}.
Definition page_set_pointerEvents (v : option string) (p : Page) : Page :=
  {| now := now p; listeners := listeners p; nextFn := nextFn p;
     frameQueue := frameQueue p; nextHandle := nextHandle p;
     dispatched := dispatched p; wrapperTransform := wrapperTransform p;
     containerDragging := containerDragging p; pointerEvents := v;
     bodyCursor := bodyCursor p |}.
Definition page_set_bodyCursor (v : option string) (p : Page) : Page :=
  {| now := now p; listeners := listeners p; nextFn := nextFn p;
     frameQueue := frameQueue p; nextHandle := nextHandle p;
     dispatched := dispatched p; wrapperTransform := wrapperTransform p;
     containerDragging := containerDragging p; pointerEvents := pointerEvents p;
     bodyCursor := v |}.

(** *** Browser primitives *)

(** [this.container.dispatchEvent(e)]. *)
Definition dispatchEvent (e : CustomEvent) : t -> t :=
  set_page (fun p => page_set_dispatched (dispatched p ++ [e]) p).

(** [requestAnimationFrame(cb)]: queues [cb] for the next frame and returns
    its handle. *)
Definition requestAnimationFrame (cb : FrameCallback) (s : t) : nat * t :=
  let h := nextHandle (page s) in
  (h, set_page (fun p => page_set_frames (frameQueue p ++ [(h, cb)]) (S h) p) s).

Definition cancelAnimationFrame (h : nat) : t -> t :=
  set_page (fun p =>
    page_set_frames (filter (fun e => e.1 ≠ h) (frameQueue p)) (nextHandle p) p).

(** [this.m.bind(this)]: a new function object at each call. *)
Definition bind (name : string) (s : t) : fn * t :=
  let n := nextFn (page s) in
  (Bound name n, set_page (fun p => page_set_listeners (listeners p) (S n) p) s).

(** An arrow-function expression evaluated at [site]. *)
Definition arrow (site : string) (s : t) : fn * t :=
  let n := nextFn (page s) in
  (Arrow site n, set_page (fun p => page_set_listeners (listeners p) (S n) p) s).

Definition listen (n : node) (ty : string) (f : fn) : t -> t :=
  set_page (fun p => page_set_listeners (addEventListener n ty f (listeners p)) (nextFn p) p).

Definition unlisten (n : node) (ty : string) (f : fn) : t -> t :=
  set_page (fun p => page_set_listeners (removeEventListener n ty f (listeners p)) (nextFn p) p).

(** *** Methods *)

(** [applyTransform()]: writes the transform of the wrapper and dispatches
    [rotationUpdate]. *)
Definition applyTransform (s : t) : t :=
  let rx := rotateX (rotation s) in
  let ry := rotateY (rotation s) in
  let sc := scale (zoom s) in
  let s := set_page (page_set_transform (Some (rx, ry, sc))) s in
  dispatchEvent (rotationUpdate rx ry sc) s.

Definition applyRotation (s : t) : t := applyTransform s.

(** [updateRotation(deltaX, deltaY, sensitivity)]. *)
Definition updateRotation (deltaX deltaY sensitivity : Q) (s : t) : t :=
  let newRotateY := rotateY (rotation s) + deltaX * sensitivity in
  let newRotateX := rotateX (rotation s) - deltaY * sensitivity in
  let s := set_rotateX
             (clamp (- CONFIG.MAX_ROTATION_X) CONFIG.MAX_ROTATION_X newRotateX) s in
  let s := set_rotateY newRotateY s in
  let s := set_velocity {| vx := deltaY * sensitivity * 0.1;
                           vy := deltaX * sensitivity * 0.1 |} s in
  applyRotation s.

(** [animateToRotation(targetX, targetY)]. *)
Definition animateToRotation (targetX targetY : Q) (s : t) : t :=
  let startX := rotateX (rotation s) in
  let startY := rotateY (rotation s) in
  let startTime := now (page s) in
  (requestAnimationFrame (RotationFrame startX startY targetX targetY startTime) s).2.

(** [rotateWithAnimation(deltaY, deltaX)]. *)
Definition rotateWithAnimation (deltaY deltaX : Q) (s : t) : t :=
  let targetX := clamp (- CONFIG.MAX_ROTATION_X) CONFIG.MAX_ROTATION_X
                       (rotateX (rotation s) + deltaX) in
  let targetY := rotateY (rotation s) + deltaY in
  animateToRotation targetX targetY s.

(** The easing of both animations: [1 - Math.pow(1 - progress, 3)] with
    [progress = Math.min(elapsed / duration, 1)], in double arithmetic. *)
Definition progressAt (startTime currentTime : Q) : Q :=
  let elapsed := Binary64.sub currentTime startTime in
  Qmin (Binary64.div elapsed CONFIG.TRANSITION_DURATION) 1.

Definition easeOut (progress : Q) : Q :=
  Binary64.sub 1 (Binary64.pow (Binary64.sub 1 progress) 3).

(** [updateZoom(delta)]. *)
Definition updateZoom (delta : Q) (s : t) : t :=
  let newScale := clamp (minScale (zoom s)) (maxScale (zoom s)) (scale (zoom s) + delta) in
  if negb (Qeq_bool newScale (scale (zoom s))) then
    let s := set_scale newScale s in
    let s := applyTransform s in
    dispatchEvent (zoomUpdate (scale (zoom s)) (minScale (zoom s)) (maxScale (zoom s))) s
  else s.

(** [animateToScale(targetScale)]. *)
Definition animateToScale (targetScale : Q) (s : t) : t :=
  let startScale := scale (zoom s) in
  let startTime := now (page s) in
  (requestAnimationFrame (ScaleFrame startScale targetScale startTime) s).2.

Definition resetZoom (s : t) : t := animateToScale 1 s.

Definition resetRotation (s : t) : t :=
  let s := animateToRotation 0 0 s in
  set_velocity {| vx := 0; vy := 0 |} s.

Definition resetAll (s : t) : t :=
  let s := animateToRotation 0 0 s in
  let s := animateToScale 1 s in
  set_velocity {| vx := 0; vy := 0 |} s.

(** The body of the [if] in the loop of [startAnimationLoop]: one step of
    momentum. *)
Definition momentumActive (s : t) : bool :=
  negb (isDragging (pointer s)) &&
  (Qltb 0.1 (Qabs (vx (velocity (rotation s)))) ||
   Qltb 0.1 (Qabs (vy (velocity (rotation s))))).

Definition momentumStep (s : t) : t :=
  let v := velocity (rotation s) in
  let s := set_rotateX (rotateX (rotation s) + vx v) s in
  let s := set_rotateY (rotateY (rotation s) + vy v) s in
  let s := set_rotateX
             (clamp (- CONFIG.MAX_ROTATION_X) CONFIG.MAX_ROTATION_X
                    (rotateX (rotation s))) s in
  let s := set_velocity {| vx := vx v * dampening (animation s);
                           vy := vy v * dampening (animation s) |} s in
  applyRotation s.

(** One run of a frame callback at time stamp [currentTime].  The two
    [animate] closures store the interpolated value as computed, without a
    clamp and without a last step that stores the target itself. *)
Definition runFrame (cb : FrameCallback) (currentTime : Q) (s : t) : t :=
  match cb with
  | LoopFrame =>
      let s := if momentumActive s then momentumStep s else s in
      let '(h, s) := requestAnimationFrame LoopFrame s in
      set_animationId (Some h) s
  | RotationFrame startX startY targetX targetY startTime =>
      let progress := progressAt startTime currentTime in
      let easeProgress := easeOut progress in
      let s := set_rotateX (Binary64.add startX
                 (Binary64.mul (Binary64.sub targetX startX) easeProgress)) s in
      let s := set_rotateY (Binary64.add startY
                 (Binary64.mul (Binary64.sub targetY startY) easeProgress)) s in
      let s := applyRotation s in
      if Qltb progress 1 then (requestAnimationFrame cb s).2 else s
  | ScaleFrame startScale targetScale startTime =>
      let progress := progressAt startTime currentTime in
      let easeProgress := easeOut progress in
      let s := set_scale (Binary64.add startScale
                 (Binary64.mul (Binary64.sub targetScale startScale) easeProgress)) s in
      let s := applyTransform s in
      if Qltb progress 1 then (requestAnimationFrame cb s).2 else s
  end.

(** [startAnimationLoop()]: the loop body is called once at once. *)
Definition startAnimationLoop (s : t) : t := runFrame LoopFrame (now (page s)) s.

Definition getRotation (s : t) : Q * Q * Q :=
  (rotateX (rotation s), rotateY (rotation s), scale (zoom s)).

(** [setRotation(x, y, animate = true)]. *)
Definition setRotation (x y : Q) (animate : bool) (s : t) : t :=
  if animate then animateToRotation x y s
  else
    let s := set_rotateX (clamp (- CONFIG.MAX_ROTATION_X) CONFIG.MAX_ROTATION_X x) s in
    let s := set_rotateY y s in
    applyTransform s.

Definition getScale (s : t) : Q := scale (zoom s).

(** [setScale(scale, animate = true)]. *)
Definition setScale (sc : Q) (animate : bool) (s : t) : t :=
  let clampedScale := clamp (minScale (zoom s)) (maxScale (zoom s)) sc in
  if animate then animateToScale clampedScale s
  else applyTransform (set_scale clampedScale s).

(** [setEnabled(enabled)]. *)
Definition setEnabled (enabled : bool) (s : t) : t :=
  if enabled then set_page (page_set_pointerEvents (Some "auto"%string)) s
  else
    let s := set_page (page_set_pointerEvents (Some "none"%string)) s in
    let s := set_isDragging false s in
    set_page (page_set_dragging false) s.

(** *** Event handlers *)

(** Rotation by mouse drag is switched off: both handlers return at once. *)
Definition handleMouseDown (s : t) : t := s.
Definition handleMouseMove (s : t) : t := s.

Definition handleMouseUp (s : t) : t :=
  if negb (isDragging (pointer s)) then s
  else
    let s := set_isDragging false s in
    let s := set_page (page_set_dragging false) s in
    set_page (page_set_bodyCursor (Some ""%string)) s.

(** [handleWheel(e)] with [e.deltaY]. *)
Definition handleWheel (deltaY : Q) (s : t) : t :=
  let zoomDelta := deltaY * -0.001 in
  updateZoom zoomDelta s.

Definition handleTouchEnd (ts : list Touch) (s : t) : t :=
  match ts with
  | [] =>
      let s := set_isDragging false s in
      let s := set_isZooming false s in
      set_page (page_set_dragging false) s
  | [touch] =>
      let s := set_isZooming false s in
      let s := set_isDragging true s in
      let s := set_lastTouch (clientX touch) (clientY touch) s in
      set_page (page_set_dragging true) s
  | _ => s
  end.

(** [handleKeyDown(e)] with [e.code]. *)
Definition handleKeyDown (code : string) (s : t) : t :=
  if String.eqb code "ArrowLeft" then rotateWithAnimation (-15) 0 s
  else if String.eqb code "ArrowRight" then rotateWithAnimation 15 0 s
  else if String.eqb code "ArrowUp" then rotateWithAnimation 0 (-15) s
  else if String.eqb code "ArrowDown" then rotateWithAnimation 0 15 s
  else if String.eqb code "Space" then resetRotation s
  else if String.eqb code "KeyR" then resetRotation s
  else if String.eqb code "Home" then resetRotation s
  else s.

(** [handleResize()] with [window.innerWidth]. *)
Definition handleResize (width : Q) (s : t) : t :=
  if Qle_bool width CONFIG.BREAKPOINTS.MOBILE then
    set_sensitivities (CONFIG.ROTATION_SENSITIVITY * 0.6)
                      (CONFIG.ROTATION_SENSITIVITY * 0.5) s
  else if Qle_bool width CONFIG.BREAKPOINTS.TABLET then
    set_sensitivities (CONFIG.ROTATION_SENSITIVITY * 0.8)
                      (CONFIG.ROTATION_SENSITIVITY * 0.6) s
  else
    set_sensitivities CONFIG.ROTATION_SENSITIVITY
                      (CONFIG.ROTATION_SENSITIVITY * 0.8) s.

(** [destroy()]: every [removeEventListener] is given the method found on
    the prototype, as the source writes it. *)
Definition destroy (s : t) : t :=
  let s := match animationId (animation s) with
           | Some h => if bool_decide (h ≠ 0%nat) then cancelAnimationFrame h s else s
           | None => s
           end in
  let s := unlisten Container "mousedown" (Method "handleMouseDown") s in
  let s := unlisten Document "mousemove" (Method "handleMouseMove") s in
  let s := unlisten Document "mouseup" (Method "handleMouseUp") s in
  let s := unlisten Container "touchstart" (Method "handleTouchStart") s in
  let s := unlisten Document "touchmove" (Method "handleTouchMove") s in
  let s := unlisten Document "touchend" (Method "handleTouchEnd") s in
  let s := unlisten Document "keydown" (Method "handleKeyDown") s in
  unlisten Window "resize" (Method "handleResize") s.

(** [initializeEventListeners()]. *)
Definition initializeEventListeners (s : t) : t :=
  let '(f, s) := bind "handleMouseDown" s in
  let s := listen Container "mousedown" f s in
  let '(f, s) := bind "handleMouseMove" s in
  let s := listen Document "mousemove" f s in
  let '(f, s) := bind "handleMouseUp" s in
  let s := listen Document "mouseup" f s in
  let '(f, s) := bind "handleWheel" s in
  let s := listen LayersWrapper "wheel" f s in
  let '(f, s) := bind "handleTouchStart" s in
  let s := listen Container "touchstart" f s in
  let '(f, s) := bind "handleTouchMove" s in
  let s := listen Document "touchmove" f s in
  let '(f, s) := bind "handleTouchEnd" s in
  let s := listen Document "touchend" f s in
  let '(f, s) := bind "handleKeyDown" s in
  let s := listen Document "keydown" f s in
  let '(f, s) := arrow "contextmenu" s in
  let s := listen Container "contextmenu" f s in
  let '(f, s) := bind "handleResize" s in
  let s := listen Window "resize" f s in
  let '(f, s) := arrow "dragstart" s in
  listen Container "dragstart" f s.

(** [new RotationController(container, layersWrapper)] on a page. *)
Definition new (p : Page) : t :=
  let s :=
    {| rotation := {| rotateX := 0; rotateY := 0; velocity := {| vx := 0; vy := 0 |} |};
       zoom := {| scale := 1; minScale := 0.2; maxScale := 2; zoomSensitivity := 0.1 |};
       pointer := {| isDragging := false; lastMouseX := 0; lastMouseY := 0;
                     lastTouchX := 0; lastTouchY := 0 |};
       multiTouch := {| isZooming := false; lastDistance := 0; touches := [] |};
       animation := {| animationId := None; dampening := 0.95 |};
       sens := {| sensitivity := CONFIG.ROTATION_SENSITIVITY;
                  touchSensitivity := CONFIG.ROTATION_SENSITIVITY * 0.8 |};
       perf := {| lastUpdateTime := 0; updateThrottle := 16 |};
       page := p |} in
  let s := initializeEventListeners s in
  let s := startAnimationLoop s in
  applyTransform s.

(** A page on which nothing has happened yet; handles start at 1. *)
Definition blankPage (time : Q) : Page :=
  {| now := time; listeners := []; nextFn := 0%nat; frameQueue := [];
     nextHandle := 1%nat; dispatched := []; wrapperTransform := None;
     containerDragging := false; pointerEvents := None; bodyCursor := None |}.

(** *** What the browser does *)

(** The DOM events the controller listens for, with the properties its
    handlers read. *)
Inductive DomEvent :=
| mousedown
| mousemove
| mouseup
| wheel (deltaY : Q)
| touchstart (touches : list Touch)
| touchmove (touches : list Touch)
| touchend (touches : list Touch)
| keydown (code : string)
| contextmenu
| dragstart
| resize (innerWidth : Q).

Definition eventType (e : DomEvent) : string :=
  match e with
  | mousedown => "mousedown" | mousemove => "mousemove" | mouseup => "mouseup"
  | wheel _ => "wheel" | touchstart _ => "touchstart" | touchmove _ => "touchmove"
  | touchend _ => "touchend" | keydown _ => "keydown" | contextmenu => "contextmenu"
  | dragstart => "dragstart" | resize _ => "resize"
  end.

(** One frame: the browser runs the callbacks queued so far; what they
    queue is for the next frame. *)
Definition animationFrame (s : t) : t :=
  let q := frameQueue (page s) in
  let s := set_page (fun p => page_set_frames [] (nextHandle p) p) s in
  fold_left (fun s e => runFrame e.2 (now (page s)) s) q s.

Definition elapse (dt : Q) : t -> t :=
  set_page (fun p => page_set_now (now p + dt) p).

Section WithSqrt.

(** [Math.sqrt], which has no rational value in general, is a parameter
    of the touch handlers. *)
Variable Math_sqrt : Q -> Q.

Definition getTouchDistance (touch1 touch2 : Touch) : Q :=
  let dx := clientX touch2 - clientX touch1 in
  let dy := clientY touch2 - clientY touch1 in
  Math_sqrt (dx * dx + dy * dy).

Definition handleTouchStart (ts : list Touch) (s : t) : t :=
  let s := set_touches ts s in
  match ts with
  | [t0; t1] =>
      let s := set_isDragging false s in
      let s := set_isZooming true s in
      set_lastDistance (getTouchDistance t0 t1) s
  | _ => s
  end.

Definition handleTouchMove (ts : list Touch) (s : t) : t :=
  let currentTime := now (page s) in
  if Qltb (currentTime - lastUpdateTime (perf s)) (updateThrottle (perf s)) then s
  else
    let s := set_lastUpdateTime currentTime s in
    match ts with
    | [t0; t1] =>
        if isZooming (multiTouch s) then
          let currentDistance := getTouchDistance t0 t1 in
          let deltaDistance := currentDistance - lastDistance (multiTouch s) in
          let zoomDelta := deltaDistance * 0.01 in
          let s := updateZoom zoomDelta s in
          set_lastDistance currentDistance s
        else s
    | _ => s
    end.

(** The call of a listener: a bound method runs on the controller, the
    two arrow functions only call [preventDefault]. *)
Definition invoke (f : fn) (e : DomEvent) (s : t) : t :=
  match f with
  | Bound name _ =>
      if String.eqb name "handleMouseDown" then handleMouseDown s
      else if String.eqb name "handleMouseMove" then handleMouseMove s
      else if String.eqb name "handleMouseUp" then handleMouseUp s
      else if String.eqb name "handleWheel" then
        match e with wheel deltaY => handleWheel deltaY s | _ => s end
      else if String.eqb name "handleTouchStart" then
        match e with touchstart ts => handleTouchStart ts s | _ => s end
      else if String.eqb name "handleTouchMove" then
        match e with touchmove ts => handleTouchMove ts s | _ => s end
      else if String.eqb name "handleTouchEnd" then
        match e with touchend ts => handleTouchEnd ts s | _ => s end
      else if String.eqb name "handleKeyDown" then
        match e with keydown code => handleKeyDown code s | _ => s end
      else if String.eqb name "handleResize" then
        match e with resize width => handleResize width s | _ => s end
      else s
  | _ => s
  end.

(** [e] reaches the event target [n]: its listeners run in order. *)
Definition deliver (n : node) (e : DomEvent) (s : t) : t :=
  fold_left (fun s f => invoke f e s)
            (listenersOf n (eventType e) (listeners (page s))) s.

(** Everything that can happen to a controller. *)
Inductive input :=
| Event (n : node) (e : DomEvent)
| AnimationFrame
| Elapse (dt : Q)
| call_updateRotation (deltaX deltaY sensitivity : Q)
| call_updateZoom (delta : Q)
| call_setRotation (x y : Q) (animate : bool)
| call_setScale (scale : Q) (animate : bool)
| call_setEnabled (enabled : bool)
| call_resetRotation
| call_resetZoom
| call_resetAll
| call_destroy.

Definition step (i : input) (s : t) : t :=
  match i with
  | Event n e => deliver n e s
  | AnimationFrame => animationFrame s
  | Elapse dt => elapse dt s
  | call_updateRotation dx dy se => updateRotation dx dy se s
  | call_updateZoom d => updateZoom d s
  | call_setRotation x y a => setRotation x y a s
  | call_setScale sc a => setScale sc a s
  | call_setEnabled b => setEnabled b s
  | call_resetRotation => resetRotation s
  | call_resetZoom => resetZoom s
  | call_resetAll => resetAll s
  | call_destroy => destroy s
  end.

Definition run (inputs : list input) (s : t) : t :=
  fold_left (fun s i => step i s) inputs s.

End WithSqrt.

(** *** Predicates of the statements below *)

(** No scale animation is pending: the scale is within its bounds, which
    are 0.2 and 2, and no frame callback of [animateToScale] is queued. *)
Definition scaleFrameOk (cb : FrameCallback) : Prop :=
  match cb with
  | ScaleFrame _ _ _ => False
  | _ => True
  end.

Definition scaleInv (s : t) : Prop :=
  minScale (zoom s) = 0.2 /\ maxScale (zoom s) = 2 /\
  (0.2 <= scale (zoom s) /\ scale (zoom s) <= 2) /\
  Forall (fun e => scaleFrameOk e.2) (frameQueue (page s)).

(** An input that starts no scale animation: anything but
    [setScale(_, true)], [resetZoom()] and [resetAll()]. *)
Definition unanimatedScale (i : input) : Prop :=
  match i with
  | call_setScale _ true | call_resetZoom | call_resetAll => False
  | _ => True
  end.

(** The frame queue holds the momentum loop and nothing else. *)
Definition onlyLoop (s : t) : Prop := (frameQueue (page s)).*2 = [LoopFrame].

(** The larger of the two velocity magnitudes. *)
Definition speed (s : t) : Q :=
  Qmax (Qabs (vx (velocity (rotation s)))) (Qabs (vy (velocity (rotation s)))).

(** The number of frames after which momentum has surely stopped. *)
Definition restFrames (s : t) : nat := Z.to_nat (Qceiling (200 * speed s)).

(** No rotation animation is pending: [rotateX] is within its clamp and
    no frame callback of [animateToRotation] is queued. *)
Definition rotationFrameOk (cb : FrameCallback) : Prop :=
  match cb with
  | RotationFrame _ _ _ _ _ => False
  | _ => True
  end.

Definition rotationInv (s : t) : Prop :=
  (-90 <= rotateX (rotation s) /\ rotateX (rotation s) <= 90) /\
  Forall (fun e => rotationFrameOk e.2) (frameQueue (page s)).

(** An input that starts no rotation animation: anything but a key press,
    [setRotation(_, _, true)], [resetRotation()] and [resetAll()]. *)
Definition unanimatedRotation (i : input) : Prop :=
  match i with
  | Event _ (keydown _) => False
  | call_setRotation _ _ true | call_resetRotation | call_resetAll => False
  | _ => True
  end.

(** *** Predicates of the further properties *)

(** The [detail] of the last [rotationUpdate] in a list of events. *)
Fixpoint lastRotationUpdate (l : list CustomEvent) : option (Q * Q * Q) :=
  match l with
  | [] => None
  | e :: l' =>
      match lastRotationUpdate l' with
      | Some d => Some d
      | None =>
          match e with
          | rotationUpdate rx ry sc => Some (rx, ry, sc)
          | zoomUpdate _ _ _ => None
          end
      end
  end.

(** What is on the screen and what was last announced is what is stored. *)
Definition inSync (s : t) : Prop :=
  wrapperTransform (page s) =
    Some (rotateX (rotation s), rotateY (rotation s), scale (zoom s)) /\
  lastRotationUpdate (dispatched (page s)) =
    Some (rotateX (rotation s), rotateY (rotation s), scale (zoom s)).

(** The momentum loop is the only pending frame callback and
    [animationId] is its handle. *)
Definition loopTracked (s : t) : Prop :=
  exists h : nat, h <> 0%nat /\
    frameQueue (page s) = [(h, LoopFrame)] /\ animationId (animation s) = Some h.

(** An event that is no key press. *)
Definition pointerEvent (e : DomEvent) : Prop :=
  match e with
  | keydown _ => False
  | _ => True
  end.

End RotationController.

(** ** LayerManager *)

Module LayerManager.
Import DOM.

(** [LAYER_CONFIG], read through the key [`LAYER_${layerIndex}`]: only the
    indices 1 to 5 have an entry. *)
Record LayerConfig := { zIndex : Z; name : string }.

Definition LAYER_CONFIG (layerIndex : Z) : option LayerConfig :=
  match layerIndex with
  | 1%Z => Some {| zIndex := -200; name := "배경 레이어" |}
  | 2%Z => Some {| zIndex := -100; name := "중간 뒤" |}
  | 3%Z => Some {| zIndex := 0; name := "센터 레이어" |}
  | 4%Z => Some {| zIndex := 100; name := "중간 앞" |}
  | 5%Z => Some {| zIndex := 200; name := "전면 레이어" |}
  | _ => None
  end.

Definition SPACING_BETWEEN_LAYERS : Z := 100.

(** *** The page *)

(** The values the manager writes to [style.transform] of a layer. *)
Inductive Transform :=
| TranslateZ (px : Z)          (* translateZ(${px}px) *)
| ScaleTranslateZ (px : Z)     (* scale(1.02) translateZ(${px}px) *)
| FrontTransform.              (* translateZ(300px) scale(1.1) *)

(** A [.layer] element.  Its [layerIndex] property is its position in
    [querySelectorAll('.layer')] plus one, as [initializeLayers] sets it. *)
Record LayerElement := {
  tabindex : option string;
  role : option string;
  ariaLabel : option string;
  classActive : bool;                 (* classList contains 'active' *)
  styleTransform : option Transform;
  styleBoxShadow : option string;
  styleZIndex : option string;
  styleOpacity : option Q;
  layerContent : option string        (* innerHTML of its .layer-content child *)
}.

(** An [.indicator-dot] element. *)
Record IndicatorElement := {
  indTabindex : option string;
  indRole : option string;
  indAriaLabel : option string;
  indActive : bool
}.

(** A [div.layer-detail-overlay] in the document. *)
Record Overlay := {
  overlayId : nat;
  heading : string;        (* text of the h2 *)
  body : string;           (* inner HTML of div.detail-body *)
  fadeOut : bool;          (* classList contains 'fade-out' *)
  shown : bool             (* opacity '1' and content at scale(1) *)
}.

(** A custom event dispatched on the container, with its [detail]. *)
Record LayerEvent := {
  eventName : string;
  layerIndex : option Z;
  detailActiveLayer : option Z;
  detailFocusedLayer : option Z
}.

Inductive TimerCallback :=
| ReleaseLatch                 (* () => { this.isAnimating = false } *)
| RemoveOverlay (id : nat).    (* () => { overlay.remove() } *)

Inductive FrameCallback :=
| FadeIn (id : nat).           (* sets the overlay's opacity and content scale *)

Record BoundHandlers := {
  layerClick : fn;
  layerHover : fn;
  layerLeave : fn;
  layerFocus : fn;
  layerBlur : fn;
  indicatorClick : fn;
  rotationUpdate : fn
}.

(** The fields of [this]. *)
Record Fields := {
  layers : list nat;            (* references to [.layer] elements *)
  indicators : list nat;        (* references to [.indicator-dot] elements *)
  activeLayer : option Z;
  focusedLayer : option Z;
  isAnimating : bool;
  animationQueue : list unit;
  boundHandlers : BoundHandlers
}.

(** What the browser holds. *)
Record Page := {
  layerEls : list LayerElement;           (* the .layer elements, in document order *)
  indicatorEls : list IndicatorElement;   (* the .indicator-dot elements *)
  overlays : list Overlay;                (* the .layer-detail-overlay elements *)
  activeElement : option node;            (* the focused element, if it is one of ours *)
  listeners : list registration;
  nextFn : nat;
  timers : list (nat * TimerCallback);    (* pending timeouts with their due time *)
  frames : list FrameCallback;            (* pending animation-frame callbacks *)
  now : nat;                              (* milliseconds *)
  dispatched : list LayerEvent;           (* events dispatched on the container *)
  nextOverlay : nat
}.

Record t := { this : Fields; page : Page }.

(** A method call returns normally or throws; what it did before it threw
    stays done. *)
Inductive outcome :=
| Ok (s : t)
| Throw (s : t).

Definition stateOf (o : outcome) : t :=
  match o with Ok s => s | Throw s => s end.

Definition andThen (o : outcome) (k : t -> outcome) : outcome :=
  match o with Ok s => k s | Throw s => Throw s end.

Notation "'let*' s ':=' o 'in' k" := (andThen o (fun s => k))
  (at level 10, s name, o at level 100, k at level 200).

(** *** Field updates *)

Definition set_this (f : Fields -> Fields) (s : t) : t :=
  {| this := f (this s); page := page s |}.
Definition set_page (f : Page -> Page) (s : t) : t :=
  {| this := this s; page := f (page s) |}.

Definition set_layers (l i : list nat) : t -> t :=
  set_this (fun x =>
    {| layers := l; indicators := i; activeLayer := activeLayer x;
       focusedLayer := focusedLayer x; isAnimating := isAnimating x;
       animationQueue := animationQueue x; boundHandlers := boundHandlers x |}).
Definition set_activeLayer (v : option Z) : t -> t :=
  set_this (fun x =>
    {| layers := layers x; indicators := indicators x; activeLayer := v;
       focusedLayer := focusedLayer x; isAnimating := isAnimating x;
       animationQueue := animationQueue x; boundHandlers := boundHandlers x |}).
Definition set_focusedLayer (v : option Z) : t -> t :=
  set_this (fun x =>
    {| layers := layers x; indicators := indicators x; activeLayer := activeLayer x;
       focusedLayer := v; isAnimating := isAnimating x;
       animationQueue := animationQueue x; boundHandlers := boundHandlers x |}).
Definition set_isAnimating (v : bool) : t -> t :=
  set_this (fun x =>
    {| layers := layers x; indicators := indicators x; activeLayer := activeLayer x;
       focusedLayer := focusedLayer x; isAnimating := v;
       animationQueue := animationQueue x; boundHandlers := boundHandlers x |}).

Definition set_layerEls (f : list LayerElement -> list LayerElement) : t -> t :=
  set_page (fun p =>
    {| layerEls := f (layerEls p); indicatorEls := indicatorEls p; overlays := overlays p;
       activeElement := activeElement p; listeners := listeners p; nextFn := nextFn p;
       timers := timers p; frames := frames p; now := now p;
       dispatched := dispatched p; nextOverlay := nextOverlay p |}).
Definition set_indicatorEls (f : list IndicatorElement -> list IndicatorElement) : t -> t :=
  set_page (fun p =>
    {| layerEls := layerEls p; indicatorEls := f (indicatorEls p); overlays := overlays p;
       activeElement := activeElement p; listeners := listeners p; nextFn := nextFn p;
       timers := timers p; frames := frames p; now := now p;
       dispatched := dispatched p; nextOverlay := nextOverlay p |}).
Definition set_overlays (f : list Overlay -> list Overlay) : t -> t :=
  set_page (fun p =>
    {| layerEls := layerEls p; indicatorEls := indicatorEls p; overlays := f (overlays p);
       activeElement := activeElement p; listeners := listeners p; nextFn := nextFn p;
       timers := timers p; frames := frames p; now := now p;
       dispatched := dispatched p; nextOverlay := nextOverlay p |}).
Definition set_activeElement (v : option node) : t -> t :=
  set_page (fun p =>
    {| layerEls := layerEls p; indicatorEls := indicatorEls p; overlays := overlays p;
       activeElement := v; listeners := listeners p; nextFn := nextFn p;
       timers := timers p; frames := frames p; now := now p;
       dispatched := dispatched p; nextOverlay := nextOverlay p |}).
Definition set_listeners (f : list registration -> list registration) : t -> t :=
  set_page (fun p =>
    {| layerEls := layerEls p; indicatorEls := indicatorEls p; overlays := overlays p;
       activeElement := activeElement p; listeners := f (listeners p); nextFn := nextFn p;
       timers := timers p; frames := frames p; now := now p;
       dispatched := dispatched p; nextOverlay := nextOverlay p |}).
Definition set_nextFn (v : nat) : t -> t :=
  set_page (fun p =>
    {| layerEls := layerEls p; indicatorEls := indicatorEls p; overlays := overlays p;
       activeElement := activeElement p; listeners := listeners p; nextFn := v;
       timers := timers p; frames := frames p; now := now p;
       dispatched := dispatched p; nextOverlay := nextOverlay p |}).
Definition set_timers (f : list (nat * TimerCallback) -> list (nat * TimerCallback)) : t -> t :=
  set_page (fun p =>
    {| layerEls := layerEls p; indicatorEls := indicatorEls p; overlays := overlays p;
       activeElement := activeElement p; listeners := listeners p; nextFn := nextFn p;
       timers := f (timers p); frames := frames p; now := now p;
       dispatched := dispatched p; nextOverlay := nextOverlay p |}).
Definition set_frames (f : list FrameCallback -> list FrameCallback) : t -> t :=
  set_page (fun p =>
    {| layerEls := layerEls p; indicatorEls := indicatorEls p; overlays := overlays p;
       activeElement := activeElement p; listeners := listeners p; nextFn := nextFn p;
       timers := timers p; frames := f (frames p); now := now p;
       dispatched := dispatched p; nextOverlay := nextOverlay p |}).
Definition set_now (v : nat) : t -> t :=
  set_page (fun p =>
    {| layerEls := layerEls p; indicatorEls := indicatorEls p; overlays := overlays p;
       activeElement := activeElement p; listeners := listeners p; nextFn := nextFn p;
       timers := timers p; frames := frames p; now := v;
       dispatched := dispatched p; nextOverlay := nextOverlay p |}).
Definition set_dispatched (f : list LayerEvent -> list LayerEvent) : t -> t :=
  set_page (fun p =>
    {| layerEls := layerEls p; indicatorEls := indicatorEls p; overlays := overlays p;
       activeElement := activeElement p; listeners := listeners p; nextFn := nextFn p;
       timers := timers p; frames := frames p; now := now p;
       dispatched := f (dispatched p); nextOverlay := nextOverlay p |}).
Definition set_nextOverlay (v : nat) : t -> t :=
  set_page (fun p =>
    {| layerEls := layerEls p; indicatorEls := indicatorEls p; overlays := overlays p;
       activeElement := activeElement p; listeners := listeners p; nextFn := nextFn p;
       timers := timers p; frames := frames p; now := now p;
       dispatched := dispatched p; nextOverlay := v |}).

(** Element updates. *)
Definition el_setAriaLabel (al : string) (e : LayerElement) : LayerElement :=
  {| tabindex := tabindex e; role := role e; ariaLabel := Some al;
     classActive := classActive e; styleTransform := styleTransform e;
     styleBoxShadow := styleBoxShadow e; styleZIndex := styleZIndex e;
     styleOpacity := styleOpacity e; layerContent := layerContent e |}.
Definition el_setTabindexRole (ti ro : string) (e : LayerElement) : LayerElement :=
  {| tabindex := Some ti; role := Some ro; ariaLabel := ariaLabel e;
     classActive := classActive e; styleTransform := styleTransform e;
     styleBoxShadow := styleBoxShadow e; styleZIndex := styleZIndex e;
     styleOpacity := styleOpacity e; layerContent := layerContent e |}.
Definition el_setActive (b : bool) (e : LayerElement) : LayerElement :=
  {| tabindex := tabindex e; role := role e; ariaLabel := ariaLabel e;
     classActive := b; styleTransform := styleTransform e;
     styleBoxShadow := styleBoxShadow e; styleZIndex := styleZIndex e;
     styleOpacity := styleOpacity e; layerContent := layerContent e |}.
Definition el_setTransformShadow (tr : Transform) (sh : string) (e : LayerElement) : LayerElement :=
  {| tabindex := tabindex e; role := role e; ariaLabel := ariaLabel e;
     classActive := classActive e; styleTransform := Some tr;
     styleBoxShadow := Some sh; styleZIndex := styleZIndex e;
     styleOpacity := styleOpacity e; layerContent := layerContent e |}.
Definition el_setTransformZIndex (tr : Transform) (z : string) (e : LayerElement) : LayerElement :=
  {| tabindex := tabindex e; role := role e; ariaLabel := ariaLabel e;
     classActive := classActive e; styleTransform := Some tr;
     styleBoxShadow := styleBoxShadow e; styleZIndex := Some z;
     styleOpacity := styleOpacity e; layerContent := layerContent e |}.
Definition el_setOpacity (o : Q) (e : LayerElement) : LayerElement :=
  {| tabindex := tabindex e; role := role e; ariaLabel := ariaLabel e;
     classActive := classActive e; styleTransform := styleTransform e;
     styleBoxShadow := styleBoxShadow e; styleZIndex := styleZIndex e;
     styleOpacity := Some o; layerContent := layerContent e |}.

Definition ind_setAttributes (ti ro al : string) (e : IndicatorElement) : IndicatorElement :=
  {| indTabindex := Some ti; indRole := Some ro; indAriaLabel := Some al;
     indActive := indActive e |}.
Definition ind_setActive (b : bool) (e : IndicatorElement) : IndicatorElement :=
  {| indTabindex := indTabindex e; indRole := indRole e; indAriaLabel := indAriaLabel e;
     indActive := b |}.

Definition ov_setFadeOut (o : Overlay) : Overlay :=
  {| overlayId := overlayId o; heading := heading o; body := body o;
     fadeOut := true; shown := shown o |}.
Definition ov_setShown (o : Overlay) : Overlay :=
  {| overlayId := overlayId o; heading := heading o; body := body o;
     fadeOut := fadeOut o; shown := true |}.

(** *** JavaScript values *)

(** Truthiness of a layer index or [null]: [null] and 0 are falsy. *)
Definition truthy (v : option Z) : bool :=
  match v with
  | Some z => negb (z =? 0)%Z
  | None => false
  end.

(** [Number(v)] for a layer index or [null]. *)
Definition toNumber (v : option Z) : Z := default 0%Z v.

(** [this.focusedLayer || this.activeLayer]. *)
Definition focusedOrActive (s : t) : option Z :=
  if truthy (focusedLayer (this s)) then focusedLayer (this s)
  else activeLayer (this s).

(** [this.focusedLayer || this.activeLayer || 3]. *)
Definition currentLayerOr3 (s : t) : Z :=
  if truthy (focusedOrActive s) then toNumber (focusedOrActive s) else 3%Z.

(** *** Browser primitives *)

Definition listen (n : node) (ty : string) (f : fn) : t -> t :=
  set_listeners (addEventListener n ty f).

Definition unlisten (n : node) (ty : string) (f : fn) : t -> t :=
  set_listeners (removeEventListener n ty f).

(** [this.m.bind(this)] and arrow-function expressions: new objects. *)
Definition bind (name : string) (s : t) : fn * t :=
  let n := nextFn (page s) in (Bound name n, set_nextFn (S n) s).

Definition arrow (site : string) (s : t) : fn * t :=
  let n := nextFn (page s) in (Arrow site n, set_nextFn (S n) s).

(** [setTimeout(cb, delay)]: timers are kept in the order they fire. *)
Fixpoint insertTimer (due : nat) (cb : TimerCallback)
    (l : list (nat * TimerCallback)) : list (nat * TimerCallback) :=
  match l with
  | [] => [(due, cb)]
  | (d, c) :: l' =>
      if (d <=? due)%nat then (d, c) :: insertTimer due cb l'
      else (due, cb) :: l
  end.

Definition setTimeout (cb : TimerCallback) (delay : nat) (s : t) : t :=
  set_timers (insertTimer (now (page s) + delay) cb) s.

Definition requestAnimationFrame (cb : FrameCallback) : t -> t :=
  set_frames (fun q => q ++ [cb]).

(** [this.container.dispatchEvent(new CustomEvent(eventName, {detail}))] of
    [dispatchLayerEvent(eventName, layerIndex = null)]. *)
Definition dispatchLayerEvent (eventName : string) (layerIndex : option Z) (s : t) : t :=
  set_dispatched (fun l => l ++
    [{| eventName := eventName; layerIndex := layerIndex;
        detailActiveLayer := activeLayer (this s);
        detailFocusedLayer := focusedLayer (this s) |}]) s.

(** *** Utility methods *)

(** [this.layers[layerIndex - 1]]. *)
Definition getLayer (layerIndex : Z) (s : t) : option nat :=
  if (1 <=? layerIndex)%Z then layers (this s) !! Z.to_nat (layerIndex - 1) else None.

(** [this.indicators[layerIndex - 1]]. *)
Definition getIndicator (layerIndex : Z) (s : t) : option nat :=
  if (1 <=? layerIndex)%Z then indicators (this s) !! Z.to_nat (layerIndex - 1) else None.

(** [element.layerIndex] of the layer or indicator at position [k]. *)
Definition layerIndexOf (k : nat) : Z := Z.of_nat k + 1.

Definition withLayer (k : nat) (f : LayerElement -> LayerElement) : t -> t :=
  set_layerEls (alter f k).

Definition withIndicator (k : nat) (f : IndicatorElement -> IndicatorElement) : t -> t :=
  set_indicatorEls (alter f k).

Definition glow : string := "0 12px 48px rgba(100, 255, 218, 0.4)".

(** *** Layer management methods *)

(** [setActiveLayer(layerIndex)]. *)
Definition setActiveLayer (layerIndex : Z) (s : t) : t :=
  if bool_decide (activeLayer (this s) = Some layerIndex) then s
  else
    let s :=
      if truthy (activeLayer (this s)) then
        let prev := toNumber (activeLayer (this s)) in
        let s := match getLayer prev s with
                 | Some r => withLayer r (el_setActive false) s
                 | None => s
                 end in
        match getIndicator prev s with
        | Some r => withIndicator r (ind_setActive false) s
        | None => s
        end
      else s in
    let s := set_activeLayer (Some layerIndex) s in
    let s := match getLayer layerIndex s with
             | Some r => withLayer r (el_setActive true) s
             | None => s
             end in
    let s := match getIndicator layerIndex s with
             | Some r => withIndicator r (ind_setActive true) s
             | None => s
             end in
    dispatchLayerEvent "layerActivated" (Some layerIndex) s.

(** [highlightLayer(layerIndex)]; reading [.zIndex] of a missing
    configuration entry throws. *)
Definition highlightLayer (layerIndex : Z) (s : t) : outcome :=
  match getLayer layerIndex s with
  | Some r =>
      match LAYER_CONFIG layerIndex with
      | Some c => Ok (withLayer r (el_setTransformShadow (ScaleTranslateZ (zIndex c)) glow) s)
      | None => Throw s
      end
  | None => Ok s
  end.

(** [unhighlightLayer(layerIndex)]. *)
Definition unhighlightLayer (layerIndex : Z) (s : t) : outcome :=
  match getLayer layerIndex s with
  | Some r =>
      match layerEls (page s) !! r with
      | Some el =>
          if negb (classActive el) then
            match LAYER_CONFIG layerIndex with
            | Some c => Ok (withLayer r (el_setTransformShadow (TranslateZ (zIndex c)) "") s)
            | None => Throw s
            end
          else Ok s
      | None => Ok s
      end
  | None => Ok s
  end.

(** *** Focus *)

(** [handleLayerFocus(e)] and [handleLayerBlur(e)] with [e.currentTarget]
    the layer element at position [k]. *)
Definition handleLayerFocus (k : nat) (s : t) : outcome :=
  let layerIndex := layerIndexOf k in
  let s := set_focusedLayer (Some layerIndex) s in
  let* s := highlightLayer layerIndex s in
  Ok (dispatchLayerEvent "layerFocus" (Some layerIndex) s).

Definition handleLayerBlur (k : nat) (s : t) : outcome :=
  let layerIndex := layerIndexOf k in
  let* s :=
    if bool_decide (focusedLayer (this s) = Some layerIndex) then
      let s := set_focusedLayer None s in
      if negb (bool_decide (activeLayer (this s) = Some layerIndex)) then
        unhighlightLayer layerIndex s
      else Ok s
    else Ok s in
  Ok (dispatchLayerEvent "layerBlur" (Some layerIndex) s).

(** The browser calls a listener of a focus or blur event.  The only
    listeners the manager registers for these two events are
    [boundHandlers.layerFocus] and [boundHandlers.layerBlur]; an exception
    thrown by a listener is reported and goes no further. *)
Definition callFocusListener (f : fn) (n : node) (s : t) : t :=
  match n with
  | LayerEl k =>
      if bool_decide (f = layerFocus (boundHandlers (this s))) then
        stateOf (handleLayerFocus k s)
      else if bool_decide (f = layerBlur (boundHandlers (this s))) then
        stateOf (handleLayerBlur k s)
      else s
  | _ => s
  end.

Definition fireFocusEvent (ty : string) (n : node) (s : t) : t :=
  fold_left (fun s f => callFocusListener f n s)
            (listenersOf n ty (listeners (page s))) s.

(** [element.focus()] on the layer element at position [k]: nothing when it
    is not focusable or has the focus already; otherwise the element that
    had the focus gets [blur], then this one gets [focus]. *)
Definition focusElement (k : nat) (s : t) : t :=
  match layerEls (page s) !! k with
  | Some el =>
      if bool_decide (tabindex el = None) then s
      else if bool_decide (activeElement (page s) = Some (LayerEl k)) then s
      else
        let s := match activeElement (page s) with
                 | Some old => fireFocusEvent "blur" old s
                 | None => s
                 end in
        let s := set_activeElement (Some (LayerEl k)) s in
        fireFocusEvent "focus" (LayerEl k) s
  | None => s
  end.

(** [focusOnLayer(layerIndex)]. *)
Definition focusOnLayer (layerIndex : Z) (s : t) : t :=
  match getLayer layerIndex s with
  | Some r => focusElement r s
  | None => s
  end.

(** [navigateLayer(direction)]. *)
Definition navigateLayer (direction : Z) (s : t) : t :=
  let currentLayer := currentLayerOr3 s in
  let newLayer := Z.max 1 (Z.min 5 (currentLayer + direction)) in
  if negb (newLayer =? currentLayer)%Z then
    let s := setActiveLayer newLayer s in
    focusOnLayer newLayer s
  else s.

(** [cycleLayers(direction)]. *)
Definition cycleLayers (direction : Z) (s : t) : t :=
  let currentLayer := currentLayerOr3 s in
  let newLayer := (currentLayer + direction)%Z in
  let newLayer := if (5 <? newLayer)%Z then 1%Z else newLayer in
  let newLayer := if (newLayer <? 1)%Z then 5%Z else newLayer in
  focusOnLayer newLayer s.

(** *** Layer details overlay *)

(** [this.layers.forEach((layer, index) => ...)] for a callback that may
    throw. *)
Fixpoint forEachLayer (f : nat -> nat -> t -> outcome)
    (l : list nat) (index : nat) (s : t) : outcome :=
  match l with
  | [] => Ok s
  | r :: l' => let* s := f r index s in forEachLayer f l' (S index) s
  end.

(** [resetLayerPositions()]. *)
Definition resetLayerPositions (s : t) : outcome :=
  forEachLayer (fun r index s =>
      let layerIndex := layerIndexOf index in
      match LAYER_CONFIG layerIndex with
      | Some c => Ok (withLayer r (el_setTransformZIndex (TranslateZ (zIndex c)) "") s)
      | None => Throw s
      end)
    (layers (this s)) 0%nat s.

(** [bringToFront(layerIndex)]. *)
Definition bringToFront (layerIndex : Z) (s : t) : t :=
  match getLayer layerIndex s with
  | Some r => withLayer r (el_setTransformZIndex FrontTransform "1000") s
  | None => s
  end.

(** [createDetailOverlay(layerIndex)]: the first overlay in the document,
    if any, is removed; the layer, its [.layer-content] child and its
    configuration entry are read without a check, so a missing one throws;
    the new overlay is appended to the body and three listeners are added,
    the last of them on the document. *)
Definition createDetailOverlay (layerIndex : Z) (s : t) : outcome :=
  let s := set_overlays (fun l => tail l) s in
  match getLayer layerIndex s with
  | None => Throw s
  | Some r =>
      match layerEls (page s) !! r ≫= layerContent with
      | None => Throw s
      | Some content =>
          match LAYER_CONFIG layerIndex with
          | None => Throw s
          | Some c =>
              let id := nextOverlay (page s) in
              let overlay :=
                {| overlayId := id;
                   heading := "Layer " +:+ pretty layerIndex +:+ ": " +:+ name c;
                   body := content; fadeOut := false; shown := false |} in
              let s := set_nextOverlay (S id) s in
              let s := set_overlays (fun l => l ++ [overlay]) s in
              let s := requestAnimationFrame (FadeIn id) s in
              let '(f, s) := arrow "closeButton.click" s in
              let s := listen (CloseButton id) "click" f s in
              let '(f, s) := arrow "overlay.click" s in
              let s := listen (OverlayEl id) "click" f s in
              let '(f, s) := arrow "document.keydown" s in
              Ok (listen Document "keydown" f s)
          end
      end
  end.

(** [showLayerDetails(layerIndex)]. *)
Definition showLayerDetails (layerIndex : Z) (s : t) : outcome :=
  if isAnimating (this s) then Ok s
  else
    match getLayer layerIndex s with
    | None => Ok s
    | Some _ =>
        let s := set_isAnimating true s in
        let* s := createDetailOverlay layerIndex s in
        let s := bringToFront layerIndex s in
        let s := setTimeout ReleaseLatch 500 s in
        Ok (dispatchLayerEvent "layerDetailsShown" (Some layerIndex) s)
    end.

(** [hideLayerDetails()]. *)
Definition hideLayerDetails (s : t) : outcome :=
  let s := match overlays (page s) with
           | overlay :: _ =>
               let s := set_overlays (alter ov_setFadeOut 0%nat) s in
               setTimeout (RemoveOverlay (overlayId overlay)) 300 s
           | [] => s
           end in
  let* s := resetLayerPositions s in
  Ok (dispatchLayerEvent "layerDetailsHidden" None s).

(** *** Rotation *)

#[local] Open Scope Q_scope.

(** [updateLayerVisibility(rotateX, rotateY)]. *)
Definition updateLayerVisibility (rotateX rotateY : Q) (s : t) : outcome :=
  forEachLayer (fun r index s =>
      let layerIndex := layerIndexOf index in
      match LAYER_CONFIG layerIndex with
      | None => Throw s
      | Some c =>
          let distance := inject_Z (Z.abs (zIndex c)) in
          let maxDistance := 200 in
          let rotationFactor := Qabs rotateX / 90 in
          let baseOpacity :=
            if (layerIndexOf r =? 3)%Z then 1
            else 0.7 + (0.3 * (1 - distance / maxDistance)) in
          let adjustedOpacity := baseOpacity * (1 - rotationFactor * 0.3) in
          Ok (withLayer r (el_setOpacity (Qmax 0.3 adjustedOpacity)) s)
      end)
    (layers (this s)) 0%nat s.

(** [updateActiveLayerFromRotation(rotateX, rotateY)].  A comparison of
    [this.activeLayer] with a number converts [null] to 0. *)
Definition updateActiveLayerFromRotation (rotateX rotateY : Q) (s : t) : t :=
  let absRotateX := Qabs rotateX in
  if Qltb absRotateX 15 then
    if negb (bool_decide (activeLayer (this s) = Some 3%Z)) then setActiveLayer 3 s
    else s
  else if Qltb 30 rotateX then
    if (2 <? toNumber (activeLayer (this s)))%Z then
      setActiveLayer (Z.max 1 (toNumber (activeLayer (this s)) - 1)) s
    else s
  else if Qltb rotateX (-30) then
    if (toNumber (activeLayer (this s)) <? 4)%Z then
      setActiveLayer (Z.min 5 (toNumber (activeLayer (this s)) + 1)) s
    else s
  else s.

(** [handleRotationUpdate(e)] with [e.detail.rotateX] and [e.detail.rotateY]. *)
Definition handleRotationUpdate (rotateX rotateY : Q) (s : t) : outcome :=
  let* s := updateLayerVisibility rotateX rotateY s in
  Ok (updateActiveLayerFromRotation rotateX rotateY s).

#[local] Close Scope Q_scope.

(** *** Event handlers *)

(** The handlers of a layer take [e.currentTarget], the layer element at
    position [k]. *)
Definition handleLayerClick (k : nat) (s : t) : outcome :=
  let layerIndex := layerIndexOf k in
  let* s :=
    if bool_decide (activeLayer (this s) = Some layerIndex) then
      showLayerDetails layerIndex s
    else Ok (setActiveLayer layerIndex s) in
  Ok (dispatchLayerEvent "layerSelected" (Some layerIndex) s).

Definition handleLayerHover (k : nat) (s : t) : outcome :=
  let layerIndex := layerIndexOf k in
  let* s := if negb (isAnimating (this s)) then highlightLayer layerIndex s else Ok s in
  Ok (dispatchLayerEvent "layerHover" (Some layerIndex) s).

Definition handleLayerLeave (k : nat) (s : t) : outcome :=
  let layerIndex := layerIndexOf k in
  let* s :=
    if negb (isAnimating (this s)) &&
       negb (bool_decide (activeLayer (this s) = Some layerIndex))
    then unhighlightLayer layerIndex s
    else Ok s in
  Ok (dispatchLayerEvent "layerLeave" (Some layerIndex) s).

(** [handleIndicatorClick(e)] with [e.currentTarget] the indicator at
    position [k]. *)
Definition handleIndicatorClick (k : nat) (s : t) : t :=
  let layerIndex := layerIndexOf k in
  let s := setActiveLayer layerIndex s in
  focusOnLayer layerIndex s.

(** [handleKeyNavigation(e)] with [e.key] and [e.shiftKey]. *)
Definition handleKeyNavigation (key : string) (shiftKey : bool) (s : t) : outcome :=
  if negb (truthy (focusedLayer (this s))) && negb (truthy (activeLayer (this s)))
  then Ok s
  else
    let currentLayer := toNumber (focusedOrActive s) in
    if String.eqb key "Tab" then Ok (cycleLayers (if shiftKey then -1 else 1) s)
    else if String.eqb key "ArrowLeft" then Ok (navigateLayer (-1) s)
    else if String.eqb key "ArrowRight" then Ok (navigateLayer 1 s)
    else if String.eqb key "ArrowUp" then Ok (navigateLayer (-1) s)
    else if String.eqb key "ArrowDown" then Ok (navigateLayer 1 s)
    else if String.eqb key "Enter" then showLayerDetails currentLayer s
    else if String.eqb key "Space" then showLayerDetails currentLayer s
    else if String.eqb key "Escape" then hideLayerDetails s
    else if String.eqb key "Home" then Ok (setActiveLayer 1 s)
    else if String.eqb key "End" then Ok (setActiveLayer 5 s)
    else Ok s.

(** *** Construction and destruction *)

(** [initializeLayers()]: the configuration entry of a sixth layer is
    missing, and reading its name throws. *)
Definition initializeLayers (s : t) : outcome :=
  let s := set_layers (seq 0 (length (layerEls (page s)))) (indicators (this s)) s in
  forEachLayer (fun r index s =>
      let layerIndex := layerIndexOf index in
      let s := withLayer r (el_setTabindexRole "0" "button") s in
      match LAYER_CONFIG layerIndex with
      | Some c =>
          Ok (withLayer r (el_setAriaLabel
                ("Layer " +:+ pretty layerIndex +:+ ": " +:+ name c)) s)
      | None => Throw s
      end)
    (layers (this s)) 0%nat s.

(** [this.indicators.forEach((indicator, index) => ...)]. *)
Fixpoint forEachIndicator (f : nat -> nat -> t -> t)
    (l : list nat) (index : nat) (s : t) : t :=
  match l with
  | [] => s
  | r :: l' => forEachIndicator f l' (S index) (f r index s)
  end.

(** [initializeIndicators()]. *)
Definition initializeIndicators (s : t) : t :=
  let s := set_layers (layers (this s)) (seq 0 (length (indicatorEls (page s)))) s in
  forEachIndicator (fun r index s =>
      let layerIndex := layerIndexOf index in
      withIndicator r (ind_setAttributes "0" "button"
        ("Go to layer " +:+ pretty layerIndex)) s)
    (indicators (this s)) 0%nat s.

(** [initializeEventListeners()]. *)
Definition initializeEventListeners (s : t) : t :=
  let h := boundHandlers (this s) in
  let s := fold_left (fun s r =>
      let s := listen (LayerEl r) "click" (layerClick h) s in
      let s := listen (LayerEl r) "mouseenter" (layerHover h) s in
      let s := listen (LayerEl r) "mouseleave" (layerLeave h) s in
      let s := listen (LayerEl r) "focus" (layerFocus h) s in
      listen (LayerEl r) "blur" (layerBlur h) s)
    (layers (this s)) s in
  let s := fold_left (fun s r =>
      let s := listen (IndicatorEl r) "click" (indicatorClick h) s in
      let '(f, s) := arrow "indicator.keydown" s in
      listen (IndicatorEl r) "keydown" f s)
    (indicators (this s)) s in
  let s := listen Container "rotationUpdate" (rotationUpdate h) s in
  let '(f, s) := bind "handleKeyNavigation" s in
  listen Document "keydown" f s.

(** [new LayerManager(container)] on a page. *)
Definition new (p : Page) : outcome :=
  let n := nextFn p in
  let s :=
    {| this :=
         {| layers := []; indicators := []; activeLayer := None; focusedLayer := None;
            isAnimating := false; animationQueue := [];
            boundHandlers :=
              {| layerClick := Bound "handleLayerClick" n;
                 layerHover := Bound "handleLayerHover" (n + 1);
                 layerLeave := Bound "handleLayerLeave" (n + 2);
                 layerFocus := Bound "handleLayerFocus" (n + 3);
                 layerBlur := Bound "handleLayerBlur" (n + 4);
                 indicatorClick := Bound "handleIndicatorClick" (n + 5);
                 rotationUpdate := Bound "handleRotationUpdate" (n + 6) |} |};
       page := p |} in
  let s := set_nextFn (n + 7) s in
  let* s := initializeLayers s in
  let s := initializeIndicators s in
  let s := initializeEventListeners s in
  Ok (setActiveLayer 3 s).

(** [destroy()]. *)
Definition destroy (s : t) : outcome :=
  let h := boundHandlers (this s) in
  let s := fold_left (fun s r =>
      let s := unlisten (LayerEl r) "click" (layerClick h) s in
      let s := unlisten (LayerEl r) "mouseenter" (layerHover h) s in
      let s := unlisten (LayerEl r) "mouseleave" (layerLeave h) s in
      let s := unlisten (LayerEl r) "focus" (layerFocus h) s in
      unlisten (LayerEl r) "blur" (layerBlur h) s)
    (layers (this s)) s in
  let s := fold_left (fun s r => unlisten (IndicatorEl r) "click" (indicatorClick h) s)
    (indicators (this s)) s in
  let s := unlisten Container "rotationUpdate" (rotationUpdate h) s in
  let* s := hideLayerDetails s in
  let s := set_layers [] [] s in
  let s := set_activeLayer None s in
  Ok (set_focusedLayer None s).

(** Public getters. *)
Definition getActiveLayer (s : t) : option Z := activeLayer (this s).
Definition getFocusedLayer (s : t) : option Z := focusedLayer (this s).

Definition getAllLayers (s : t) : list (Z * nat * option LayerConfig * bool * bool) :=
  imap (fun index r =>
      (layerIndexOf index, r, LAYER_CONFIG (layerIndexOf index),
       bool_decide (activeLayer (this s) = Some (layerIndexOf index)),
       bool_decide (focusedLayer (this s) = Some (layerIndexOf index))))
    (layers (this s)).

(** A page with [n] layers, each with a [.layer-content] child, and [m]
    indicator dots, on which nothing has happened yet. *)
Definition blankPage (n m : nat) : Page :=
  {| layerEls :=
       replicate n {| tabindex := None; role := None; ariaLabel := None;
                      classActive := false; styleTransform := None;
                      styleBoxShadow := None; styleZIndex := None;
                      styleOpacity := None; layerContent := Some "<p>content</p>" |};
     indicatorEls :=
       replicate m {| indTabindex := None; indRole := None; indAriaLabel := None;
                      indActive := false |};
     overlays := []; activeElement := None; listeners := []; nextFn := 0;
     timers := []; frames := []; now := 0; dispatched := []; nextOverlay := 0 |}.

(** *** What the browser does *)

(** A timer fires. *)
Definition runTimer (cb : TimerCallback) (s : t) : t :=
  match cb with
  | ReleaseLatch => set_isAnimating false s
  | RemoveOverlay id => set_overlays (filter (fun o => overlayId o ≠ id)) s
  end.

(** [dt] milliseconds pass: the timers that are due fire in order. *)
Definition advance (dt : nat) (s : t) : t :=
  let time := (now (page s) + dt)%nat in
  let due := filter (fun e => (e.1 ≤ time)%nat) (timers (page s)) in
  let s := set_now time s in
  let s := set_timers (filter (fun e => (time < e.1)%nat)) s in
  fold_left (fun s e => runTimer e.2 s) due s.

(** One frame: the overlay that asked for it fades in. *)
Definition runFrame (cb : FrameCallback) (s : t) : t :=
  match cb with
  | FadeIn id =>
      set_overlays (fmap (fun o => if bool_decide (overlayId o = id)
                                   then ov_setShown o else o)) s
  end.

Definition animationFrame (s : t) : t :=
  let q := frames (page s) in
  let s := set_frames (fun _ => []) s in
  fold_left (fun s cb => runFrame cb s) q s.

(** The DOM events the manager listens for, with what its handlers read. *)
Inductive DomEvent :=
| click
| mouseenter
| mouseleave
| keydown (key : string) (shiftKey : bool)
| rotationUpdateEvent (rotateX rotateY : Q).

Definition eventType (e : DomEvent) : string :=
  match e with
  | click => "click"
  | mouseenter => "mouseenter"
  | mouseleave => "mouseleave"
  | keydown _ _ => "keydown"
  | rotationUpdateEvent _ _ => "rotationUpdate"
  end.

Definition bubbles (e : DomEvent) : bool :=
  match e with
  | click | keydown _ _ => true
  | _ => false
  end.

(** The call of a listener with [e.currentTarget] and [e.target]; the
    boolean tells whether it called [e.stopPropagation()].  A listener is
    told apart by the function object it is: one of [boundHandlers], the
    bound [handleKeyNavigation], or one of the four arrow functions.  An
    exception it throws is reported by the browser and goes no further. *)
Definition call (f : fn) (currentTarget target : node) (e : DomEvent) (s : t) : t * bool :=
  let h := boundHandlers (this s) in
  if bool_decide (f = layerClick h) then
    match currentTarget with
    | LayerEl k => (stateOf (handleLayerClick k s), true)
    | _ => (s, false)
    end
  else if bool_decide (f = layerHover h) then
    match currentTarget with
    | LayerEl k => (stateOf (handleLayerHover k s), false)
    | _ => (s, false)
    end
  else if bool_decide (f = layerLeave h) then
    match currentTarget with
    | LayerEl k => (stateOf (handleLayerLeave k s), false)
    | _ => (s, false)
    end
  else if bool_decide (f = layerFocus h) then
    match currentTarget with
    | LayerEl k => (stateOf (handleLayerFocus k s), false)
    | _ => (s, false)
    end
  else if bool_decide (f = layerBlur h) then
    match currentTarget with
    | LayerEl k => (stateOf (handleLayerBlur k s), false)
    | _ => (s, false)
    end
  else if bool_decide (f = indicatorClick h) then
    match currentTarget with
    | IndicatorEl k => (handleIndicatorClick k s, true)
    | _ => (s, false)
    end
  else if bool_decide (f = rotationUpdate h) then
    match e with
    | rotationUpdateEvent rotateX rotateY =>
        (stateOf (handleRotationUpdate rotateX rotateY s), false)
    | _ => (s, false)
    end
  else
    match f with
    | Bound m _ =>
        if String.eqb m "handleKeyNavigation" then
          match e with
          | keydown key shiftKey => (stateOf (handleKeyNavigation key shiftKey s), false)
          | _ => (s, false)
          end
        else (s, false)
    | Arrow site _ =>
        if String.eqb site "indicator.keydown" then
          match currentTarget, e with
          | IndicatorEl k, keydown key _ =>
              if String.eqb key "Enter" || String.eqb key " "
              then (handleIndicatorClick k s, true) else (s, false)
          | _, _ => (s, false)
          end
        else if String.eqb site "closeButton.click" then
          (stateOf (hideLayerDetails s), false)
        else if String.eqb site "overlay.click" then
          if bool_decide (target = currentTarget)
          then (stateOf (hideLayerDetails s), false) else (s, false)
        else if String.eqb site "document.keydown" then
          match e with
          | keydown key _ =>
              if String.eqb key "Escape"
              then (stateOf (hideLayerDetails s), false) else (s, false)
          | _ => (s, false)
          end
        else (s, false)
    | Method _ => (s, false)
    end.

Definition parent (n : node) : option node :=
  match n with
  | LayerEl _ | IndicatorEl _ | LayersWrapper => Some Container
  | Container | OverlayEl _ => Some Body
  | CloseButton id => Some (OverlayEl id)
  | Body => Some Document
  | Document => Some Window
  | Window => None
  end.

(** The listeners of one node run; the result tells whether one of them
    stopped the propagation. *)
Definition deliverAt (n target : node) (e : DomEvent) (s : t) : t * bool :=
  fold_left (fun '(s, stopped) f =>
               let '(s, stop) := call f n target e s in (s, stopped || stop))
            (listenersOf n (eventType e) (listeners (page s))) (s, false).

(** [e] is dispatched at [target] and bubbles to the window unless it is
    stopped; no node is more than five steps below the window. *)
Fixpoint propagate (fuel : nat) (n target : node) (e : DomEvent) (s : t) : t :=
  let '(s, stopped) := deliverAt n target e s in
  match fuel with
  | O => s
  | S fuel' =>
      if stopped || negb (bubbles e) then s
      else match parent n with
           | Some p => propagate fuel' p target e s
           | None => s
           end
  end.

Definition deliver (target : node) (e : DomEvent) (s : t) : t :=
  propagate 5 target target e s.

(** *** Predicates of the statements below *)

(** What a focus or blur listener on node [n] may change: the styles of
    the layers and the event log apart, only [focusedLayer], which it leaves
    alone, clears, or sets to the index of the layer [n]. *)
Definition focusFrame (n : node) (s s' : t) : Prop :=
  layers (this s') = layers (this s) /\
  indicators (this s') = indicators (this s) /\
  activeLayer (this s') = activeLayer (this s) /\
  isAnimating (this s') = isAnimating (this s) /\
  boundHandlers (this s') = boundHandlers (this s) /\
  listeners (page s') = listeners (page s) /\
  activeElement (page s') = activeElement (page s) /\
  overlays (page s') = overlays (page s) /\
  length (layerEls (page s')) = length (layerEls (page s)) /\
  (focusedLayer (this s') = focusedLayer (this s) \/
   focusedLayer (this s') = None \/
   exists k, n = LayerEl k /\ focusedLayer (this s') = Some (layerIndexOf k)).

(** A layer index, when set, is one of 1 to 5. *)
Definition inRange (v : option Z) : Prop :=
  match v with
  | Some z => (1 <= z <= 5)%Z
  | None => True
  end.

Definition selectionInRange (s : t) : Prop :=
  inRange (activeLayer (this s)) /\ inRange (focusedLayer (this s)).

(** The manager holds the layers of the page in document order, the page
    has at most five of them, and the focused element exists. *)
Definition wellFormed (s : t) : Prop :=
  layers (this s) = seq 0 (length (layers (this s))) /\
  (length (layerEls (page s)) <= 5)%nat /\
  (forall k, activeElement (page s) = Some (LayerEl k) ->
             (k < length (layerEls (page s)))%nat).

(** The manager of a page with five focusable layers, whose focus listeners
    are the ones the constructor registered and whose [focusedLayer] agrees
    with the focused element. *)
Definition ready (s : t) : Prop :=
  layers (this s) = seq 0 5 /\
  (forall k, (k < 5)%nat ->
     exists el, layerEls (page s) !! k = Some el /\ tabindex el <> None) /\
  (forall k, (k < 5)%nat ->
     listenersOf (LayerEl k) "focus" (listeners (page s)) =
       [layerFocus (boundHandlers (this s))]) /\
  (forall k, activeElement (page s) = Some (LayerEl k) ->
     focusedLayer (this s) = Some (layerIndexOf k)).

(** No open is in progress: the latch is free and no release is pending,
    the document holds at most one overlay, and the pending removals are of
    overlays created before. *)
Definition settled (s : t) : Prop :=
  isAnimating (this s) = false /\
  (length (overlays (page s)) <= 1)%nat /\
  (length (layers (this s)) <= 5)%nat /\
  Forall (fun e => exists id, e.2 = RemoveOverlay id /\ (id < nextOverlay (page s))%nat)
         (timers (page s)).

(** Layer [i] exists, has a [.layer-content] child and a configuration
    entry. *)
Definition canOpen (i : Z) (s : t) : Prop :=
  exists r content,
    getLayer i s = Some r /\
    layerEls (page s) !! r ≫= layerContent = Some content /\
    is_Some (LAYER_CONFIG i).

Definition hiddenEvent (s : t) : LayerEvent :=
  {| eventName := "layerDetailsHidden"; layerIndex := None;
     detailActiveLayer := activeLayer (this s);
     detailFocusedLayer := focusedLayer (this s) |}.

(** [ready], as a computation. *)
Definition readyb (s : t) : bool :=
  bool_decide (layers (this s) = seq 0 5) &&
  forallb (fun k => match layerEls (page s) !! k with
                    | Some el => negb (bool_decide (tabindex el = None))
                    | None => false
                    end) (seq 0 5) &&
  forallb (fun k => bool_decide (listenersOf (LayerEl k) "focus" (listeners (page s)) =
                                   [layerFocus (boundHandlers (this s))])) (seq 0 5) &&
  match activeElement (page s) with
  | Some (LayerEl k) => bool_decide (focusedLayer (this s) = Some (layerIndexOf k))
  | _ => true
  end.

End LayerManager.

(** Case analysis on every [match] on an option and every [if] of the goal. *)
Ltac case_all :=
  repeat match goal with
         | |- context [match ?x with Some _ => _ | None => _ end] => destruct x
         | |- context [if ?b then _ else _] => destruct b
         end.

(** ** The LayerManager in use *)

Module LayerManagerRun.
Import DOM LayerManager.

(** The focus leaves the layers (the user clicks or tabs elsewhere): the
    element that had it gets [blur]. *)
Definition focusElsewhere (s : t) : t :=
  match activeElement (page s) with
  | Some old => set_activeElement None (fireFocusEvent "blur" old s)
  | None => s
  end.

(** Everything that can happen to a manager: a DOM event dispatched at a
    node, the focus moved by the user, time passing, a frame, and calls of
    its methods.  An exception thrown by a method ends the call and leaves
    the state as it was when it was thrown. *)
Inductive input :=
| Event (target : node) (e : DomEvent)
| FocusLayer (k : nat)
| FocusElsewhere
| Advance (dt : nat)
| AnimationFrame
| call_setActiveLayer (layerIndex : Z)
| call_navigateLayer (direction : Z)
| call_cycleLayers (direction : Z)
| call_showLayerDetails (layerIndex : Z)
| call_hideLayerDetails
| call_highlightLayer (layerIndex : Z)
| call_unhighlightLayer (layerIndex : Z)
| call_destroy.

Definition step (i : input) (s : t) : t :=
  match i with
  | Event target e => deliver target e s
  | FocusLayer k => focusElement k s
  | FocusElsewhere => focusElsewhere s
  | Advance dt => advance dt s
  | AnimationFrame => animationFrame s
  | call_setActiveLayer i => setActiveLayer i s
  | call_navigateLayer d => navigateLayer d s
  | call_cycleLayers d => cycleLayers d s
  | call_showLayerDetails i => stateOf (showLayerDetails i s)
  | call_hideLayerDetails => stateOf (hideLayerDetails s)
  | call_highlightLayer i => stateOf (highlightLayer i s)
  | call_unhighlightLayer i => stateOf (unhighlightLayer i s)
  | call_destroy => stateOf (destroy s)
  end.

Definition run (inputs : list input) (s : t) : t :=
  fold_left (fun s i => step i s) inputs s.

(** An event is dispatched at a node of the page, and [setActiveLayer] is
    called with one of the five indices. *)
Definition admissible (n m : nat) (i : input) : Prop :=
  match i with
  | Event (LayerEl k) _ => (k < n)%nat
  | Event (IndicatorEl k) _ => (k < m)%nat
  | call_setActiveLayer i => (1 <= i <= 5)%Z
  | _ => True
  end.

(** The node is on a page with [n] layers and [m] dots. *)
Definition present (n m : nat) (x : node) : Prop :=
  match x with
  | LayerEl k => (k < n)%nat
  | IndicatorEl k => (k < m)%nat
  | _ => True
  end.

(** The page keeps to the contract of the widget: at most five layers and
    five dots, at most one overlay, a focused element that exists. *)
Definition contract (p : Page) : Prop :=
  (length (layerEls p) <= 5)%nat /\
  (length (indicatorEls p) <= 5)%nat /\
  (length (overlays p) <= 1)%nat /\
  (forall k, activeElement p = Some (LayerEl k) -> (k < length (layerEls p))%nat).

(** What holds of a manager on a page with [n] layers and [m] dots
    throughout its life. *)
Definition sound (n m : nat) (s : t) : Prop :=
  layers (this s) = seq 0 (length (layers (this s))) /\
  (length (layerEls (page s)) = n /\ length (indicatorEls (page s)) = m) /\
  ((n <= 5)%nat /\ (m <= 5)%nat) /\
  (forall k, activeElement (page s) = Some (LayerEl k) -> (k < n)%nat) /\
  selectionInRange s /\
  (length (overlays (page s)) <= 1)%nat.

(** A step that changes styles, logs, timers and listeners at most. *)
Definition restyled (s s' : t) : Prop :=
  layers (this s') = layers (this s) /\
  activeLayer (this s') = activeLayer (this s) /\
  focusedLayer (this s') = focusedLayer (this s) /\
  length (layerEls (page s')) = length (layerEls (page s)) /\
  length (indicatorEls (page s')) = length (indicatorEls (page s)) /\
  activeElement (page s') = activeElement (page s) /\
  (length (overlays (page s')) <= length (overlays (page s)))%nat.

(** Registering listeners changes the registry and the counter of function
    objects only. *)
Definition onlyListeners (s s' : t) : Prop :=
  s' = set_nextFn (nextFn (page s')) (set_listeners (fun _ => listeners (page s')) s).

(** The latch is held and no pending timer releases it. *)
Definition stuck (s : t) : Prop :=
  isAnimating (this s) = true /\
  forall e, e ∈ timers (page s) -> e.2 <> ReleaseLatch.

(** A step that leaves the latch alone and schedules at most the removal of
    overlays. *)
Definition quiet (s s' : t) : Prop :=
  isAnimating (this s') = isAnimating (this s) /\
  forall e, e ∈ timers (page s') ->
    e ∈ timers (page s) \/ exists id, e.2 = RemoveOverlay id.

(** The page [p] whose layer at position [k] has no [.layer-content]
    child. *)
Definition withoutContent (k : nat) (p : Page) : Page :=
  {| layerEls :=
       alter (fun e =>
                {| tabindex := tabindex e; role := role e; ariaLabel := ariaLabel e;
                   classActive := classActive e; styleTransform := styleTransform e;
                   styleBoxShadow := styleBoxShadow e; styleZIndex := styleZIndex e;
                   styleOpacity := styleOpacity e; layerContent := None |})
             k (layerEls p);
     indicatorEls := indicatorEls p; overlays := overlays p;
     activeElement := activeElement p; listeners := listeners p; nextFn := nextFn p;
     timers := timers p; frames := frames p; now := now p;
     dispatched := dispatched p; nextOverlay := nextOverlay p |}.

(** A relation between the states before and after a step that every
    update of the elements, the selection, the focus, the event log, the
    overlays and the frame queue satisfies, as does scheduling the removal
    of an overlay. *)
Class Frame (R : t -> t -> Prop) := {
  frame_refl : forall s, R s s;
  frame_trans : forall s1 s2 s3, R s1 s2 -> R s2 s3 -> R s1 s3;
  frame_layerEls : forall f s, R s (set_layerEls f s);
  frame_indicatorEls : forall f s, R s (set_indicatorEls f s);
  frame_dispatched : forall f s, R s (set_dispatched f s);
  frame_activeLayer : forall v s, R s (set_activeLayer v s);
  frame_focusedLayer : forall v s, R s (set_focusedLayer v s);
  frame_activeElement : forall v s, R s (set_activeElement v s);
  frame_overlays : forall f s, R s (set_overlays f s);
  frame_frames : forall f s, R s (set_frames f s);
  frame_removal : forall id delay s, R s (setTimeout (RemoveOverlay id) delay s)
}.

(** A step that registers no listener and creates no function object. *)
Definition still (s s' : t) : Prop :=
  listeners (page s') = listeners (page s) /\ nextFn (page s') = nextFn (page s).

(** The number of a function object. *)
Definition serialOf (f : fn) : option nat :=
  match f with
  | Method _ => None
  | Bound _ n | Arrow _ n => Some n
  end.

(** Every function object registered as a listener was created before the
    next one will be. *)
Definition fresh (ls : list registration) (next : nat) : Prop :=
  forall r n, r ∈ ls -> serialOf (callback r) = Some n -> (n < next)%nat.

(** The [keydown] listeners on the document. *)
Definition documentKeydown (s : t) : list fn :=
  listenersOf Document "keydown" (listeners (page s)).

End LayerManagerRun.

(** * Facts about the numeric helpers *)

Lemma Qltb_lt (x y : Q) : Qltb x y = true <-> (x < y)%Q.
Proof.
  unfold Qltb. rewrite negb_true_iff. split.
  - intros H. apply Qnot_le_lt. intros Hle.
    apply Qle_bool_iff in Hle. congruence.
  - intros H. destruct (Qle_bool y x) eqn:E; [|reflexivity].
    apply Qle_bool_iff in E. exfalso. apply (Qlt_not_le _ _ H E).
Qed.

Lemma Qltb_ge (x y : Q) : Qltb x y = false <-> (y <= x)%Q.
Proof.
  unfold Qltb. rewrite negb_false_iff. apply Qle_bool_iff.
Qed.

Lemma clamp_bounds (lo hi x : Q) :
  (lo <= hi)%Q -> (lo <= clamp lo hi x)%Q /\ (clamp lo hi x <= hi)%Q.
Proof.
  intros Hle. unfold clamp. split.
  - apply Q.le_max_l.
  - apply Q.max_lub; [exact Hle | apply Q.le_min_l].
Qed.

Lemma clamp_id (lo hi x : Q) :
  (lo <= x)%Q -> (x <= hi)%Q -> (clamp lo hi x == x)%Q.
Proof.
  intros H1 H2. unfold clamp.
  rewrite (Q.min_r hi x) by exact H2.
  apply Q.max_r. exact H1.
Qed.

(** * Properties of the RotationController *)

Module RotationControllerFacts.
Import DOM RotationController.
#[local] Open Scope Q_scope.

(** *** The scale stays within its clamp while no scale animation runs *)

Lemma scaleInv_same (s s' : t) :
  zoom s' = zoom s ->
  frameQueue (page s') = frameQueue (page s) ->
  scaleInv s -> scaleInv s'.
Proof.
  unfold scaleInv. intros -> ->. trivial.
Qed.

Lemma scaleInv_requestAnimationFrame (cb : FrameCallback) (s : t) :
  scaleFrameOk cb -> scaleInv s ->
  scaleInv (requestAnimationFrame cb s).2.
Proof.
  unfold scaleInv. cbn. intros Hcb (Hlo & Hhi & Hsc & Hq).
  repeat split; try tauto.
  apply Forall_app. split; [exact Hq|].
  constructor; [exact Hcb | constructor].
Qed.

Lemma scaleInv_applyTransform (s : t) : scaleInv s -> scaleInv (applyTransform s).
Proof. apply scaleInv_same; reflexivity. Qed.

Lemma scaleInv_set_scale (v : Q) (s : t) :
  0.2 <= v -> v <= 2 -> scaleInv s -> scaleInv (set_scale v s).
Proof.
  unfold scaleInv. cbn. intros H1 H2 (Hlo & Hhi & Hsc & Hq). tauto.
Qed.

Lemma clamp_scale_bounds (s : t) (x : Q) :
  scaleInv s ->
  0.2 <= clamp (minScale (zoom s)) (maxScale (zoom s)) x /\
  clamp (minScale (zoom s)) (maxScale (zoom s)) x <= 2.
Proof.
  intros (Hlo & Hhi & _). rewrite Hlo, Hhi. apply clamp_bounds. lra.
Qed.

Lemma scaleInv_updateZoom (delta : Q) (s : t) :
  scaleInv s -> scaleInv (updateZoom delta s).
Proof.
  intros H. unfold updateZoom.
  destruct (negb _); [|exact H].
  destruct (clamp_scale_bounds s (scale (zoom s) + delta) H) as [H1 H2].
  apply (scaleInv_same (set_scale (clamp (minScale (zoom s)) (maxScale (zoom s))
                                         (scale (zoom s) + delta)) s));
    try reflexivity.
  apply scaleInv_set_scale; assumption.
Qed.

Lemma scaleInv_animateToRotation (x y : Q) (s : t) :
  scaleInv s -> scaleInv (animateToRotation x y s).
Proof.
  intros H. unfold animateToRotation.
  apply scaleInv_requestAnimationFrame; [exact I | exact H].
Qed.

Lemma scaleInv_set_velocity (v : Velocity) (s : t) :
  scaleInv s -> scaleInv (set_velocity v s).
Proof. apply scaleInv_same; reflexivity. Qed.

Lemma scaleInv_setScale (sc : Q) (s : t) :
  scaleInv s -> scaleInv (setScale sc false s).
Proof.
  intros H. unfold setScale.
  destruct (clamp_scale_bounds s sc H) as [H1 H2].
  apply scaleInv_applyTransform, scaleInv_set_scale; assumption.
Qed.

Lemma scaleInv_runFrame (cb : FrameCallback) (s : t) :
  scaleFrameOk cb -> scaleInv s ->
  scaleInv (runFrame cb (now (page s)) s).
Proof.
  intros Hcb H. destruct cb as [|sx sy tx ty st|a b st]; cbn [runFrame].
  - set (s1 := if momentumActive s then momentumStep s else s).
    assert (H1 : scaleInv s1).
    { unfold s1. destruct (momentumActive s); [|exact H].
      revert H. apply scaleInv_same; reflexivity. }
    destruct (requestAnimationFrame LoopFrame s1) as [h s2] eqn:E.
    assert (H2 : scaleInv s2).
    { change s2 with (h, s2).2. rewrite <- E.
      apply scaleInv_requestAnimationFrame; [exact I | exact H1]. }
    revert H2. apply scaleInv_same; reflexivity.
  - match goal with |- scaleInv (if _ then (requestAnimationFrame ?c ?x).2 else _) =>
      assert (H1 : scaleInv x) by (revert H; apply scaleInv_same; reflexivity);
      destruct (Qltb _ 1); [|exact H1];
      apply scaleInv_requestAnimationFrame; [exact I | exact H1]
    end.
  - destruct Hcb.
Qed.

Lemma scaleInv_frames (q : list (nat * FrameCallback)) (s : t) :
  scaleInv s ->
  Forall (fun e => scaleFrameOk e.2) q ->
  scaleInv (fold_left (fun s e => runFrame e.2 (now (page s)) s) q s).
Proof.
  revert s. induction q as [|e q IH]; intros s H Hq; cbn [fold_left].
  - exact H.
  - inversion Hq as [|? ? He Hq']; subst.
    apply IH; [|exact Hq'].
    apply scaleInv_runFrame; assumption.
Qed.

Lemma scaleInv_animationFrame (s : t) : scaleInv s -> scaleInv (animationFrame s).
Proof.
  intros H. unfold animationFrame.
  apply scaleInv_frames.
  - destruct H as (Hlo & Hhi & Hsc & _).
    unfold scaleInv. cbn. repeat split; try tauto. constructor.
  - destruct H as (_ & _ & _ & Hq). exact Hq.
Qed.

Lemma scaleInv_elapse (dt : Q) (s : t) : scaleInv s -> scaleInv (elapse dt s).
Proof. apply scaleInv_same; reflexivity. Qed.

Lemma scaleInv_setRotation (x y : Q) (animate : bool) (s : t) :
  scaleInv s -> scaleInv (setRotation x y animate s).
Proof.
  intros H. unfold setRotation. destruct animate.
  - apply scaleInv_animateToRotation, H.
  - revert H. apply scaleInv_same; reflexivity.
Qed.

Lemma scaleInv_resetRotation (s : t) : scaleInv s -> scaleInv (resetRotation s).
Proof.
  intros H. unfold resetRotation.
  apply scaleInv_set_velocity, scaleInv_animateToRotation, H.
Qed.

Lemma scaleInv_rotateWithAnimation (dy dx : Q) (s : t) :
  scaleInv s -> scaleInv (rotateWithAnimation dy dx s).
Proof. intros H. unfold rotateWithAnimation. apply scaleInv_animateToRotation, H. Qed.

Lemma scaleInv_handleKeyDown (code : string) (s : t) :
  scaleInv s -> scaleInv (handleKeyDown code s).
Proof.
  intros H. unfold handleKeyDown.
  repeat (destruct (String.eqb code _);
          [first [apply scaleInv_rotateWithAnimation, H | apply scaleInv_resetRotation, H]|]).
  exact H.
Qed.

Lemma scaleInv_unlisten (n : node) (ty : string) (f : fn) (s : t) :
  scaleInv s -> scaleInv (unlisten n ty f s).
Proof. apply scaleInv_same; reflexivity. Qed.

Lemma scaleInv_cancelAnimationFrame (h : nat) (s : t) :
  scaleInv s -> scaleInv (cancelAnimationFrame h s).
Proof.
  intros (Hlo & Hhi & Hsc & Hq).
  unfold scaleInv. cbn. repeat split; try tauto.
  rewrite List.Forall_forall in Hq. apply List.Forall_forall. intros e He.
  rewrite <- list_elem_of_In in He. apply list_elem_of_filter in He.
  destruct He as [_ He]. apply Hq. rewrite <- list_elem_of_In. exact He.
Qed.

Lemma scaleInv_destroy (s : t) : scaleInv s -> scaleInv (destroy s).
Proof.
  intros H. unfold destroy. cbv zeta.
  repeat apply scaleInv_unlisten.
  destruct (animationId (animation s)) as [h|]; [|exact H].
  destruct (bool_decide (h ≠ 0%nat)); [|exact H].
  apply scaleInv_cancelAnimationFrame, H.
Qed.

Section WithSqrt.

Variable Math_sqrt : Q -> Q.

Lemma scaleInv_handleMouseUp (s : t) : scaleInv s -> scaleInv (handleMouseUp s).
Proof.
  intros H. unfold handleMouseUp. destruct (negb _); [exact H|].
  revert H. apply scaleInv_same; reflexivity.
Qed.

Lemma scaleInv_handleTouchStart (ts : list Touch) (s : t) :
  scaleInv s -> scaleInv (handleTouchStart Math_sqrt ts s).
Proof.
  unfold handleTouchStart. destruct ts as [|t0 [|t1 [|]]];
    apply scaleInv_same; reflexivity.
Qed.

Lemma scaleInv_handleTouchMove (ts : list Touch) (s : t) :
  scaleInv s -> scaleInv (handleTouchMove Math_sqrt ts s).
Proof.
  intros H. unfold handleTouchMove. destruct (Qltb _ _); [exact H|].
  assert (H1 : scaleInv (set_lastUpdateTime (now (page s)) s))
    by (revert H; apply scaleInv_same; reflexivity).
  destruct ts as [|t0 [|t1 [|]]]; try exact H1.
  cbv zeta. destruct (isZooming _); [|exact H1].
  match goal with |- scaleInv (set_lastDistance _ ?x) =>
    apply (scaleInv_same x); try reflexivity end.
  apply scaleInv_updateZoom, H1.
Qed.

Lemma scaleInv_handleTouchEnd (ts : list Touch) (s : t) :
  scaleInv s -> scaleInv (handleTouchEnd ts s).
Proof.
  intros H. unfold handleTouchEnd. destruct ts as [|t0 [|]]; try exact H;
    revert H; apply scaleInv_same; reflexivity.
Qed.

Lemma scaleInv_handleResize (width : Q) (s : t) :
  scaleInv s -> scaleInv (handleResize width s).
Proof.
  unfold handleResize.
  destruct (Qle_bool _ _); [|destruct (Qle_bool _ _)];
    apply scaleInv_same; reflexivity.
Qed.

Lemma scaleInv_invoke (f : fn) (e : DomEvent) (s : t) :
  scaleInv s -> scaleInv (invoke Math_sqrt f e s).
Proof.
  intros H. unfold invoke. destruct f as [|name ?|]; try exact H.
  repeat (destruct (String.eqb name _);
          [ first [ exact H
                  | apply scaleInv_handleMouseUp, H
                  | destruct e; try exact H;
                    first [ apply scaleInv_updateZoom, H
                          | apply scaleInv_handleTouchStart, H
                          | apply scaleInv_handleTouchMove, H
                          | apply scaleInv_handleTouchEnd, H
                          | apply scaleInv_handleKeyDown, H
                          | apply scaleInv_handleResize, H ] ]
          | ]).
  exact H.
Qed.

Lemma scaleInv_deliver (n : node) (e : DomEvent) (s : t) :
  scaleInv s -> scaleInv (deliver Math_sqrt n e s).
Proof.
  unfold deliver.
  generalize (listenersOf n (eventType e) (listeners (page s))).
  intros l. revert s. induction l as [|f l IH]; intros s H; cbn [fold_left].
  - exact H.
  - apply IH, scaleInv_invoke, H.
Qed.

Lemma scaleInv_step (i : input) (s : t) :
  unanimatedScale i -> scaleInv s -> scaleInv (step Math_sqrt i s).
Proof.
  intros Hi H. destruct i; cbn [step].
  - apply scaleInv_deliver, H.
  - apply scaleInv_animationFrame, H.
  - apply scaleInv_elapse, H.
  - revert H. apply scaleInv_same; reflexivity.
  - apply scaleInv_updateZoom, H.
  - apply scaleInv_setRotation, H.
  - destruct animate; [destruct Hi|]. apply scaleInv_setScale, H.
  - unfold setEnabled. destruct enabled; revert H; apply scaleInv_same; reflexivity.
  - apply scaleInv_resetRotation, H.
  - destruct Hi.
  - destruct Hi.
  - apply scaleInv_destroy, H.
Qed.

Lemma scaleInv_run (inputs : list input) (s : t) :
  Forall unanimatedScale inputs -> scaleInv s -> scaleInv (run Math_sqrt inputs s).
Proof.
  unfold run. revert s. induction inputs as [|i inputs IH]; intros s Hf H; cbn [fold_left].
  - exact H.
  - inversion Hf; subst. apply IH; [assumption|]. apply scaleInv_step; assumption.
Qed.

End WithSqrt.

Lemma frameQueue_new (p : Page) :
  frameQueue (page (new p)) = frameQueue p ++ [(nextHandle p, LoopFrame)].
Proof. reflexivity. Qed.

Lemma scaleInv_new (p : Page) : frameQueue p = [] -> scaleInv (new p).
Proof.
  intros Hq. unfold scaleInv. rewrite frameQueue_new, Hq.
  change (zoom (new p)) with
    {| scale := 1; minScale := 0.2; maxScale := 2; zoomSensitivity := 0.1 |}.
  cbn [scale minScale maxScale app].
  repeat split; try lra.
  repeat constructor.
Qed.

(** *** The scale and the animated [setScale] *)

(** C5 (the code departs from the claim).  [setScale(0.2, true)] on a fresh
    controller clamps its argument to 0.2 and starts the animation from 1;
    the frame 300 ms later, the last one, stores [1 + (0.2 - 1) * 1] as
    double arithmetic gives it: [7205759403792792 * 2^-55], printed
    0.19999999999999996, which is below [minScale] (below the rational 0.2
    and below the double nearest to it); no further frame is queued, so the
    scale stays there.  The argument taken as the double nearest to 0.2
    gives the same double.  The same call with [animate = false] stores
    0.2. *)
Theorem C5_animated_setScale_ends_below_minScale :
  let s0 := new (blankPage 0) in
  let s := run (fun x => x)
               [call_setScale 0.2 true; Elapse 300; AnimationFrame] s0 in
  let s' := run (fun x => x)
               [call_setScale (Binary64.round 0.2) true; Elapse 300; AnimationFrame] s0 in
  scale (zoom s) == 7205759403792792 # 36028797018963968 /\
  scale (zoom s) < minScale (zoom s) /\
  scale (zoom s) < Binary64.round (minScale (zoom s)) /\
  (frameQueue (page s)).*2 = [LoopFrame] /\
  scale (zoom s') == scale (zoom s) /\
  scale (zoom (setScale 0.2 false s0)) == 0.2.
Proof.
  cbv zeta. repeat match goal with |- _ /\ _ => split end; vm_compute; reflexivity.
Qed.

(** C10.  [updateZoom(delta)] changes nothing at all when the clamped new
    scale equals the stored one: the state is the same state, so no
    transform is written and no event is dispatched; this is the case for
    any zoom-in at [maxScale] and any zoom-out at [minScale].  Otherwise the
    new scale is stored, the transform is written and [rotationUpdate] then
    [zoomUpdate] are dispatched: [zoomUpdate] is emitted exactly when the
    stored scale changes. *)
Theorem C10_updateZoom_frame (delta : Q) (s : t) :
  let newScale :=
    clamp (minScale (zoom s)) (maxScale (zoom s)) (scale (zoom s) + delta) in
  let s' := updateZoom delta s in
  (newScale == scale (zoom s) -> s' = s) /\
  (minScale (zoom s) <= maxScale (zoom s) -> scale (zoom s) == maxScale (zoom s) ->
   0 <= delta -> s' = s) /\
  (minScale (zoom s) <= maxScale (zoom s) -> scale (zoom s) == minScale (zoom s) ->
   delta <= 0 -> s' = s) /\
  (~ newScale == scale (zoom s) ->
   scale (zoom s') = newScale /\
   ~ scale (zoom s') == scale (zoom s) /\
   wrapperTransform (page s') =
     Some (rotateX (rotation s), rotateY (rotation s), newScale) /\
   dispatched (page s') =
     dispatched (page s) ++
       [rotationUpdate (rotateX (rotation s)) (rotateY (rotation s)) newScale;
        zoomUpdate newScale (minScale (zoom s)) (maxScale (zoom s))]).
Proof.
  intros newScale s'.
  assert (Hsame : newScale == scale (zoom s) -> s' = s).
  { intros E. unfold s', updateZoom. fold newScale.
    apply Qeq_bool_iff in E. rewrite E. reflexivity. }
  split; [exact Hsame|].
  split; [|split].
  - intros Hle Hmax Hd. apply Hsame. unfold newScale, clamp.
    rewrite (Q.min_l (maxScale (zoom s))) by lra.
    rewrite Q.max_r by exact Hle. symmetry. exact Hmax.
  - intros Hle Hmin Hd. apply Hsame. unfold newScale, clamp.
    destruct (Q.min_spec (maxScale (zoom s)) (scale (zoom s) + delta)) as [[Hlt E]|[Hge E]];
      rewrite E.
    + lra.
    + rewrite Q.max_l by lra. symmetry. exact Hmin.
  - intros Hne. unfold s', updateZoom. fold newScale.
    destruct (Qeq_bool newScale (scale (zoom s))) eqn:E.
    + apply Qeq_bool_iff in E. contradiction.
    + cbn. rewrite <- app_assoc. cbn. auto.
Qed.

(** At the maximum a wheel step inwards changes nothing; one outwards is
    stored and announced. *)
Lemma C10_updateZoom_frame_witness :
  let s := set_scale 2 (new (blankPage 0)) in
  updateZoom 0.5 s = s /\
  dispatched (page (updateZoom (-0.5) s)) =
    dispatched (page s) ++
      [rotationUpdate 0 0 (clamp 0.2 2 (2 + -0.5));
       zoomUpdate (clamp 0.2 2 (2 + -0.5)) 0.2 2].
Proof.
  intros s.
  destruct (C10_updateZoom_frame 0.5 s) as (_ & Hmax & _).
  destruct (C10_updateZoom_frame (-0.5) s) as (_ & _ & _ & Hchg).
  split.
  - apply Hmax; cbn; [discriminate | reflexivity | discriminate].
  - apply Hchg. cbn. discriminate.
Defined.

(** *** Momentum *)

Lemma animationFrame_onlyLoop (s : t) :
  onlyLoop s ->
  onlyLoop (animationFrame s) /\
  pointer (animationFrame s) = pointer s /\
  dampening (animation (animationFrame s)) = dampening (animation s) /\
  rotation (animationFrame s) =
    if momentumActive s then rotation (momentumStep s) else rotation s.
Proof.
  unfold onlyLoop, animationFrame. intros H.
  destruct (frameQueue (page s)) as [|[h cb] [|? ?]] eqn:E; try discriminate.
  cbn in H. injection H as ->. cbn [fold_left snd runFrame].
  match goal with |- context [momentumActive ?x] =>
    change (momentumActive x) with (momentumActive s) end.
  destruct (momentumActive s); cbn; auto.
Qed.

Lemma momentumActive_false (s : t) :
  isDragging (pointer s) = false ->
  (momentumActive s = false <->
   Qabs (vx (velocity (rotation s))) <= 0.1 /\ Qabs (vy (velocity (rotation s))) <= 0.1).
Proof.
  intros Hd. unfold momentumActive. rewrite Hd. cbn [negb andb].
  rewrite orb_false_iff, !Qltb_ge. tauto.
Qed.

Lemma speed_small (s : t) :
  speed s <= 0.1 <->
  Qabs (vx (velocity (rotation s))) <= 0.1 /\ Qabs (vy (velocity (rotation s))) <= 0.1.
Proof.
  unfold speed. split.
  - intros H. split.
    + eapply Qle_trans; [apply Q.le_max_l | exact H].
    + eapply Qle_trans; [apply Q.le_max_r | exact H].
  - intros [H1 H2]. apply Q.max_lub; assumption.
Qed.

Lemma speed_nonneg (s : t) : 0 <= speed s.
Proof.
  unfold speed. eapply Qle_trans; [apply Qabs_nonneg | apply Q.le_max_l].
Qed.

Lemma rotation_momentumStep (s : t) :
  rotation (momentumStep s) =
    {| rotateX := clamp (- CONFIG.MAX_ROTATION_X) CONFIG.MAX_ROTATION_X
                        (rotateX (rotation s) + vx (velocity (rotation s)));
       rotateY := rotateY (rotation s) + vy (velocity (rotation s));
       velocity := {| vx := vx (velocity (rotation s)) * dampening (animation s);
                      vy := vy (velocity (rotation s)) * dampening (animation s) |} |}.
Proof. reflexivity. Qed.

Lemma speed_momentumStep (s : t) :
  dampening (animation s) = 0.95 ->
  speed (momentumStep s) == 0.95 * speed s.
Proof.
  intros Hd. unfold speed. rewrite rotation_momentumStep, Hd.
  cbn [velocity vx vy].
  rewrite !Qabs_Qmult.
  change (Qabs 0.95) with 0.95.
  set (a := Qabs (vx (velocity (rotation s)))).
  set (b := Qabs (vy (velocity (rotation s)))).
  destruct (Q.max_spec a b) as [[Hlt E]|[Hge E]]; rewrite E.
  - rewrite Q.max_r by nra. ring.
  - rewrite Q.max_l by nra. ring.
Qed.

Lemma frames_keep_loop (n : nat) (s : t) :
  onlyLoop s ->
  onlyLoop (Nat.iter n animationFrame s) /\
  pointer (Nat.iter n animationFrame s) = pointer s.
Proof.
  intros Hq. induction n as [|n IH].
  - cbn. auto.
  - rewrite Nat.iter_succ. destruct IH as [IHq IHp].
    destruct (animationFrame_onlyLoop _ IHq) as (Hq' & Hp' & _).
    split; [exact Hq' | congruence].
Qed.

(** Frames that find the velocity small leave rotation and velocity alone. *)
Lemma frames_at_rest (n : nat) (s : t) :
  onlyLoop s -> momentumActive s = false ->
  onlyLoop (Nat.iter n animationFrame s) /\
  pointer (Nat.iter n animationFrame s) = pointer s /\
  rotation (Nat.iter n animationFrame s) = rotation s.
Proof.
  intros Hq Hrest. induction n as [|n IH].
  - cbn. auto.
  - rewrite !Nat.iter_succ. destruct IH as (IHq & IHp & IHr).
    destruct (animationFrame_onlyLoop _ IHq) as (Hq' & Hp' & _ & Hr').
    assert (E : momentumActive (Nat.iter n animationFrame s) = false).
    { unfold momentumActive. rewrite IHp, IHr. exact Hrest. }
    rewrite E in Hr'.
    repeat split; [exact Hq' | congruence | congruence].
Qed.

(** A speed of at most [(20 + k) / 200] is small after [k] frames: each
    active frame takes a twentieth off a speed above 0.1. *)
Lemma frames_until_rest (k : nat) (s : t) :
  onlyLoop s -> isDragging (pointer s) = false ->
  dampening (animation s) = 0.95 ->
  200 * speed s <= 20 + inject_Z (Z.of_nat k) ->
  momentumActive (Nat.iter k animationFrame s) = false.
Proof.
  revert s. induction k as [|k IH]; intros s Hq Hd Hdamp Hsp.
  - change (Nat.iter 0 animationFrame s) with s.
    apply momentumActive_false; [exact Hd|].
    apply speed_small. change (inject_Z (Z.of_nat 0)) with 0 in Hsp. lra.
  - rewrite Nat.iter_succ_r.
    destruct (animationFrame_onlyLoop s Hq) as (Hq' & Hp' & Hdamp' & Hr').
    destruct (momentumActive s) eqn:Hact.
    + apply IH; [exact Hq' | congruence | congruence |].
      assert (Hfast : ~ speed s <= 0.1).
      { intros Hsmall. apply speed_small, momentumActive_false in Hsmall; congruence. }
      assert (E : speed (animationFrame s) == 0.95 * speed s).
      { rewrite <- (speed_momentumStep s Hdamp). unfold speed. rewrite Hr'. reflexivity. }
      rewrite E.
      assert (Hk : inject_Z (Z.of_nat (S k)) == inject_Z (Z.of_nat k) + 1).
      { rewrite Nat2Z.inj_succ, <- Z.add_1_r, inject_Z_plus. reflexivity. }
      rewrite Hk in Hsp. lra.
    + assert (Hrest' : momentumActive (animationFrame s) = false).
      { unfold momentumActive. rewrite Hp', Hr'. exact Hact. }
      destruct (frames_at_rest k _ Hq' Hrest') as (_ & Hp2 & Hr2).
      unfold momentumActive. rewrite Hp2, Hr2. exact Hrest'.
Qed.

Lemma restFrames_enough (s : t) :
  200 * speed s <= 20 + inject_Z (Z.of_nat (restFrames s)).
Proof.
  unfold restFrames.
  pose proof (speed_nonneg s) as H0.
  pose proof (Qle_ceiling (200 * speed s)) as Hc.
  assert (Hz : (0 <= Qceiling (200 * speed s))%Z).
  { assert (H2 : inject_Z 0 <= 200 * speed s) by (change (inject_Z 0) with 0; lra).
    apply Qceiling_resp_le in H2. rewrite Qceiling_Z in H2. exact H2. }
  rewrite Z2Nat.id by exact Hz.
  lra.
Qed.

(** C9 (amended).  With no gesture in progress and the momentum loop the only
    pending frame callback: a frame that finds a velocity component above 0.1
    in magnitude adds the velocity to the angles, clamps [rotateX] to
    [[-90, 90]] and multiplies both components by 0.95; a frame that finds
    both at most 0.1 changes neither angle nor velocity; and from some frame
    on both components are at most 0.1 in magnitude and rotation and velocity
    stay as they are.  (At most 0.1, not below it: the loop tests [> 0.1].) *)
Theorem C9_momentum_comes_to_rest (s : t) :
  onlyLoop s -> isDragging (pointer s) = false -> dampening (animation s) = 0.95 ->
  let v := velocity (rotation s) in
  (0.1 < Qabs (vx v) \/ 0.1 < Qabs (vy v) ->
   rotation (animationFrame s) =
     {| rotateX := clamp (-90) 90 (rotateX (rotation s) + vx v);
        rotateY := rotateY (rotation s) + vy v;
        velocity := {| vx := vx v * 0.95; vy := vy v * 0.95 |} |}) /\
  (Qabs (vx v) <= 0.1 /\ Qabs (vy v) <= 0.1 ->
   rotation (animationFrame s) = rotation s) /\
  exists n : nat, forall m : nat, (n <= m)%nat ->
    let sm := Nat.iter m animationFrame s in
    Qabs (vx (velocity (rotation sm))) <= 0.1 /\
    Qabs (vy (velocity (rotation sm))) <= 0.1 /\
    rotation sm = rotation (Nat.iter n animationFrame s).
Proof.
  intros Hq Hd Hdamp v.
  destruct (animationFrame_onlyLoop s Hq) as (_ & _ & _ & Hr).
  split; [|split].
  - intros Hfast.
    assert (Hact : momentumActive s = true).
    { destruct (momentumActive s) eqn:E; [reflexivity|].
      apply momentumActive_false in E; [|exact Hd].
      fold v in E. destruct E, Hfast; lra. }
    rewrite Hr, Hact, rotation_momentumStep, Hdamp. reflexivity.
  - intros Hslow. apply momentumActive_false in Hslow; [|exact Hd].
    rewrite Hr, Hslow. reflexivity.
  - exists (restFrames s). intros m Hm sm.
    pose proof (frames_until_rest _ s Hq Hd Hdamp (restFrames_enough s)) as Hrest.
    set (sn := Nat.iter (restFrames s) animationFrame s) in *.
    destruct (frames_keep_loop (restFrames s) s Hq) as [Hqn Hpn].
    fold sn in Hqn, Hpn.
    assert (Esm : sm = Nat.iter (m - restFrames s) animationFrame sn).
    { unfold sm, sn. rewrite <- Nat.iter_add. f_equal. lia. }
    destruct (frames_at_rest (m - restFrames s) sn Hqn Hrest) as (_ & _ & Hrot).
    rewrite <- Esm in Hrot.
    apply momentumActive_false in Hrest; [|congruence].
    rewrite Hrot. tauto.
Qed.

(** A push of -4 degrees per frame on [rotateX], left alone. *)
Lemma C9_momentum_comes_to_rest_witness :
  let s := updateRotation 0 (-80) 0.5 (new (blankPage 0)) in
  (onlyLoop s /\ isDragging (pointer s) = false /\ dampening (animation s) = 0.95) /\
  exists n : nat, forall m : nat, (n <= m)%nat ->
    let sm := Nat.iter m animationFrame s in
    Qabs (vx (velocity (rotation sm))) <= 0.1 /\
    Qabs (vy (velocity (rotation sm))) <= 0.1 /\
    rotation sm = rotation (Nat.iter n animationFrame s).
Proof.
  intros s.
  assert (H : onlyLoop s /\ isDragging (pointer s) = false /\
              dampening (animation s) = 0.95)
    by (repeat split; reflexivity).
  split; [exact H|].
  destruct H as (Hq & Hd & Hdamp).
  exact (proj2 (proj2 (C9_momentum_comes_to_rest s Hq Hd Hdamp))).
Defined.

(** The claim as written asks for both components to drop below 0.1.  After
    [updateRotation(0, 2, 0.5)] the velocity is (0.1, 0): no frame ever
    touches it, and its first component is never below 0.1. *)
Lemma C9_counterexample :
  let s := updateRotation 0 2 0.5 (new (blankPage 0)) in
  (onlyLoop s /\ isDragging (pointer s) = false) /\
  forall n : nat,
    Qabs (vx (velocity (rotation (Nat.iter n animationFrame s)))) == 0.1 /\
    ~ Qabs (vx (velocity (rotation (Nat.iter n animationFrame s)))) < 0.1.
Proof.
  intros s.
  assert (Hq : onlyLoop s) by reflexivity.
  split; [split; [exact Hq | reflexivity]|].
  intros n.
  destruct (frames_at_rest n s Hq eq_refl) as (_ & _ & Hrot).
  rewrite Hrot.
  split; [reflexivity|].
  cbn. discriminate.
Qed.

(** *** [rotateX] and the animated [setRotation] *)

(** C2 (the code departs from the claim).  [setRotation(200, 0, true)] hands
    200 to [animateToRotation] unclamped; the frame that ends the animation
    stores it, and [rotateX] is 200.  The same call with [animate = false]
    stores 90. *)
Theorem C2_animated_setRotation_escapes_clamp :
  let s0 := new (blankPage 0) in
  let s := run (fun x => x)
               [call_setRotation 200 0 true; Elapse 300; AnimationFrame] s0 in
  rotateX (rotation s) == 200 /\
  ~ rotateX (rotation s) <= CONFIG.MAX_ROTATION_X /\
  rotateX (rotation (setRotation 200 0 false s0)) == 90.
Proof.
  cbv zeta. split; [|split].
  - vm_compute. reflexivity.
  - vm_compute. intros H. apply H. reflexivity.
  - vm_compute. reflexivity.
Qed.

(** *** [rotateX] stays within its clamp while no rotation animation runs *)

Lemma clamp_rotation_bounds (x : Q) :
  -90 <= clamp (- CONFIG.MAX_ROTATION_X) CONFIG.MAX_ROTATION_X x /\
  clamp (- CONFIG.MAX_ROTATION_X) CONFIG.MAX_ROTATION_X x <= 90.
Proof.
  apply (clamp_bounds (- CONFIG.MAX_ROTATION_X) CONFIG.MAX_ROTATION_X x).
  unfold CONFIG.MAX_ROTATION_X. lra.
Qed.

Lemma rotationInv_same (s s' : t) :
  rotateX (rotation s') = rotateX (rotation s) ->
  frameQueue (page s') = frameQueue (page s) ->
  rotationInv s -> rotationInv s'.
Proof. unfold rotationInv. intros -> ->. trivial. Qed.

Lemma rotationInv_set (v : Q) (s s' : t) :
  -90 <= v -> v <= 90 ->
  rotateX (rotation s') = v ->
  frameQueue (page s') = frameQueue (page s) ->
  rotationInv s -> rotationInv s'.
Proof. unfold rotationInv. intros H1 H2 -> -> [_ Hq]. tauto. Qed.

Lemma rotationInv_requestAnimationFrame (cb : FrameCallback) (s : t) :
  rotationFrameOk cb -> rotationInv s ->
  rotationInv (requestAnimationFrame cb s).2.
Proof.
  unfold rotationInv. cbn. intros Hcb (Hr & Hq).
  split; [exact Hr|].
  apply Forall_app. split; [exact Hq|].
  constructor; [exact Hcb | constructor].
Qed.

Lemma rotationInv_animateToScale (x : Q) (s : t) :
  rotationInv s -> rotationInv (animateToScale x s).
Proof.
  intros H. unfold animateToScale.
  apply rotationInv_requestAnimationFrame; [exact I | exact H].
Qed.

Lemma rotationInv_updateZoom (delta : Q) (s : t) :
  rotationInv s -> rotationInv (updateZoom delta s).
Proof.
  unfold updateZoom. destruct (negb _); [|trivial].
  apply rotationInv_same; reflexivity.
Qed.

Lemma rotationInv_runFrame (cb : FrameCallback) (s : t) :
  rotationFrameOk cb -> rotationInv s ->
  rotationInv (runFrame cb (now (page s)) s).
Proof.
  intros Hcb H. destruct cb as [|sx sy tx ty st|a b st]; cbn [runFrame].
  - set (s1 := if momentumActive s then momentumStep s else s).
    assert (H1 : rotationInv s1).
    { unfold s1. destruct (momentumActive s); [|exact H].
      destruct (clamp_rotation_bounds
                  (rotateX (rotation s) + vx (velocity (rotation s)))) as [C1 C2].
      revert H. eapply rotationInv_set; [exact C1 | exact C2 | reflexivity..]. }
    destruct (requestAnimationFrame LoopFrame s1) as [h s2] eqn:E.
    assert (H2 : rotationInv s2).
    { change s2 with (h, s2).2. rewrite <- E.
      apply rotationInv_requestAnimationFrame; [exact I | exact H1]. }
    revert H2. apply rotationInv_same; reflexivity.
  - destruct Hcb.
  - match goal with |- rotationInv (if _ then (requestAnimationFrame ?c ?x).2 else _) =>
      assert (H1 : rotationInv x) by (revert H; apply rotationInv_same; reflexivity);
      destruct (Qltb _ 1); [|exact H1];
      apply rotationInv_requestAnimationFrame; [exact I | exact H1]
    end.
Qed.

Lemma rotationInv_frames (q : list (nat * FrameCallback)) (s : t) :
  rotationInv s ->
  Forall (fun e => rotationFrameOk e.2) q ->
  rotationInv (fold_left (fun s e => runFrame e.2 (now (page s)) s) q s).
Proof.
  revert s. induction q as [|e q IH]; intros s H Hq; cbn [fold_left].
  - exact H.
  - inversion Hq as [|? ? He Hq']; subst.
    apply IH; [|exact Hq'].
    apply rotationInv_runFrame; assumption.
Qed.

Lemma rotationInv_animationFrame (s : t) : rotationInv s -> rotationInv (animationFrame s).
Proof.
  intros [Hr Hq]. unfold animationFrame.
  apply rotationInv_frames; [|exact Hq].
  split; [exact Hr | constructor].
Qed.

Lemma rotationInv_elapse (dt : Q) (s : t) : rotationInv s -> rotationInv (elapse dt s).
Proof. apply rotationInv_same; reflexivity. Qed.

Lemma rotationInv_destroy (s : t) : rotationInv s -> rotationInv (destroy s).
Proof.
  intros H. unfold destroy. cbv zeta.
  match goal with |- rotationInv (unlisten _ _ _ (unlisten _ _ _ (unlisten _ _ _
      (unlisten _ _ _ (unlisten _ _ _ (unlisten _ _ _ (unlisten _ _ _
      (unlisten _ _ _ ?x)))))))) => apply (rotationInv_same x); try reflexivity
  end.
  destruct (animationId (animation s)) as [h|]; [|exact H].
  destruct (bool_decide (h ≠ 0%nat)); [|exact H].
  destruct H as [Hr Hq]. split; [exact Hr|]. cbn.
  rewrite List.Forall_forall in Hq. apply List.Forall_forall. intros e He.
  rewrite <- list_elem_of_In in He. apply list_elem_of_filter in He.
  destruct He as [_ He]. apply Hq. rewrite <- list_elem_of_In. exact He.
Qed.

Section RotationWithSqrt.

Variable Math_sqrt : Q -> Q.

Lemma rotationInv_invoke (f : fn) (e : DomEvent) (s : t) :
  pointerEvent e -> rotationInv s -> rotationInv (invoke Math_sqrt f e s).
Proof.
  intros He H. unfold invoke. destruct f as [|name ?|]; try exact H.
  repeat (destruct (String.eqb name _);
          [ first [ exact H | idtac ] | ]); try exact H.
  - unfold handleMouseUp. destruct (negb _); [exact H|].
    revert H. apply rotationInv_same; reflexivity.
  - destruct e; try exact H. apply rotationInv_updateZoom, H.
  - destruct e; try exact H. unfold handleTouchStart.
    destruct touches0 as [|t0 [|t1 [|]]]; revert H; apply rotationInv_same; reflexivity.
  - destruct e; try exact H. unfold handleTouchMove.
    destruct (Qltb _ _); [exact H|].
    assert (H1 : rotationInv (set_lastUpdateTime (now (page s)) s))
      by (revert H; apply rotationInv_same; reflexivity).
    destruct touches0 as [|t0 [|t1 [|]]]; try exact H1.
    cbv zeta. destruct (isZooming _); [|exact H1].
    match goal with |- rotationInv (set_lastDistance _ ?x) =>
      apply (rotationInv_same x); try reflexivity end.
    apply rotationInv_updateZoom, H1.
  - destruct e; try exact H. unfold handleTouchEnd.
    destruct touches0 as [|t0 [|]]; try exact H;
      revert H; apply rotationInv_same; reflexivity.
  - destruct e; try exact H. destruct He.
  - destruct e; try exact H. unfold handleResize.
    destruct (Qle_bool _ _); [|destruct (Qle_bool _ _)];
      revert H; apply rotationInv_same; reflexivity.
Qed.

Lemma rotationInv_step (i : input) (s : t) :
  unanimatedRotation i -> rotationInv s -> rotationInv (step Math_sqrt i s).
Proof.
  intros Hi H. destruct i; cbn [step].
  - assert (He : pointerEvent e) by (destruct e; try exact I; destruct Hi).
    unfold deliver.
    generalize (listenersOf n (eventType e) (listeners (page s))).
    intros l. revert s H. induction l as [|f l IH]; intros s H; cbn [fold_left].
    + exact H.
    + apply IH, rotationInv_invoke; assumption.
  - apply rotationInv_animationFrame, H.
  - apply rotationInv_elapse, H.
  - destruct (clamp_rotation_bounds
                (rotateX (rotation s) - deltaY * sensitivity0)) as [C1 C2].
    revert H. eapply rotationInv_set; [exact C1 | exact C2 | reflexivity..].
  - apply rotationInv_updateZoom, H.
  - unfold setRotation. destruct animate; [destruct Hi|].
    destruct (clamp_rotation_bounds x) as [C1 C2].
    revert H. eapply rotationInv_set; [exact C1 | exact C2 | reflexivity..].
  - unfold setScale. destruct animate.
    + apply rotationInv_animateToScale, H.
    + revert H. apply rotationInv_same; reflexivity.
  - unfold setEnabled. destruct enabled; revert H; apply rotationInv_same; reflexivity.
  - destruct Hi.
  - apply rotationInv_animateToScale, H.
  - destruct Hi.
  - apply rotationInv_destroy, H.
Qed.

Lemma rotationInv_run (time : Q) (inputs : list input) :
  Forall unanimatedRotation inputs ->
  rotationInv (run Math_sqrt inputs (new (blankPage time))).
Proof.
  intros Hf. unfold run.
  assert (H0 : rotationInv (new (blankPage time))).
  { split.
    - change (rotateX (rotation (new (blankPage time)))) with 0. lra.
    - rewrite frameQueue_new. repeat constructor. }
  revert H0. generalize (new (blankPage time)).
  induction inputs as [|i inputs IH]; intros s0 H0; cbn [fold_left].
  - exact H0.
  - inversion Hf; subst. apply IH; [assumption|].
    apply rotationInv_step; assumption.
Qed.

End RotationWithSqrt.

End RotationControllerFacts.

(** * Further properties of the RotationController *)

Module RotationControllerMore.
Import DOM RotationController RotationControllerFacts.
#[local] Open Scope Q_scope.

(** *** The screen follows the state *)

Lemma lastRotationUpdate_rotation (l : list CustomEvent) (rx ry sc : Q) :
  lastRotationUpdate (l ++ [rotationUpdate rx ry sc]) = Some (rx, ry, sc).
Proof.
  induction l as [|e l IH]; cbn [app lastRotationUpdate].
  - reflexivity.
  - rewrite IH. reflexivity.
Qed.

Lemma lastRotationUpdate_zoom (l : list CustomEvent) (sc lo hi : Q) :
  lastRotationUpdate (l ++ [zoomUpdate sc lo hi]) = lastRotationUpdate l.
Proof.
  induction l as [|e l IH]; cbn [app lastRotationUpdate].
  - reflexivity.
  - rewrite IH. reflexivity.
Qed.

Lemma inSync_same (s s' : t) :
  rotateX (rotation s') = rotateX (rotation s) ->
  rotateY (rotation s') = rotateY (rotation s) ->
  scale (zoom s') = scale (zoom s) ->
  wrapperTransform (page s') = wrapperTransform (page s) ->
  dispatched (page s') = dispatched (page s) ->
  inSync s -> inSync s'.
Proof. unfold inSync. intros -> -> -> -> ->. trivial. Qed.

(** [applyTransform] brings the screen up to date whatever came before. *)
Lemma inSync_applyTransform (s : t) : inSync (applyTransform s).
Proof.
  unfold inSync, applyTransform. cbn. split; [reflexivity|].
  apply lastRotationUpdate_rotation.
Qed.

Lemma inSync_updateZoom (delta : Q) (s : t) : inSync s -> inSync (updateZoom delta s).
Proof.
  intros H. unfold updateZoom. destruct (negb _); [|exact H].
  match goal with |- inSync (dispatchEvent _ ?x) =>
    pose proof (inSync_applyTransform
                  (set_scale (clamp (minScale (zoom s)) (maxScale (zoom s))
                                    (scale (zoom s) + delta)) s)) as [H1 H2]
  end.
  split.
  - exact H1.
  - cbn. cbn in H2. rewrite lastRotationUpdate_zoom. exact H2.
Qed.

Lemma inSync_requestAnimationFrame (cb : FrameCallback) (s : t) :
  inSync s -> inSync (requestAnimationFrame cb s).2.
Proof. apply inSync_same; reflexivity. Qed.

Lemma inSync_runFrame (cb : FrameCallback) (time : Q) (s : t) :
  inSync s -> inSync (runFrame cb time s).
Proof.
  intros H. destruct cb as [|sx sy tx ty st|a b st]; cbn [runFrame].
  - set (s1 := if momentumActive s then momentumStep s else s).
    assert (H1 : inSync s1).
    { unfold s1. destruct (momentumActive s); [|exact H].
      unfold momentumStep, applyRotation. apply inSync_applyTransform. }
    destruct (requestAnimationFrame LoopFrame s1) as [h s2] eqn:E.
    assert (H2 : inSync s2).
    { change s2 with (h, s2).2. rewrite <- E.
      apply inSync_requestAnimationFrame, H1. }
    revert H2. apply inSync_same; reflexivity.
  - destruct (Qltb _ 1).
    + apply inSync_requestAnimationFrame. unfold applyRotation.
      apply inSync_applyTransform.
    + unfold applyRotation. apply inSync_applyTransform.
  - destruct (Qltb _ 1).
    + apply inSync_requestAnimationFrame, inSync_applyTransform.
    + apply inSync_applyTransform.
Qed.

Lemma inSync_animationFrame (s : t) : inSync s -> inSync (animationFrame s).
Proof.
  intros H. unfold animationFrame.
  match goal with |- inSync (fold_left _ ?q ?x) =>
    assert (H0 : inSync x) by (revert H; apply inSync_same; reflexivity);
    generalize dependent x; generalize q
  end.
  intros q. induction q as [|e q IH]; intros x Hx; cbn [fold_left].
  - exact Hx.
  - apply IH, inSync_runFrame, Hx.
Qed.

Lemma inSync_animateToRotation (x y : Q) (s : t) :
  inSync s -> inSync (animateToRotation x y s).
Proof. apply inSync_same; reflexivity. Qed.

Lemma inSync_animateToScale (x : Q) (s : t) :
  inSync s -> inSync (animateToScale x s).
Proof. apply inSync_same; reflexivity. Qed.

Lemma inSync_handleKeyDown (code : string) (s : t) :
  inSync s -> inSync (handleKeyDown code s).
Proof.
  unfold handleKeyDown.
  repeat (destruct (String.eqb code _); [apply inSync_same; reflexivity|]).
  trivial.
Qed.

Lemma inSync_destroy (s : t) : inSync s -> inSync (destroy s).
Proof.
  unfold destroy.
  destruct (animationId (animation s)) as [h|];
    [destruct (bool_decide (h ≠ 0%nat))|]; apply inSync_same; reflexivity.
Qed.

Section SyncWithSqrt.

Variable Math_sqrt : Q -> Q.

Lemma inSync_handleTouchMove (ts : list Touch) (s : t) :
  inSync s -> inSync (handleTouchMove Math_sqrt ts s).
Proof.
  intros H. unfold handleTouchMove. destruct (Qltb _ _); [exact H|].
  assert (H1 : inSync (set_lastUpdateTime (now (page s)) s))
    by (revert H; apply inSync_same; reflexivity).
  destruct ts as [|t0 [|t1 [|]]]; try exact H1.
  cbv zeta. destruct (isZooming _); [|exact H1].
  match goal with |- inSync (set_lastDistance _ ?x) =>
    apply (inSync_same x); try reflexivity end.
  apply inSync_updateZoom, H1.
Qed.

Lemma inSync_invoke (f : fn) (e : DomEvent) (s : t) :
  inSync s -> inSync (invoke Math_sqrt f e s).
Proof.
  intros H. unfold invoke. destruct f as [|name ?|]; try exact H.
  repeat (destruct (String.eqb name _); [first [exact H | idtac]|]); try exact H.
  - unfold handleMouseUp. destruct (negb _); [exact H|].
    revert H. apply inSync_same; reflexivity.
  - destruct e; try exact H. apply inSync_updateZoom, H.
  - destruct e; try exact H. unfold handleTouchStart.
    destruct touches0 as [|t0 [|t1 [|]]]; revert H; apply inSync_same; reflexivity.
  - destruct e; try exact H. apply inSync_handleTouchMove, H.
  - destruct e; try exact H. unfold handleTouchEnd.
    destruct touches0 as [|t0 [|]]; try exact H;
      revert H; apply inSync_same; reflexivity.
  - destruct e; try exact H. apply inSync_handleKeyDown, H.
  - destruct e; try exact H. unfold handleResize.
    destruct (Qle_bool _ _); [|destruct (Qle_bool _ _)];
      revert H; apply inSync_same; reflexivity.
Qed.

Lemma inSync_step (i : input) (s : t) : inSync s -> inSync (step Math_sqrt i s).
Proof.
  intros H. destruct i; cbn [step].
  - unfold deliver.
    generalize (listenersOf n (eventType e) (listeners (page s))).
    intros l. revert s H. induction l as [|f l IH]; intros s H; cbn [fold_left].
    + exact H.
    + apply IH, inSync_invoke, H.
  - apply inSync_animationFrame, H.
  - revert H. apply inSync_same; reflexivity.
  - unfold updateRotation, applyRotation. apply inSync_applyTransform.
  - apply inSync_updateZoom, H.
  - unfold setRotation. destruct animate.
    + apply inSync_animateToRotation, H.
    + apply inSync_applyTransform.
  - unfold setScale. destruct animate.
    + apply inSync_animateToScale, H.
    + apply inSync_applyTransform.
  - unfold setEnabled. destruct enabled; revert H; apply inSync_same; reflexivity.
  - revert H. apply inSync_same; reflexivity.
  - apply inSync_animateToScale, H.
  - revert H. apply inSync_same; reflexivity.
  - apply inSync_destroy, H.
Qed.

(** X1.  After the construction and after every input, without exception,
    the transform written on the wrapper and the detail of the last
    [rotationUpdate] dispatched are the stored angles and scale. *)
Theorem transform_follows_state (time : Q) (inputs : list input) :
  let s := run Math_sqrt inputs (new (blankPage time)) in
  wrapperTransform (page s) =
    Some (rotateX (rotation s), rotateY (rotation s), scale (zoom s)) /\
  lastRotationUpdate (dispatched (page s)) =
    Some (rotateX (rotation s), rotateY (rotation s), scale (zoom s)).
Proof.
  intros s. change (inSync s). unfold s, run.
  assert (H0 : inSync (new (blankPage time))) by apply inSync_applyTransform.
  revert H0. generalize (new (blankPage time)).
  induction inputs as [|i inputs IH]; intros s0 H0; cbn [fold_left].
  - exact H0.
  - apply IH, inSync_step, H0.
Qed.

(** *** Pointer input does not rotate *)

Lemma rotation_updateZoom (delta : Q) (s : t) :
  rotation (updateZoom delta s) = rotation s /\
  frameQueue (page (updateZoom delta s)) = frameQueue (page s).
Proof. unfold updateZoom. destruct (negb _); split; reflexivity. Qed.

Lemma rotation_invoke_pointer (f : fn) (e : DomEvent) (s : t) :
  pointerEvent e ->
  rotation (invoke Math_sqrt f e s) = rotation s /\
  frameQueue (page (invoke Math_sqrt f e s)) = frameQueue (page s).
Proof.
  intros He. unfold invoke. destruct f as [|name ?|]; try (split; reflexivity).
  repeat (destruct (String.eqb name _); [first [split; reflexivity | idtac]|]);
    try (split; reflexivity).
  - unfold handleMouseUp. destruct (negb _); split; reflexivity.
  - destruct e; try (split; reflexivity). apply rotation_updateZoom.
  - destruct e; try (split; reflexivity). unfold handleTouchStart.
    destruct touches0 as [|t0 [|t1 [|]]]; split; reflexivity.
  - destruct e; try (split; reflexivity). unfold handleTouchMove.
    destruct (Qltb _ _); [split; reflexivity|].
    destruct touches0 as [|t0 [|t1 [|]]]; try (split; reflexivity).
    cbv zeta. destruct (isZooming _); [|split; reflexivity].
    match goal with |- context [updateZoom ?d ?x] =>
      destruct (rotation_updateZoom d x) as [R1 R2] end.
    split; [exact R1 | exact R2].
  - destruct e; try (split; reflexivity). unfold handleTouchEnd.
    destruct touches0 as [|t0 [|]]; split; reflexivity.
  - destruct e; try (split; reflexivity). destruct He.
  - destruct e; try (split; reflexivity). unfold handleResize.
    destruct (Qle_bool _ _); [|destruct (Qle_bool _ _)]; split; reflexivity.
Qed.

(** X2.  No mouse, wheel, touch, contextmenu, dragstart or resize event,
    at whatever node and whatever listeners are registered, changes the
    angles or the velocity or starts an animation: rotation is driven by the
    keyboard and the methods alone. *)
Theorem pointer_input_never_rotates (n : node) (e : DomEvent) (s : t) :
  pointerEvent e ->
  rotation (deliver Math_sqrt n e s) = rotation s /\
  frameQueue (page (deliver Math_sqrt n e s)) = frameQueue (page s).
Proof.
  intros He. unfold deliver.
  generalize (listenersOf n (eventType e) (listeners (page s))).
  intros l. revert s. induction l as [|f l IH]; intros s; cbn [fold_left].
  - split; reflexivity.
  - destruct (IH (invoke Math_sqrt f e s)) as [I1 I2].
    destruct (rotation_invoke_pointer f e s He) as [R1 R2].
    split; congruence.
Qed.

End SyncWithSqrt.

(** A pinch that doubles the distance of the fingers zooms and leaves the
    angles alone. *)
Lemma pointer_input_never_rotates_witness :
  let s := handleTouchStart (fun x => x) [Build_Touch 0 0; Build_Touch 3 4]
             (elapse 20 (new (blankPage 0))) in
  let e := touchmove [Build_Touch 0 0; Build_Touch 6 8] in
  pointerEvent e /\
  rotation (deliver (fun x => x) Document e s) = rotation s /\
  ~ scale (zoom (deliver (fun x => x) Document e s)) == scale (zoom s).
Proof.
  intros s e. split; [exact I|]. split.
  - exact (proj1 (pointer_input_never_rotates (fun x => x) Document e s I)).
  - vm_compute. discriminate.
Defined.

(** *** Bounds while no animation runs *)

(** X3.  Along every run of a fresh controller in which no scale animation
    is started (no [setScale(_, true)], [resetZoom()] or [resetAll()]):
    wheel and pinch events with any deltas, [updateZoom] and
    [setScale(_, false)] with any argument, all other events, frames and
    methods included, the stored scale lies within [[minScale, maxScale]],
    which stay 0.2 and 2. *)
Theorem scale_within_bounds_without_animation
    (Math_sqrt : Q -> Q) (time : Q) (inputs : list input) :
  Forall unanimatedScale inputs ->
  let s := run Math_sqrt inputs (new (blankPage time)) in
  minScale (zoom s) = 0.2 /\ maxScale (zoom s) = 2 /\
  minScale (zoom s) <= scale (zoom s) /\ scale (zoom s) <= maxScale (zoom s).
Proof.
  intros Hf s.
  assert (H : scaleInv s).
  { apply scaleInv_run; [exact Hf|]. apply scaleInv_new. reflexivity. }
  destruct H as (Hlo & Hhi & [H1 H2] & _).
  rewrite Hlo, Hhi. tauto.
Qed.

(** A run that zooms far in by the wheel, sets a scale far below the
    minimum and zooms by the method, with a key press and frames in
    between. *)
Lemma scale_within_bounds_without_animation_witness :
  let inputs := [Event LayersWrapper (wheel (-5000)); AnimationFrame;
                 call_setScale (-3) false; Event Document (keydown "ArrowUp");
                 Elapse 150; AnimationFrame; call_updateZoom 7] in
  let s := run (fun x => x) inputs (new (blankPage 0)) in
  Forall unanimatedScale inputs /\
  (minScale (zoom s) = 0.2 /\ maxScale (zoom s) = 2 /\
   minScale (zoom s) <= scale (zoom s) /\ scale (zoom s) <= maxScale (zoom s)).
Proof.
  intros inputs s.
  assert (Hf : Forall unanimatedScale inputs) by (repeat constructor).
  split; [exact Hf|].
  exact (scale_within_bounds_without_animation (fun x => x) 0 inputs Hf).
Defined.

(** X4.  Along every run of a fresh controller in which no rotation
    animation is started (no key press, [setRotation(_, _, true)],
    [resetRotation()] or [resetAll()]): [updateRotation] with any deltas,
    [setRotation(_, _, false)] with any angle, every frame of the momentum
    loop, all other events and methods included, [rotateX] lies within
    [[-90, 90]]. *)
Theorem rotateX_within_clamp_without_animation
    (Math_sqrt : Q -> Q) (time : Q) (inputs : list input) :
  Forall unanimatedRotation inputs ->
  let s := run Math_sqrt inputs (new (blankPage time)) in
  - CONFIG.MAX_ROTATION_X <= rotateX (rotation s) /\
  rotateX (rotation s) <= CONFIG.MAX_ROTATION_X.
Proof.
  intros Hf s. apply (rotationInv_run Math_sqrt time inputs Hf).
Qed.

(** A push of 400 degrees per call, carried on by the momentum loop. *)
Lemma rotateX_within_clamp_without_animation_witness :
  let inputs := [call_updateRotation 0 (-800) 0.5; AnimationFrame; AnimationFrame;
                 call_setRotation (-500) 10 false; call_setScale 3 true;
                 Elapse 100; AnimationFrame] in
  let s := run (fun x => x) inputs (new (blankPage 0)) in
  Forall unanimatedRotation inputs /\
  (- CONFIG.MAX_ROTATION_X <= rotateX (rotation s) /\
   rotateX (rotation s) <= CONFIG.MAX_ROTATION_X).
Proof.
  intros inputs s.
  assert (Hf : Forall unanimatedRotation inputs) by (repeat constructor).
  split; [exact Hf|].
  exact (rotateX_within_clamp_without_animation (fun x => x) 0 inputs Hf).
Defined.

(** *** Teardown and the momentum loop *)

Lemma animationFrame_idle (s : t) :
  frameQueue (page s) = [] ->
  frameQueue (page (animationFrame s)) = [] /\
  rotation (animationFrame s) = rotation s /\
  zoom (animationFrame s) = zoom s /\
  dispatched (page (animationFrame s)) = dispatched (page s).
Proof.
  intros H. unfold animationFrame. rewrite H. cbn. auto.
Qed.

(** X5.  [destroy()] of a controller whose only pending frame callback is
    the momentum loop cancels the loop: no frame callback is left, and the
    frames that follow change neither the angles nor the velocity nor the
    scale and dispatch nothing, whatever the velocity is. *)
Theorem destroy_stops_momentum (s : t) (n : nat) :
  loopTracked s ->
  let d := destroy s in
  frameQueue (page d) = [] /\
  rotation (Nat.iter n animationFrame d) = rotation s /\
  zoom (Nat.iter n animationFrame d) = zoom s /\
  dispatched (page (Nat.iter n animationFrame d)) = dispatched (page s).
Proof.
  intros (h & Hh & Hq & Hid) d.
  assert (Hd : frameQueue (page d) = [] /\ rotation d = rotation s /\
               zoom d = zoom s /\ dispatched (page d) = dispatched (page s)).
  { unfold d, destroy. rewrite Hid.
    rewrite bool_decide_eq_true_2 by exact Hh.
    cbn. rewrite Hq. cbn.
    rewrite decide_False by (intros Hne; apply Hne; reflexivity).
    auto. }
  destruct Hd as (D1 & D2 & D3 & D4).
  split; [exact D1|].
  rewrite <- D2, <- D3, <- D4.
  induction n as [|n IH].
  - cbn. auto.
  - rewrite Nat.iter_succ.
    assert (Hidle : frameQueue (page (Nat.iter n animationFrame d)) = []).
    { clear IH. induction n as [|n IHn].
      - exact D1.
      - rewrite Nat.iter_succ. apply animationFrame_idle, IHn. }
    destruct (animationFrame_idle _ Hidle) as (_ & I2 & I3 & I4).
    destruct IH as (J2 & J3 & J4).
    repeat split; congruence.
Qed.

(** A controller given a velocity of 4 degrees per frame, then destroyed:
    ten frames later nothing has moved, where one frame without [destroy()]
    moves it. *)
Lemma destroy_stops_momentum_witness :
  let s := updateRotation 0 (-80) 0.5 (new (blankPage 0)) in
  loopTracked s /\
  rotation (Nat.iter 10 animationFrame (destroy s)) = rotation s /\
  rotateX (rotation (animationFrame s)) == rotateX (rotation s) - 4.
Proof.
  intros s.
  assert (H : loopTracked s).
  { exists 1%nat. split; [discriminate|]. split; reflexivity. }
  split; [exact H|]. split.
  - exact (proj1 (proj2 (destroy_stops_momentum s 10 H))).
  - vm_compute. reflexivity.
Defined.

(** *** Resize *)

(** X6.  [handleResize] sets the two sensitivities from the width alone:
    both are positive, the touch sensitivity is below the mouse sensitivity,
    which is at most 0.5, and neither decreases when the window gets wider.
    Nothing else of the controller changes. *)
Theorem handleResize_bands (w1 w2 : Q) (s : t) :
  let a := handleResize w1 s in
  let b := handleResize w2 s in
  (0 < touchSensitivity (sens a) /\
   touchSensitivity (sens a) < sensitivity (sens a) /\
   sensitivity (sens a) <= 0.5) /\
  (w1 <= w2 ->
   sensitivity (sens a) <= sensitivity (sens b) /\
   touchSensitivity (sens a) <= touchSensitivity (sens b)) /\
  (rotation a = rotation s /\ zoom a = zoom s /\ pointer a = pointer s /\
   multiTouch a = multiTouch s /\ animation a = animation s /\
   perf a = perf s /\ page a = page s) /\
  handleResize w2 a = b.
Proof.
  cbv zeta. unfold handleResize, CONFIG.BREAKPOINTS.MOBILE, CONFIG.BREAKPOINTS.TABLET,
    CONFIG.ROTATION_SENSITIVITY.
  destruct (Qle_bool w1 480) eqn:A1; [|destruct (Qle_bool w1 768) eqn:A2];
    (destruct (Qle_bool w2 480) eqn:B1; [|destruct (Qle_bool w2 768) eqn:B2]);
    cbn [sens set_sensitivities set_sens sensitivity touchSensitivity
         rotation zoom pointer multiTouch animation perf page];
    (split; [repeat split; try reflexivity; discriminate|]);
    (split; [|split; [repeat split; reflexivity | reflexivity]]);
    intros Hw;
    repeat match goal with
           | H : Qle_bool _ _ = true |- _ => apply Qle_bool_iff in H
           | H : Qle_bool ?x ?y = false |- _ =>
               assert (y < x) by (apply Qnot_le_lt; intros Hle;
                                  apply Qle_bool_iff in Hle; congruence);
               clear H
           end;
    first [split; discriminate | exfalso; lra].
Qed.

Lemma handleResize_bands_witness :
  let s := new (blankPage 0) in
  400 <= 1280 /\
  sensitivity (sens (handleResize 400 s)) <= sensitivity (sens (handleResize 1280 s)) /\
  touchSensitivity (sens (handleResize 400 s)) <=
    touchSensitivity (sens (handleResize 1280 s)).
Proof.
  intros s.
  assert (H : 400 <= 1280) by discriminate.
  split; [exact H|].
  exact (proj1 (proj2 (handleResize_bands 400 1280 s)) H).
Defined.

End RotationControllerMore.

(** * Properties of the LayerManager *)

Module LayerManagerFacts.
Import DOM LayerManager.

(** *** What the setters leave alone *)

Lemma this_dispatchLayerEvent (n : string) (i : option Z) (s : t) :
  this (dispatchLayerEvent n i s) = this s.
Proof. reflexivity. Qed.

Lemma this_withLayer (r : nat) (f : LayerElement -> LayerElement) (s : t) :
  this (withLayer r f s) = this s.
Proof. reflexivity. Qed.

Lemma this_withIndicator (r : nat) (f : IndicatorElement -> IndicatorElement) (s : t) :
  this (withIndicator r f s) = this s.
Proof. reflexivity. Qed.

(** *** [setActiveLayer] *)

(** The instance fields after [setActiveLayer(i)]: only [activeLayer] is
    written. *)
Lemma this_setActiveLayer (i : Z) (s : t) :
  this (setActiveLayer i s) = this (set_activeLayer (Some i) s).
Proof.
  unfold setActiveLayer.
  destruct (bool_decide (activeLayer (this s) = Some i)) eqn:E.
  - apply bool_decide_eq_true in E. destruct s as [[] ?]. cbn in *. subst. reflexivity.
  - repeat match goal with
           | |- context [match ?x with Some _ => _ | None => _ end] => destruct x
           | |- context [if ?b then _ else _] => destruct b
           end; reflexivity.
Qed.

Lemma activeLayer_setActiveLayer (i : Z) (s : t) :
  activeLayer (this (setActiveLayer i s)) = Some i.
Proof. rewrite this_setActiveLayer. reflexivity. Qed.

Lemma setActiveLayer_same (i : Z) (s : t) :
  activeLayer (this s) = Some i -> setActiveLayer i s = s.
Proof.
  intros H. unfold setActiveLayer. rewrite bool_decide_eq_true_2 by exact H. reflexivity.
Qed.

Lemma dispatched_setActiveLayer (i : Z) (s : t) :
  activeLayer (this s) <> Some i ->
  dispatched (page (setActiveLayer i s)) =
    dispatched (page s) ++
      [{| eventName := "layerActivated"; layerIndex := Some i;
          detailActiveLayer := Some i;
          detailFocusedLayer := focusedLayer (this s) |}].
Proof.
  intros H. unfold setActiveLayer. rewrite bool_decide_eq_false_2 by exact H.
  repeat match goal with
         | |- context [match ?x with Some _ => _ | None => _ end] => destruct x
         | |- context [if ?b then _ else _] => destruct b
         end; reflexivity.
Qed.

(** C6.  [setActiveLayer(i)] leaves the state as it is when [i] is the
    active layer.  Called twice in a row with the same [i], the second call
    changes nothing; when [i] was not the active layer, the two calls
    together make [i] active and dispatch exactly one [layerActivated]. *)
Theorem C6_setActiveLayer_idempotent (i : Z) (s : t) :
  let s1 := setActiveLayer i s in
  let s2 := setActiveLayer i s1 in
  (activeLayer (this s) = Some i -> s1 = s) /\
  s2 = s1 /\
  activeLayer (this s2) = Some i /\
  (activeLayer (this s) <> Some i ->
   dispatched (page s2) =
     dispatched (page s) ++
       [{| eventName := "layerActivated"; layerIndex := Some i;
           detailActiveLayer := Some i;
           detailFocusedLayer := focusedLayer (this s) |}]).
Proof.
  intros s1 s2.
  assert (E : s2 = s1) by (apply setActiveLayer_same, activeLayer_setActiveLayer).
  split; [apply setActiveLayer_same|].
  split; [exact E|].
  rewrite E. split; [apply activeLayer_setActiveLayer|].
  apply dispatched_setActiveLayer.
Qed.

(** Starting from the manager of a page with five layers and five dots,
    [setActiveLayer(2)] twice: one event more than before, not two. *)
Lemma C6_setActiveLayer_idempotent_witness :
  let s := stateOf (new (blankPage 5 5)) in
  let s2 := setActiveLayer 2 (setActiveLayer 2 s) in
  activeLayer (this s) = Some 3%Z /\
  activeLayer (this s2) = Some 2%Z /\
  dispatched (page s2) =
    dispatched (page s) ++
      [{| eventName := "layerActivated"; layerIndex := Some 2%Z;
          detailActiveLayer := Some 2%Z; detailFocusedLayer := None |}].
Proof.
  intros s s2.
  destruct (C6_setActiveLayer_idempotent 2 s) as (_ & _ & Hact & Hev).
  split; [reflexivity|].
  split; [exact Hact|].
  apply Hev. discriminate.
Defined.

(** *** Loops over the layers *)

Lemma LAYER_CONFIG_defined (index : nat) :
  (index < 5)%nat -> is_Some (LAYER_CONFIG (layerIndexOf index)).
Proof.
  intros H.
  do 5 (destruct index as [|index]; [cbn; eauto|]).
  lia.
Qed.

(** A loop over at most five layers whose body, where the configuration
    entry exists, returns normally and keeps [P], returns normally and
    keeps [P]. *)
Lemma forEachLayer_ok (P : t -> Prop) (f : nat -> nat -> t -> outcome)
    (l : list nat) (index : nat) (s : t) :
  (forall r i s, (i < 5)%nat -> P s -> exists s', f r i s = Ok s' /\ P s') ->
  (index + length l <= 5)%nat -> P s ->
  exists s', forEachLayer f l index s = Ok s' /\ P s'.
Proof.
  intros Hf. revert index s. induction l as [|r l IH]; intros index s Hlen HP.
  - exists s. split; [reflexivity | exact HP].
  - cbn [forEachLayer]. cbn [length] in Hlen.
    destruct (Hf r index s) as (s1 & E1 & HP1); [lia | exact HP |].
    rewrite E1. cbn [andThen]. apply IH; [lia | exact HP1].
Qed.

Lemma updateLayerVisibility_ok (rotateX rotateY : Q) (s : t) :
  (length (layers (this s)) <= 5)%nat ->
  exists s', updateLayerVisibility rotateX rotateY s = Ok s' /\ this s' = this s.
Proof.
  intros Hlen. unfold updateLayerVisibility.
  apply (forEachLayer_ok (fun s' => this s' = this s)); [|lia|reflexivity].
  intros r i s1 Hi HP.
  destruct (LAYER_CONFIG_defined i Hi) as [c Hc]. rewrite Hc.
  eexists. split; [reflexivity|]. exact HP.
Qed.

Lemma resetLayerPositions_ok (s : t) :
  (length (layers (this s)) <= 5)%nat ->
  exists s', resetLayerPositions s = Ok s' /\
    this s' = this s /\ overlays (page s') = overlays (page s) /\
    timers (page s') = timers (page s) /\ dispatched (page s') = dispatched (page s) /\
    now (page s') = now (page s) /\ listeners (page s') = listeners (page s).
Proof.
  intros Hlen. unfold resetLayerPositions.
  apply (forEachLayer_ok (fun s' =>
           this s' = this s /\ overlays (page s') = overlays (page s) /\
           timers (page s') = timers (page s) /\
           dispatched (page s') = dispatched (page s) /\
           now (page s') = now (page s) /\
           listeners (page s') = listeners (page s))); [|lia|tauto].
  intros r i s1 Hi HP.
  destruct (LAYER_CONFIG_defined i Hi) as [c Hc]. rewrite Hc.
  eexists. split; [reflexivity|]. exact HP.
Qed.

(** *** Rotation-driven activation *)

Lemma activeLayer_updateActiveLayerFromRotation (rotateX rotateY : Q) (s : t) :
  let a := activeLayer (this s) in
  let a' := activeLayer (this (updateActiveLayerFromRotation rotateX rotateY s)) in
  ((Qabs rotateX < 15)%Q -> a' = Some 3%Z) /\
  ((30 < rotateX)%Q ->
   a' = if (2 <? toNumber a)%Z then Some (toNumber a - 1)%Z else a) /\
  ((rotateX < -30)%Q ->
   a' = if (toNumber a <? 4)%Z then Some (toNumber a + 1)%Z else a) /\
  ((15 <= Qabs rotateX)%Q /\ (Qabs rotateX <= 30)%Q -> a' = a).
Proof.
  intros a a'. unfold a', updateActiveLayerFromRotation.
  destruct (Qltb (Qabs rotateX) 15) eqn:E15.
  - apply Qltb_lt in E15.
    assert (H3 : activeLayer
                   (this (if negb (bool_decide (activeLayer (this s) = Some 3%Z))
                          then setActiveLayer 3 s else s)) = Some 3%Z).
    { destruct (bool_decide (activeLayer (this s) = Some 3%Z)) eqn:E; cbn [negb].
      - apply bool_decide_eq_true in E. exact E.
      - apply activeLayer_setActiveLayer. }
    (split; [|split; [|split]]); intros H.
    + exact H3.
    + exfalso. rewrite Qabs_pos in E15 by lra. lra.
    + exfalso. rewrite Qabs_neg in E15 by lra. lra.
    + exfalso. lra.
  - apply Qltb_ge in E15.
    destruct (Qltb 30 rotateX) eqn:E30.
    + apply Qltb_lt in E30.
      assert (Hback : activeLayer
                (this (if (2 <? toNumber a)%Z
                       then setActiveLayer (Z.max 1 (toNumber a - 1)) s else s)) =
              if (2 <? toNumber a)%Z then Some (toNumber a - 1)%Z else a).
      { destruct (2 <? toNumber a)%Z eqn:E; [|reflexivity].
        apply Z.ltb_lt in E. rewrite activeLayer_setActiveLayer. f_equal. lia. }
      (split; [|split; [|split]]); intros H.
      * exfalso. lra.
      * exact Hback.
      * exfalso. lra.
      * exfalso. rewrite Qabs_pos in H by lra. lra.
    + apply Qltb_ge in E30.
      destruct (Qltb rotateX (-30)) eqn:Em30.
      * apply Qltb_lt in Em30.
        assert (Hfront : activeLayer
                  (this (if (toNumber a <? 4)%Z
                         then setActiveLayer (Z.min 5 (toNumber a + 1)) s else s)) =
                if (toNumber a <? 4)%Z then Some (toNumber a + 1)%Z else a).
        { destruct (toNumber a <? 4)%Z eqn:E; [|reflexivity].
          apply Z.ltb_lt in E. rewrite activeLayer_setActiveLayer. f_equal. lia. }
        (split; [|split; [|split]]); intros H.
        -- exfalso. lra.
        -- exfalso. lra.
        -- exact Hfront.
        -- exfalso. rewrite Qabs_neg in H by lra. lra.
      * apply Qltb_ge in Em30.
        (split; [|split; [|split]]); intros H.
        -- exfalso. lra.
        -- exfalso. lra.
        -- exfalso. lra.
        -- reflexivity.
Qed.

(** C1 (amended).  On a manager with at most five layers,
    [handleRotationUpdate] returns normally and sets the active layer as
    follows: to 3 when [|rotateX| < 15]; one step towards the back when
    [rotateX > 30] and the active layer is above 2, and not at all when it is
    1 or 2; one step towards the front when [rotateX < -30] and the active
    layer is below 4, and not at all when it is 4 or 5; unchanged when
    [|rotateX|] lies in [[15, 30]].  An unset active layer counts as 0 in the
    two comparisons. *)
Theorem C1_rotation_nudges_active_layer (rotateX rotateY : Q) (s : t) :
  (length (layers (this s)) <= 5)%nat ->
  exists s', handleRotationUpdate rotateX rotateY s = Ok s' /\
    let a := activeLayer (this s) in
    let a' := activeLayer (this s') in
    ((Qabs rotateX < 15)%Q -> a' = Some 3%Z) /\
    ((30 < rotateX)%Q ->
     a' = if (2 <? toNumber a)%Z then Some (toNumber a - 1)%Z else a) /\
    ((rotateX < -30)%Q ->
     a' = if (toNumber a <? 4)%Z then Some (toNumber a + 1)%Z else a) /\
    ((15 <= Qabs rotateX)%Q /\ (Qabs rotateX <= 30)%Q -> a' = a).
Proof.
  intros Hlen.
  destruct (updateLayerVisibility_ok rotateX rotateY s Hlen) as (s1 & E1 & Hthis).
  exists (updateActiveLayerFromRotation rotateX rotateY s1). split.
  - unfold handleRotationUpdate. rewrite E1. reflexivity.
  - cbv zeta. rewrite <- Hthis.
    apply activeLayer_updateActiveLayerFromRotation.
Qed.

(** Tilted to -45 degrees, the fresh manager goes from layer 3 to layer 4. *)
Lemma C1_rotation_nudges_active_layer_witness :
  let s := stateOf (new (blankPage 5 5)) in
  (length (layers (this s)) <= 5)%nat /\
  exists s', handleRotationUpdate (-45) 0 s = Ok s' /\
    activeLayer (this s) = Some 3%Z /\ activeLayer (this s') = Some 4%Z.
Proof.
  intros s.
  assert (Hlen : (length (layers (this s)) <= 5)%nat) by (vm_compute; lia).
  split; [exact Hlen|].
  destruct (C1_rotation_nudges_active_layer (-45) 0 s Hlen) as (s' & E & _ & _ & Hfront & _).
  exists s'. split; [exact E|]. split; [reflexivity|].
  apply Hfront. reflexivity.
Defined.

(** The claim as written lets a tilt beyond 30 degrees bring the active
    layer down to 1 and a tilt beyond -30 degrees bring it up to 5.  With
    layer 2 active a tilt of 45 degrees leaves layer 2 active, and with
    layer 4 active a tilt of -45 degrees leaves layer 4 active. *)
Lemma C1_counterexample :
  let s := stateOf (new (blankPage 5 5)) in
  (exists s', handleRotationUpdate 45 0 (setActiveLayer 2 s) = Ok s' /\
     activeLayer (this (setActiveLayer 2 s)) = Some 2%Z /\
     activeLayer (this s') = Some 2%Z /\ activeLayer (this s') <> Some 1%Z) /\
  (exists s', handleRotationUpdate (-45) 0 (setActiveLayer 4 s) = Ok s' /\
     activeLayer (this (setActiveLayer 4 s)) = Some 4%Z /\
     activeLayer (this s') = Some 4%Z /\ activeLayer (this s') <> Some 5%Z).
Proof.
  cbv zeta. split; eexists; (split; [vm_compute; reflexivity|]);
    (split; [reflexivity|]); (split; [reflexivity | discriminate]).
Qed.

(** *** Focus *)

Lemma focusFrame_refl (n : node) (s : t) : focusFrame n s s.
Proof. unfold focusFrame. tauto. Qed.

Lemma focusFrame_trans (n : node) (s1 s2 s3 : t) :
  focusFrame n s1 s2 -> focusFrame n s2 s3 -> focusFrame n s1 s3.
Proof.
  unfold focusFrame.
  intros (A1 & A2 & A3 & A4 & A5 & A6 & A7 & A8 & AL & A9)
         (B1 & B2 & B3 & B4 & B5 & B6 & B7 & B8 & BL & B9).
  repeat split; try congruence.
  destruct B9 as [B9|[B9|B9]]; [|tauto|tauto].
  rewrite B9. exact A9.
Qed.

Lemma focusFrame_handleLayerFocus (k : nat) (s : t) :
  focusFrame (LayerEl k) s (stateOf (handleLayerFocus k s)) /\
  focusedLayer (this (stateOf (handleLayerFocus k s))) = Some (layerIndexOf k).
Proof.
  unfold focusFrame, handleLayerFocus, highlightLayer.
  case_all; cbn; rewrite ?length_alter; repeat split; eauto.
Qed.

Lemma focusFrame_handleLayerBlur (k : nat) (s : t) :
  focusFrame (LayerEl k) s (stateOf (handleLayerBlur k s)) /\
  (focusedLayer (this (stateOf (handleLayerBlur k s))) = focusedLayer (this s) \/
   focusedLayer (this (stateOf (handleLayerBlur k s))) = None).
Proof.
  unfold focusFrame, handleLayerBlur, unhighlightLayer.
  case_all; cbn; rewrite ?length_alter; repeat split; eauto.
Qed.

Lemma focusFrame_callFocusListener (f : fn) (n : node) (s : t) :
  focusFrame n s (callFocusListener f n s).
Proof.
  unfold callFocusListener. destruct n; try apply focusFrame_refl.
  case_all; try apply focusFrame_refl.
  - apply focusFrame_handleLayerFocus.
  - apply focusFrame_handleLayerBlur.
Qed.

Lemma focusFrame_fold (n : node) (l : list fn) (s : t) :
  focusFrame n s (fold_left (fun s f => callFocusListener f n s) l s).
Proof.
  revert s. induction l as [|f l IH]; intros s; cbn [fold_left].
  - apply focusFrame_refl.
  - eapply focusFrame_trans; [apply focusFrame_callFocusListener | apply IH].
Qed.

Lemma focusFrame_fireFocusEvent (ty : string) (n : node) (s : t) :
  focusFrame n s (fireFocusEvent ty n s).
Proof. apply focusFrame_fold. Qed.

(** A blur event clears [focusedLayer] or leaves it. *)
Lemma blur_fold (k : nat) (l : list fn) (s : t) :
  let s' := fold_left (fun s f => callFocusListener f (LayerEl k) s) l s in
  focusedLayer (this s') = focusedLayer (this s) \/
  focusedLayer (this s') = None \/
  focusedLayer (this s') = Some (layerIndexOf k).
Proof.
  cbv zeta.
  destruct (focusFrame_fold (LayerEl k) l s) as (_ & _ & _ & _ & _ & _ & _ & _ & _ & H).
  destruct H as [H|[H|(k' & E & H)]]; [tauto | tauto |].
  injection E as <-. tauto.
Qed.

(** What [layer.focus()] on the layer element [k] may change. *)
Lemma focusElement_frame (k : nat) (s : t) :
  let s' := focusElement k s in
  layers (this s') = layers (this s) /\
  indicators (this s') = indicators (this s) /\
  activeLayer (this s') = activeLayer (this s) /\
  isAnimating (this s') = isAnimating (this s) /\
  boundHandlers (this s') = boundHandlers (this s) /\
  listeners (page s') = listeners (page s) /\
  overlays (page s') = overlays (page s) /\
  length (layerEls (page s')) = length (layerEls (page s)) /\
  (activeElement (page s') = activeElement (page s) \/
   activeElement (page s') = Some (LayerEl k) /\ (k < length (layerEls (page s)))%nat) /\
  (focusedLayer (this s') = focusedLayer (this s) \/
   focusedLayer (this s') = None \/
   focusedLayer (this s') = Some (layerIndexOf k) \/
   exists k', activeElement (page s) = Some (LayerEl k') /\
              focusedLayer (this s') = Some (layerIndexOf k')).
Proof.
  cbv zeta. unfold focusElement.
  destruct (layerEls (page s) !! k) as [el|] eqn:Hel; [|intuition].
  destruct (bool_decide (tabindex el = None)); [intuition|].
  destruct (bool_decide (activeElement (page s) = Some (LayerEl k))); [intuition|].
  apply lookup_lt_Some in Hel.
  set (s1 := match activeElement (page s) with
             | Some old => fireFocusEvent "blur" old s
             | None => s
             end).
  assert (H1 : exists old, focusFrame old s s1 /\
                 (activeElement (page s) = None /\ s1 = s \/
                  activeElement (page s) = Some old)).
  { unfold s1. destruct (activeElement (page s)) as [old|].
    - exists old. split; [apply focusFrame_fireFocusEvent | auto].
    - exists Window. split; [apply focusFrame_refl | auto]. }
  destruct H1 as (old & (A1 & A2 & A3 & A4 & A5 & A6 & A7 & A8 & AL & A9) & Hold).
  set (s2 := set_activeElement (Some (LayerEl k)) s1).
  destruct (focusFrame_fireFocusEvent "focus" (LayerEl k) s2)
    as (B1 & B2 & B3 & B4 & B5 & B6 & B7 & B8 & BL & B9).
  change (this s2) with (this s1) in *.
  change (listeners (page s2)) with (listeners (page s1)) in *.
  change (overlays (page s2)) with (overlays (page s1)) in *.
  change (layerEls (page s2)) with (layerEls (page s1)) in *.
  change (activeElement (page s2)) with (Some (LayerEl k)) in *.
  repeat split; try congruence.
  - right. split; [exact B7 | exact Hel].
  - destruct B9 as [B9|[B9|(k2 & E2 & B9)]].
    + rewrite B9.
      destruct A9 as [A9|[A9|(k1 & E1 & A9)]].
      * left. exact A9.
      * right. left. exact A9.
      * destruct Hold as [[Hold Es]|Hold].
        -- left. rewrite Es. reflexivity.
        -- right. right. right. exists k1. split; [congruence | exact A9].
    + right. left. exact B9.
    + injection E2 as <-. right. right. left. exact B9.
Qed.

(** What [setActiveLayer] leaves alone. *)
Lemma setActiveLayer_frame (i : Z) (s : t) :
  let s' := setActiveLayer i s in
  layers (this s') = layers (this s) /\
  focusedLayer (this s') = focusedLayer (this s) /\
  isAnimating (this s') = isAnimating (this s) /\
  listeners (page s') = listeners (page s) /\
  overlays (page s') = overlays (page s) /\
  timers (page s') = timers (page s) /\
  activeElement (page s') = activeElement (page s) /\
  length (layerEls (page s')) = length (layerEls (page s)).
Proof.
  cbv zeta. unfold setActiveLayer.
  case_all; cbn; rewrite ?length_alter; repeat split; reflexivity.
Qed.

(** *** Navigation *)

Lemma getLayer_wellFormed (i : Z) (r : nat) (s : t) :
  layers (this s) = seq 0 (length (layers (this s))) ->
  getLayer i s = Some r -> layerIndexOf r = i.
Proof.
  intros Hl. unfold getLayer, layerIndexOf.
  destruct (1 <=? i)%Z eqn:E; [|discriminate].
  apply Z.leb_le in E. rewrite Hl. intros H.
  apply lookup_seq in H. lia.
Qed.

Lemma truthy_inRange (z : Z) : (1 <= z <= 5)%Z -> truthy (Some z) = true.
Proof.
  intros H. unfold truthy. destruct (z =? 0)%Z eqn:E; [|reflexivity].
  apply Z.eqb_eq in E. lia.
Qed.

Lemma currentLayerOr3_inRange (s : t) :
  selectionInRange s -> (1 <= currentLayerOr3 s <= 5)%Z.
Proof.
  intros [Ha Hf]. unfold currentLayerOr3, focusedOrActive.
  destruct (focusedLayer (this s)) as [f|].
  - rewrite (truthy_inRange f Hf), (truthy_inRange f Hf). exact Hf.
  - cbn [truthy]. destruct (activeLayer (this s)) as [a|].
    + rewrite (truthy_inRange a Ha). exact Ha.
    + cbn. lia.
Qed.

Lemma focusOnLayer_keeps (i : Z) (s : t) :
  (1 <= i <= 5)%Z -> wellFormed s -> selectionInRange s ->
  wellFormed (focusOnLayer i s) /\ selectionInRange (focusOnLayer i s).
Proof.
  intros Hi (Hl & Hn & Hae) [Ha Hf]. unfold focusOnLayer.
  destruct (getLayer i s) as [r|] eqn:Hr; [|repeat split; assumption].
  pose proof (getLayer_wellFormed i r s Hl Hr) as Hidx.
  destruct (focusElement_frame r s) as (F1 & _ & F3 & _ & _ & _ & _ & FL & FA & FF).
  split; [|split].
  - unfold wellFormed. rewrite F1, FL. repeat split; try assumption.
    intros k Hk. destruct FA as [FA|[FA Hlt]].
    + apply Hae. congruence.
    + rewrite FA in Hk. injection Hk as <-. exact Hlt.
  - rewrite F3. exact Ha.
  - assert (Hr5 : (r < 5)%nat).
    { unfold getLayer in Hr. destruct (1 <=? i)%Z; [|discriminate].
      unfold layerIndexOf in Hidx. lia. }
    destruct FF as [FF|[FF|[FF|(k' & Hk' & FF)]]]; rewrite FF.
    + exact Hf.
    + exact I.
    + cbn. rewrite Hidx. exact Hi.
    + cbn. apply Hae in Hk'. unfold layerIndexOf. lia.
Qed.

Lemma navigateLayer_keeps (direction : Z) (s : t) :
  wellFormed s -> selectionInRange s ->
  wellFormed (navigateLayer direction s) /\ selectionInRange (navigateLayer direction s).
Proof.
  intros Hwf Hsel. unfold navigateLayer.
  set (newLayer := Z.max 1 (Z.min 5 (currentLayerOr3 s + direction))).
  destruct (negb (newLayer =? currentLayerOr3 s)%Z); [|auto].
  assert (Hnew : (1 <= newLayer <= 5)%Z) by (unfold newLayer; lia).
  destruct (setActiveLayer_frame newLayer s) as (S1 & S2 & _ & _ & _ & _ & S7 & S8).
  apply focusOnLayer_keeps; [exact Hnew | |].
  - destruct Hwf as (Hl & Hn & Hae). unfold wellFormed.
    rewrite S1, S7, S8. auto.
  - destruct Hsel as [Ha Hf]. split.
    + rewrite activeLayer_setActiveLayer. exact Hnew.
    + rewrite S2. exact Hf.
Qed.

Lemma activeLayer_focusOnLayer (i : Z) (s : t) :
  activeLayer (this (focusOnLayer i s)) = activeLayer (this s).
Proof.
  unfold focusOnLayer. destruct (getLayer i s) as [r|]; [|reflexivity].
  apply (focusElement_frame r s).
Qed.

(** C8.  On a well-formed page, whatever the directions of a sequence of
    [navigateLayer] calls, an active or focused layer index that starts in
    [[1, 5]] or unset ends in [[1, 5]] or unset, and the layer the next call
    starts from is in [[1, 5]].  The next call makes the layer clamped to
    [[1, 5]] the active one: at the two ends it changes nothing, and it
    never wraps. *)
Theorem C8_navigateLayer_stays_in_range (directions : list Z) (s : t) :
  wellFormed s -> selectionInRange s ->
  let s' := fold_left (fun s d => navigateLayer d s) directions s in
  selectionInRange s' /\
  (1 <= currentLayerOr3 s' <= 5)%Z /\
  (currentLayerOr3 s' = 5%Z -> navigateLayer 1 s' = s') /\
  (currentLayerOr3 s' = 1%Z -> navigateLayer (-1) s' = s') /\
  (forall d : Z,
     Z.max 1 (Z.min 5 (currentLayerOr3 s' + d)) <> currentLayerOr3 s' ->
     activeLayer (this (navigateLayer d s')) =
       Some (Z.max 1 (Z.min 5 (currentLayerOr3 s' + d)))).
Proof.
  intros Hwf Hsel s'.
  assert (H : wellFormed s' /\ selectionInRange s').
  { unfold s'. clear s'. revert s Hwf Hsel.
    induction directions as [|d ds IH]; intros s Hwf Hsel; cbn [fold_left].
    - auto.
    - destruct (navigateLayer_keeps d s Hwf Hsel) as [Hwf' Hsel'].
      apply IH; assumption. }
  destruct H as [_ Hsel'].
  split; [exact Hsel'|].
  split; [apply currentLayerOr3_inRange, Hsel'|].
  split; [|split].
  - intros E. unfold navigateLayer. rewrite E. reflexivity.
  - intros E. unfold navigateLayer. rewrite E. reflexivity.
  - intros d Hd. unfold navigateLayer.
    apply Z.eqb_neq in Hd. rewrite Hd. cbn [negb].
    rewrite activeLayer_focusOnLayer. apply activeLayer_setActiveLayer.
Qed.

(** Four steps forward and one more from layer 3 of a fresh manager: the
    fifth stops at layer 5. *)
Lemma C8_navigateLayer_stays_in_range_witness :
  let s := stateOf (new (blankPage 5 5)) in
  let s' := fold_left (fun s d => navigateLayer d s) [1; 1; 1; 1; -1; 1; 1]%Z s in
  (wellFormed s /\ selectionInRange s) /\
  selectionInRange s' /\ currentLayerOr3 s' = 5%Z /\ navigateLayer 1 s' = s'.
Proof.
  intros s s'.
  assert (Hwf : wellFormed s).
  { split; [reflexivity|]. split; [vm_compute; lia|]. intros k H. discriminate H. }
  assert (Hsel : selectionInRange s) by (split; [vm_compute; split; discriminate | exact I]).
  split; [split; assumption|].
  destruct (C8_navigateLayer_stays_in_range [1; 1; 1; 1; -1; 1; 1]%Z s Hwf Hsel)
    as (H1 & _ & H3 & _).
  fold s' in H1, H3.
  assert (E : currentLayerOr3 s' = 5%Z) by reflexivity.
  split; [exact H1|]. split; [exact E|]. apply H3, E.
Defined.

(** *** Cycling *)

(** On a ready manager [focusOnLayer(i)] gives the focus to layer [i]. *)
Lemma focusOnLayer_ready (i : Z) (s : t) :
  ready s -> (1 <= i <= 5)%Z ->
  focusedLayer (this (focusOnLayer i s)) = Some i /\
  activeElement (page (focusOnLayer i s)) = Some (LayerEl (Z.to_nat (i - 1))).
Proof.
  intros (Hl & Hel & Hls & Hsync) Hi.
  set (k := Z.to_nat (i - 1)).
  assert (Hk : (k < 5)%nat) by (unfold k; lia).
  assert (Hidx : layerIndexOf k = i) by (unfold layerIndexOf, k; lia).
  assert (Hget : getLayer i s = Some k).
  { unfold getLayer. destruct (1 <=? i)%Z eqn:E; [|apply Z.leb_gt in E; lia].
    rewrite Hl. fold k. rewrite lookup_seq_lt by exact Hk. reflexivity. }
  unfold focusOnLayer. rewrite Hget. unfold focusElement.
  destruct (Hel k Hk) as (el & Eel & Htab). rewrite Eel.
  rewrite bool_decide_eq_false_2 by exact Htab.
  destruct (bool_decide (activeElement (page s) = Some (LayerEl k))) eqn:Eact.
  - apply bool_decide_eq_true in Eact. split; [|exact Eact].
    rewrite (Hsync k Eact). f_equal. exact Hidx.
  - set (s1 := match activeElement (page s) with
               | Some old => fireFocusEvent "blur" old s
               | None => s
               end).
    assert (H1 : boundHandlers (this s1) = boundHandlers (this s) /\
                 listeners (page s1) = listeners (page s)).
    { unfold s1. destruct (activeElement (page s)) as [old|]; [|auto].
      destruct (focusFrame_fireFocusEvent "blur" old s)
        as (_ & _ & _ & _ & A5 & A6 & _). auto. }
    destruct H1 as [Hb1 Hl1].
    set (s2 := set_activeElement (Some (LayerEl k)) s1).
    unfold fireFocusEvent.
    change (listeners (page s2)) with (listeners (page s1)).
    rewrite Hl1, (Hls k Hk). cbn [fold_left]. unfold callFocusListener.
    change (this s2) with (this s1). rewrite Hb1.
    rewrite bool_decide_eq_true_2 by reflexivity.
    destruct (focusFrame_handleLayerFocus k s2)
      as ((_ & _ & _ & _ & _ & _ & B7 & _) & Hfoc).
    rewrite Hfoc, B7. split; [f_equal; exact Hidx | reflexivity].
Qed.

(** C7.  On a ready manager [cycleLayers] moves the focus round the ring of
    the five layers: forward from the current layer 5 to layer 1, backward
    from 1 to 5, and by one step anywhere else, the current layer being the
    focused one, else the active one, else 3. *)
Theorem C7_cycleLayers_wraps (s : t) :
  ready s ->
  let c := currentLayerOr3 s in
  (c = 5%Z ->
   focusedLayer (this (cycleLayers 1 s)) = Some 1%Z /\
   activeElement (page (cycleLayers 1 s)) = Some (LayerEl 0)) /\
  (c = 1%Z ->
   focusedLayer (this (cycleLayers (-1) s)) = Some 5%Z /\
   activeElement (page (cycleLayers (-1) s)) = Some (LayerEl 4)) /\
  ((1 <= c < 5)%Z ->
   focusedLayer (this (cycleLayers 1 s)) = Some (c + 1)%Z /\
   activeElement (page (cycleLayers 1 s)) = Some (LayerEl (Z.to_nat c))) /\
  ((1 < c <= 5)%Z ->
   focusedLayer (this (cycleLayers (-1) s)) = Some (c - 1)%Z /\
   activeElement (page (cycleLayers (-1) s)) = Some (LayerEl (Z.to_nat (c - 2)))).
Proof.
  intros Hready c.
  split; [|split; [|split]]; intros Hc; unfold cycleLayers; fold c.
  - rewrite Hc. cbn. apply (focusOnLayer_ready 1 s Hready). lia.
  - rewrite Hc. cbn. apply (focusOnLayer_ready 5 s Hready). lia.
  - replace (5 <? c + 1)%Z with false by (symmetry; apply Z.ltb_ge; lia).
    replace (c + 1 <? 1)%Z with false by (symmetry; apply Z.ltb_ge; lia).
    destruct (focusOnLayer_ready (c + 1) s Hready) as [H1 H2]; [lia|].
    split; [exact H1|]. rewrite H2. do 2 f_equal. lia.
  - replace (5 <? c + -1)%Z with false by (symmetry; apply Z.ltb_ge; lia).
    replace (c + -1 <? 1)%Z with false by (symmetry; apply Z.ltb_ge; lia).
    destruct (focusOnLayer_ready (c + -1) s Hready) as [H1 H2]; [lia|].
    split; [rewrite H1; f_equal; lia|]. rewrite H2. do 2 f_equal. lia.
Qed.

Lemma readyb_sound (s : t) : readyb s = true -> ready s.
Proof.
  unfold readyb. rewrite !andb_true_iff, !forallb_forall.
  intros [[[H1 H2] H3] H4]. apply bool_decide_eq_true in H1.
  assert (Hin : forall k, (k < 5)%nat -> In k (seq 0 5)).
  { intros k Hk. apply in_seq. lia. }
  repeat split.
  - exact H1.
  - intros k Hk. specialize (H2 k (Hin k Hk)).
    destruct (layerEls (page s) !! k) as [el|]; [|discriminate].
    exists el. split; [reflexivity|].
    apply negb_true_iff, bool_decide_eq_false in H2. exact H2.
  - intros k Hk. specialize (H3 k (Hin k Hk)).
    apply bool_decide_eq_true in H3. exact H3.
  - intros k Hk. rewrite Hk in H4. apply bool_decide_eq_true in H4. exact H4.
Qed.

Lemma ready_new : ready (stateOf (new (blankPage 5 5))).
Proof. apply readyb_sound. vm_compute. reflexivity. Qed.

Lemma ready_after_two_cycles :
  ready (cycleLayers 1 (cycleLayers 1 (stateOf (new (blankPage 5 5))))).
Proof. apply readyb_sound. vm_compute. reflexivity. Qed.

(** Two steps forward from layer 3 of a fresh manager put the focus on
    layer 5; the third wraps to layer 1. *)
Lemma C7_cycleLayers_wraps_witness :
  let s := cycleLayers 1 (cycleLayers 1 (stateOf (new (blankPage 5 5)))) in
  ready s /\ currentLayerOr3 s = 5%Z /\
  focusedLayer (this (cycleLayers 1 s)) = Some 1%Z /\
  activeElement (page (cycleLayers 1 s)) = Some (LayerEl 0).
Proof.
  intros s.
  pose proof ready_after_two_cycles as Hready. fold s in Hready.
  split; [exact Hready|]. split; [reflexivity|].
  destruct (C7_cycleLayers_wraps s Hready) as (Hwrap & _).
  apply Hwrap. reflexivity.
Defined.

(** *** The detail overlay *)

Lemma elem_of_insertTimer (due : nat) (cb : TimerCallback)
    (l : list (nat * TimerCallback)) (x : nat * TimerCallback) :
  x ∈ insertTimer due cb l <-> x = (due, cb) \/ x ∈ l.
Proof.
  induction l as [|[d c] l IH]; cbn [insertTimer].
  - rewrite list_elem_of_singleton, elem_of_nil. tauto.
  - destruct (d <=? due)%nat.
    + rewrite !elem_of_cons, IH. tauto.
    + rewrite !elem_of_cons. tauto.
Qed.

(** [hideLayerDetails()] never looks at the latch. *)
Lemma hideLayerDetails_effects (s : t) :
  (length (layers (this s)) <= 5)%nat ->
  exists s', hideLayerDetails s = Ok s' /\
    this s' = this s /\
    now (page s') = now (page s) /\
    dispatched (page s') = dispatched (page s) ++ [hiddenEvent s] /\
    match overlays (page s) with
    | o :: rest =>
        overlays (page s') = ov_setFadeOut o :: rest /\
        (now (page s) + 300, RemoveOverlay (overlayId o))%nat ∈ timers (page s')
    | [] => overlays (page s') = [] /\ timers (page s') = timers (page s)
    end.
Proof.
  intros Hlen. unfold hideLayerDetails.
  set (s1 := match overlays (page s) with
             | overlay :: _ =>
                 setTimeout (RemoveOverlay (overlayId overlay)) 300
                   (set_overlays (alter ov_setFadeOut 0%nat) s)
             | [] => s
             end).
  assert (H1 : this s1 = this s /\ now (page s1) = now (page s) /\
               dispatched (page s1) = dispatched (page s) /\
               match overlays (page s) with
               | o :: rest =>
                   overlays (page s1) = ov_setFadeOut o :: rest /\
                   (now (page s) + 300, RemoveOverlay (overlayId o))%nat ∈ timers (page s1)
               | [] => overlays (page s1) = [] /\ timers (page s1) = timers (page s)
               end).
  { unfold s1. destruct (overlays (page s)) as [|o rest] eqn:E.
    - rewrite E. auto.
    - repeat split.
      + cbn. rewrite E. reflexivity.
      + cbn. apply elem_of_insertTimer. left. reflexivity. }
  destruct H1 as (T1 & N1 & D1 & O1).
  destruct (resetLayerPositions_ok s1) as (s2 & E2 & T2 & O2 & M2 & D2 & N2 & _);
    [rewrite T1; exact Hlen|].
  rewrite E2. cbn [andThen]. eexists. split; [reflexivity|].
  cbn. rewrite T2, T1, N2, N1, D2, D1. repeat split.
  destruct (overlays (page s)) as [|o rest]; rewrite O2, M2; exact O1.
Qed.

(** While the latch is held [showLayerDetails] returns at once. *)
Lemma showLayerDetails_latched (i : Z) (s : t) :
  isAnimating (this s) = true -> showLayerDetails i s = Ok s.
Proof. intros H. unfold showLayerDetails. rewrite H. reflexivity. Qed.

(** An open that is not ignored: the latch is taken, the first overlay of
    the document is replaced by a new one at the end, and the release of the
    latch is scheduled 500 ms later. *)
Lemma showLayerDetails_opens (i : Z) (r : nat) (content : string) (c : LayerConfig) (s0 : t) :
  isAnimating (this s0) = false ->
  getLayer i s0 = Some r ->
  layerEls (page s0) !! r ≫= layerContent = Some content ->
  LAYER_CONFIG i = Some c ->
  exists s, showLayerDetails i s0 = Ok s /\
    isAnimating (this s) = true /\
    layers (this s) = layers (this s0) /\
    now (page s) = now (page s0) /\
    overlays (page s) =
      tail (overlays (page s0)) ++
        [{| overlayId := nextOverlay (page s0);
            heading := "Layer " +:+ pretty i +:+ ": " +:+ name c;
            body := content; fadeOut := false; shown := false |}] /\
    timers (page s) =
      insertTimer (now (page s0) + 500) ReleaseLatch (timers (page s0)).
Proof.
  intros Hlatch Hget Hcontent Hc.
  unfold showLayerDetails. rewrite Hlatch, Hget.
  unfold createDetailOverlay.
  assert (Hget' : getLayer i (set_overlays (fun l => tail l) (set_isAnimating true s0))
                  = Some r) by exact Hget.
  rewrite Hget'.
  assert (Hcontent' :
            layerEls (page (set_overlays (fun l => tail l) (set_isAnimating true s0))) !! r
              ≫= layerContent = Some content) by exact Hcontent.
  rewrite Hcontent', Hc.
  cbn [andThen]. eexists. split; [reflexivity|].
  unfold bringToFront.
  match goal with |- context [match ?x with Some _ => _ | None => _ end] =>
    destruct x end; cbn; auto.
Qed.

(** Timers that remove other overlays leave this one and the latch. *)
Lemma runTimers_other (o : Overlay) (l : list (nat * TimerCallback)) (s : t) :
  Forall (fun e => exists id, e.2 = RemoveOverlay id /\ id <> overlayId o) l ->
  overlays (page s) = [o] ->
  let s' := fold_left (fun s e => runTimer e.2 s) l s in
  overlays (page s') = [o] /\ this s' = this s /\
  now (page s') = now (page s) /\ dispatched (page s') = dispatched (page s).
Proof.
  cbv zeta. revert s. induction l as [|e l IH]; intros s Hl Ho; cbn [fold_left].
  - auto.
  - inversion Hl as [|? ? (id & Eid & Hid) Hl']; subst.
    rewrite Eid. cbn [runTimer].
    destruct (IH (set_overlays (filter (fun o' => overlayId o' ≠ id)) s) Hl')
      as (I1 & I2 & I3 & I4).
    + cbn. rewrite Ho. cbn.
      rewrite decide_True by (intros E; apply Hid; symmetry; exact E).
      reflexivity.
    + auto.
Qed.

Lemma tail_short {A : Type} (l : list A) : (length l <= 1)%nat -> tail l = [].
Proof. destruct l as [|a [|b l]]; cbn; intros H; try reflexivity. lia. Qed.

(** The state [dt < 500] ms after an open. *)
Lemma window_after_open (i : Z) (s0 s : t) (dt : nat) :
  settled s0 -> canOpen i s0 -> showLayerDetails i s0 = Ok s -> (dt < 500)%nat ->
  let w := advance dt s in
  this w = this s /\ isAnimating (this s) = true /\
  layers (this s) = layers (this s0) /\
  exists o, overlays (page w) = [o] /\ overlayId o = nextOverlay (page s0).
Proof.
  intros (Hlatch & Hov & Hlen & Htim) (r & content & Hget & Hcontent & [c Hc]) Hopen Hdt.
  destruct (showLayerDetails_opens i r content c s0 Hlatch Hget Hcontent Hc)
    as (s' & E & Ha & Hl & Hn & Ho & Ht).
  rewrite E in Hopen. injection Hopen as <-.
  rewrite (tail_short _ Hov) in Ho. cbn [app] in Ho.
  cbv zeta. unfold advance.
  match type of Ho with _ = [?x] => set (o := x) in * end.
  match goal with |- context [fold_left _ ?d ?x] =>
    destruct (runTimers_other o d x) as (R1 & R2 & R3 & R4)
  end.
  - apply Forall_forall. intros e He.
    apply list_elem_of_filter in He. destruct He as [Hdue He].
    rewrite Ht in He. apply elem_of_insertTimer in He.
    destruct He as [->|He].
    + cbn in Hdue. rewrite Hn in Hdue. lia.
    + rewrite Forall_forall in Htim. destruct (Htim e He) as (id & Eid & Hid).
      exists id. split; [exact Eid|]. cbn. lia.
  - exact Ho.
  - rewrite R2. repeat split; try assumption.
    exists o. split; [exact R1 | reflexivity].
Qed.

(** C3 (amended).  After an open that is not ignored, and for as long as
    the latch is held (less than 500 ms): the latch is held and the document
    holds exactly one overlay; a further [showLayerDetails] changes nothing
    at all; [hideLayerDetails] is not held back by the latch: it returns
    normally, marks the overlay [fade-out], schedules its removal 300 ms
    later and dispatches [layerDetailsHidden]. *)
Theorem C3_latch_guards_open_only (i : Z) (s0 : t) :
  settled s0 -> canOpen i s0 ->
  exists s, showLayerDetails i s0 = Ok s /\
    forall dt : nat, (dt < 500)%nat ->
      let w := advance dt s in
      isAnimating (this w) = true /\
      length (overlays (page w)) = 1%nat /\
      (forall j, showLayerDetails j w = Ok w) /\
      exists w' o,
        hideLayerDetails w = Ok w' /\
        isAnimating (this w') = true /\
        dispatched (page w') = dispatched (page w) ++ [hiddenEvent w] /\
        overlays (page w) = [o] /\
        overlays (page w') = [ov_setFadeOut o] /\
        (now (page w) + 300, RemoveOverlay (overlayId o))%nat ∈ timers (page w').
Proof.
  intros Hs Hopen.
  assert (Hex : exists s, showLayerDetails i s0 = Ok s).
  { destruct Hs as (Hlatch & _). destruct Hopen as (r & content & Hget & Hcontent & [c Hc]).
    destruct (showLayerDetails_opens i r content c s0 Hlatch Hget Hcontent Hc)
      as (s & E & _). eauto. }
  destruct Hex as [s E]. exists s. split; [exact E|].
  intros dt Hdt w.
  destruct (window_after_open i s0 s dt Hs Hopen E Hdt) as (Hthis & Ha & Hl & o & Ho & _).
  fold w in Hthis, Ho.
  assert (Hlatch : isAnimating (this w) = true) by (rewrite Hthis; exact Ha).
  split; [exact Hlatch|].
  split; [rewrite Ho; reflexivity|].
  split; [intros j; apply showLayerDetails_latched, Hlatch|].
  destruct (hideLayerDetails_effects w) as (w' & Eh & Ht & _ & Hd & Hov).
  { rewrite Hthis, Hl. apply Hs. }
  rewrite Ho in Hov. destruct Hov as [Hov Htimer].
  exists w', o. repeat split; try assumption.
  rewrite Ht. exact Hlatch.
Qed.

Lemma settled_new : settled (stateOf (new (blankPage 5 5))).
Proof.
  split; [reflexivity|]. split; [vm_compute; lia|]. split; [vm_compute; lia|].
  constructor.
Qed.

Lemma canOpen_new : canOpen 3 (stateOf (new (blankPage 5 5))).
Proof.
  exists 2%nat, "<p>content</p>". split; [reflexivity|]. split; [reflexivity|].
  cbn. eauto.
Qed.

(** The details of layer 3 opened on a fresh manager. *)
Lemma C3_latch_guards_open_only_witness :
  let s0 := stateOf (new (blankPage 5 5)) in
  (settled s0 /\ canOpen 3 s0) /\
  exists s, showLayerDetails 3 s0 = Ok s /\
    forall dt : nat, (dt < 500)%nat ->
      let w := advance dt s in
      isAnimating (this w) = true /\
      length (overlays (page w)) = 1%nat /\
      (forall j, showLayerDetails j w = Ok w) /\
      exists w' o,
        hideLayerDetails w = Ok w' /\
        isAnimating (this w') = true /\
        dispatched (page w') = dispatched (page w) ++ [hiddenEvent w] /\
        overlays (page w) = [o] /\
        overlays (page w') = [ov_setFadeOut o] /\
        (now (page w) + 300, RemoveOverlay (overlayId o))%nat ∈ timers (page w').
Proof.
  intros s0.
  split; [split; [exact settled_new | exact canOpen_new]|].
  exact (C3_latch_guards_open_only 3 s0 settled_new canOpen_new).
Defined.

(** The claim as written has [hideLayerDetails] ignored while the latch is
    held and exactly one overlay in the document during that window.  On a
    fresh manager, open layer 3 and call [hideLayerDetails] at once: the
    latch is held before and after, an event more has been dispatched, and
    300 ms later, with the latch still held, no overlay is left. *)
Lemma C3_counterexample :
  let s0 := stateOf (new (blankPage 5 5)) in
  let s := stateOf (showLayerDetails 3 s0) in
  let h := stateOf (hideLayerDetails s) in
  let z := advance 300 h in
  (isAnimating (this s) = true /\ length (overlays (page s)) = 1%nat) /\
  (isAnimating (this h) = true /\ h <> s /\
   dispatched (page h) = dispatched (page s) ++ [hiddenEvent s]) /\
  (now (page z) = 300%nat /\ isAnimating (this z) = true /\ overlays (page z) = []).
Proof.
  cbv zeta. split; [split; vm_compute; reflexivity|].
  split; [|repeat split; vm_compute; reflexivity].
  split; [vm_compute; reflexivity|]. split; [|vm_compute; reflexivity].
  intros E. apply (f_equal (fun x => length (dispatched (page x)))) in E.
  vm_compute in E. discriminate E.
Qed.

End LayerManagerFacts.

(** * Teardown of both components *)

Module TeardownFacts.
Import DOM.

(** C4 (the code departs from the claim).  After [destroy()]:
    - the RotationController has all eleven of its listeners attached:
      [removeEventListener] is given the methods of the prototype, not the
      bound functions that were registered, and the wheel, contextmenu and
      dragstart listeners are not mentioned at all; only the frame loop is
      cancelled;
    - the LayerManager has six listeners attached, the five anonymous keydown
      listeners of the indicator dots and the bound [handleKeyNavigation] on
      the document; one of them still drives the destroyed instance: Enter
      on the second dot makes layer 2 its active layer;
    - when an overlay was open, it is still in the document after
      [destroy()] and goes 300 ms later, and its three listeners stay;
    - [createDetailOverlay] on the destroyed instance throws, for want of a
      check of the layer it reads. *)
Theorem C4_destroy_leaves_listeners :
  let rc := RotationController.new (RotationController.blankPage 0) in
  let rc' := RotationController.destroy rc in
  let lm := LayerManager.stateOf (LayerManager.new (LayerManager.blankPage 5 5)) in
  let lm' := LayerManager.stateOf (LayerManager.destroy lm) in
  let opened := LayerManager.stateOf (LayerManager.showLayerDetails 3 lm) in
  let opened' := LayerManager.stateOf (LayerManager.destroy opened) in
  (length (RotationController.listeners (RotationController.page rc)) = 11%nat /\
   RotationController.listeners (RotationController.page rc') =
     RotationController.listeners (RotationController.page rc) /\
   RotationController.frameQueue (RotationController.page rc') = []) /\
  (LayerManager.destroy lm = LayerManager.Ok lm' /\
   callback <$> LayerManager.listeners (LayerManager.page lm') =
     [Arrow "indicator.keydown" 7; Arrow "indicator.keydown" 8;
      Arrow "indicator.keydown" 9; Arrow "indicator.keydown" 10;
      Arrow "indicator.keydown" 11; Bound "handleKeyNavigation" 12] /\
   LayerManager.activeLayer (LayerManager.this lm') = None /\
   LayerManager.activeLayer
     (LayerManager.this
        (LayerManager.deliver (IndicatorEl 1) (LayerManager.keydown "Enter" false) lm')) =
     Some 2%Z) /\
  (LayerManager.destroy opened = LayerManager.Ok opened' /\
   length (LayerManager.overlays (LayerManager.page opened')) = 1%nat /\
   LayerManager.overlays (LayerManager.page (LayerManager.advance 300 opened')) = [] /\
   length (LayerManager.listeners (LayerManager.page opened')) = 9%nat) /\
  LayerManager.createDetailOverlay 3 lm' = LayerManager.Throw lm'.
Proof.
  cbv zeta.
  repeat match goal with |- _ /\ _ => split end; vm_compute; reflexivity.
Qed.

End TeardownFacts.

(** * Further properties of the LayerManager *)

Module LayerManagerMore.
Import DOM LayerManager LayerManagerFacts LayerManagerRun.

(** *** Steps that keep the manager sound *)

Lemma restyled_refl (s : t) : restyled s s.
Proof. unfold restyled. repeat split; reflexivity || lia. Qed.

Lemma restyled_trans (s1 s2 s3 : t) :
  restyled s1 s2 -> restyled s2 s3 -> restyled s1 s3.
Proof.
  unfold restyled.
  intros (A1 & A2 & A3 & A4 & A5 & A6 & A7) (B1 & B2 & B3 & B4 & B5 & B6 & B7).
  repeat split; try congruence. lia.
Qed.

Lemma sound_restyled (n m : nat) (s s' : t) :
  restyled s s' -> sound n m s -> sound n m s'.
Proof.
  unfold restyled, sound, selectionInRange.
  intros (A1 & A2 & A3 & A4 & A5 & A6 & A7) (S1 & [S2 S3] & S4 & S5 & [S6 S7] & S8).
  rewrite A1, A2, A3, A4, A5, A6.
  repeat split; try assumption; try tauto. lia.
Qed.

Lemma restyled_dispatchLayerEvent (name : string) (i : option Z) (s : t) :
  restyled s (dispatchLayerEvent name i s).
Proof. unfold restyled. cbn. repeat split; reflexivity || lia. Qed.

Lemma restyled_withLayer (r : nat) (f : LayerElement -> LayerElement) (s : t) :
  restyled s (withLayer r f s).
Proof.
  unfold restyled. cbn. rewrite length_alter. repeat split; reflexivity || lia.
Qed.

Lemma restyled_highlightLayer (i : Z) (s : t) : restyled s (stateOf (highlightLayer i s)).
Proof.
  unfold highlightLayer. case_all; cbn [stateOf];
    first [apply restyled_withLayer | apply restyled_refl].
Qed.

Lemma restyled_unhighlightLayer (i : Z) (s : t) :
  restyled s (stateOf (unhighlightLayer i s)).
Proof.
  unfold unhighlightLayer. case_all; cbn [stateOf];
    first [apply restyled_withLayer | apply restyled_refl].
Qed.

(** A loop whose body is a restyling is one, also when it throws. *)
Lemma restyled_forEachLayer (f : nat -> nat -> t -> outcome)
    (l : list nat) (index : nat) (s : t) :
  (forall r i s, restyled s (stateOf (f r i s))) ->
  restyled s (stateOf (forEachLayer f l index s)).
Proof.
  intros Hf. revert index s. induction l as [|r l IH]; intros index s; cbn [forEachLayer].
  - apply restyled_refl.
  - specialize (Hf r index s). destruct (f r index s) as [s1|s1]; cbn [andThen stateOf] in *.
    + eapply restyled_trans; [exact Hf | apply IH].
    + exact Hf.
Qed.

Lemma restyled_resetLayerPositions (s : t) :
  restyled s (stateOf (resetLayerPositions s)).
Proof.
  unfold resetLayerPositions. apply restyled_forEachLayer.
  intros r i s1. case_all; cbn [stateOf];
    first [apply restyled_withLayer | apply restyled_refl].
Qed.

Lemma restyled_updateLayerVisibility (rx ry : Q) (s : t) :
  restyled s (stateOf (updateLayerVisibility rx ry s)).
Proof.
  unfold updateLayerVisibility. apply restyled_forEachLayer.
  intros r i s1. destruct (LAYER_CONFIG (layerIndexOf i)); cbn [stateOf];
    first [apply restyled_withLayer | apply restyled_refl].
Qed.

Lemma restyled_bringToFront (i : Z) (s : t) : restyled s (bringToFront i s).
Proof.
  unfold bringToFront. case_all; first [apply restyled_withLayer | apply restyled_refl].
Qed.

Lemma indicatorEls_callFocusListener (f : fn) (n : node) (s : t) :
  indicatorEls (page (callFocusListener f n s)) = indicatorEls (page s).
Proof.
  unfold callFocusListener, handleLayerFocus, handleLayerBlur,
    highlightLayer, unhighlightLayer.
  destruct n; try reflexivity. case_all; reflexivity.
Qed.

Lemma indicatorEls_fireFocusEvent (ty : string) (n : node) (s : t) :
  indicatorEls (page (fireFocusEvent ty n s)) = indicatorEls (page s).
Proof.
  unfold fireFocusEvent.
  generalize (listenersOf n ty (listeners (page s))). intros l.
  revert s. induction l as [|f l IH]; intros s; cbn [fold_left].
  - reflexivity.
  - rewrite IH. apply indicatorEls_callFocusListener.
Qed.

Lemma indicatorEls_focusElement (k : nat) (s : t) :
  indicatorEls (page (focusElement k s)) = indicatorEls (page s).
Proof.
  unfold focusElement.
  destruct (layerEls (page s) !! k); [|reflexivity].
  destruct (bool_decide _); [reflexivity|].
  destruct (bool_decide _); [reflexivity|].
  rewrite indicatorEls_fireFocusEvent. cbn.
  destruct (activeElement (page s)); [|reflexivity].
  apply indicatorEls_fireFocusEvent.
Qed.

Lemma sound_focusElement (n m k : nat) (s : t) :
  sound n m s -> sound n m (focusElement k s).
Proof.
  intros Hs.
  destruct (layerEls (page s) !! k) as [el|] eqn:Hel.
  2:{ unfold focusElement. rewrite Hel. exact Hs. }
  apply lookup_lt_Some in Hel.
  destruct Hs as (S1 & [S2 S3] & S4 & S5 & [S6 S7] & S8).
  destruct (focusElement_frame k s) as (F1 & _ & F3 & _ & _ & _ & F7 & FL & FA & FF).
  unfold sound, selectionInRange.
  rewrite F1, F3, F7, FL, indicatorEls_focusElement.
  repeat split; try assumption; try tauto.
  - intros k' Hk'. destruct FA as [FA|[FA _]].
    + apply S5. congruence.
    + rewrite FA in Hk'. injection Hk' as <-. lia.
  - destruct FF as [FF|[FF|[FF|(k' & Hk' & FF)]]]; rewrite FF.
    + exact S7.
    + exact I.
    + cbn. unfold layerIndexOf. lia.
    + cbn. apply S5 in Hk'. unfold layerIndexOf. lia.
Qed.

Lemma sound_focusOnLayer (n m : nat) (i : Z) (s : t) :
  sound n m s -> sound n m (focusOnLayer i s).
Proof.
  intros Hs. unfold focusOnLayer. destruct (getLayer i s); [|exact Hs].
  apply sound_focusElement, Hs.
Qed.

Lemma sound_setActiveLayer (n m : nat) (i : Z) (s : t) :
  (1 <= i <= 5)%Z -> sound n m s -> sound n m (setActiveLayer i s).
Proof.
  intros Hi (S1 & [S2 S3] & S4 & S5 & [S6 S7] & S8).
  destruct (setActiveLayer_frame i s) as (F1 & F2 & _ & _ & F5 & _ & F7 & F8).
  assert (FI : length (indicatorEls (page (setActiveLayer i s))) =
               length (indicatorEls (page s))).
  { unfold setActiveLayer. case_all; cbn; rewrite ?length_alter; reflexivity. }
  unfold sound, selectionInRange.
  rewrite F1, F2, F5, F7, F8, FI, activeLayer_setActiveLayer.
  repeat split; try assumption; try tauto.
Qed.

Lemma sound_navigateLayer (n m : nat) (d : Z) (s : t) :
  sound n m s -> sound n m (navigateLayer d s).
Proof.
  intros Hs. unfold navigateLayer. destruct (negb _); [|exact Hs].
  apply sound_focusOnLayer, sound_setActiveLayer; [lia | exact Hs].
Qed.

Lemma sound_cycleLayers (n m : nat) (d : Z) (s : t) :
  sound n m s -> sound n m (cycleLayers d s).
Proof. intros Hs. unfold cycleLayers. apply sound_focusOnLayer, Hs. Qed.

Lemma sound_handleIndicatorClick (n m k : nat) (s : t) :
  (k < m)%nat -> sound n m s -> sound n m (handleIndicatorClick k s).
Proof.
  intros Hk Hs. unfold handleIndicatorClick.
  apply sound_focusOnLayer, sound_setActiveLayer; [|exact Hs].
  destruct Hs as (_ & _ & [_ Hm] & _). unfold layerIndexOf. lia.
Qed.

(** The overlay methods. *)
Lemma sound_set_overlays (n m : nat) (f : list Overlay -> list Overlay) (s : t) :
  (length (f (overlays (page s))) <= 1)%nat ->
  sound n m s -> sound n m (set_overlays f s).
Proof.
  intros Hf (S1 & S2 & S4 & S5 & S6 & S8).
  unfold sound, selectionInRange in *. cbn. tauto.
Qed.

Lemma sound_createDetailOverlay (n m : nat) (i : Z) (s : t) :
  sound n m s -> sound n m (stateOf (createDetailOverlay i s)).
Proof.
  intros Hs.
  assert (Htail : sound n m (set_overlays (fun l => tail l) s)).
  { apply sound_set_overlays; [|exact Hs].
    destruct Hs as (_ & _ & _ & _ & _ & S8).
    destruct (overlays (page s)) as [|o l]; cbn in *; lia. }
  assert (Hlen : length (tail (overlays (page s))) = 0%nat).
  { destruct Hs as (_ & _ & _ & _ & _ & S8).
    destruct (overlays (page s)) as [|o [|o' l]]; cbn in *; lia. }
  unfold createDetailOverlay.
  destruct (getLayer i _); [|exact Htail].
  destruct (_ ≫= layerContent); [|exact Htail].
  destruct (LAYER_CONFIG i); [|exact Htail].
  cbn [stateOf].
  destruct Hs as (S1 & S2 & S4 & S5 & S6 & S8).
  unfold sound, selectionInRange in *. cbn. rewrite length_app, Hlen. cbn.
  repeat split; try tauto. lia.
Qed.

Lemma sound_setTimeout (n m : nat) (cb : TimerCallback) (delay : nat) (s : t) :
  sound n m s -> sound n m (setTimeout cb delay s).
Proof.
  apply sound_restyled. unfold restyled. cbn. repeat split; reflexivity || lia.
Qed.

Lemma sound_set_isAnimating (n m : nat) (b : bool) (s : t) :
  sound n m s -> sound n m (set_isAnimating b s).
Proof.
  apply sound_restyled. unfold restyled. cbn. repeat split; reflexivity || lia.
Qed.

Lemma sound_showLayerDetails (n m : nat) (i : Z) (s : t) :
  sound n m s -> sound n m (stateOf (showLayerDetails i s)).
Proof.
  intros Hs. unfold showLayerDetails.
  destruct (isAnimating (this s)); [exact Hs|].
  destruct (getLayer i s); [|exact Hs].
  pose proof (sound_createDetailOverlay n m i _ (sound_set_isAnimating n m true s Hs)) as H1.
  destruct (createDetailOverlay i (set_isAnimating true s)) as [s1|s1];
    cbn [andThen stateOf] in *; [|exact H1].
  apply (sound_restyled n m _ _ (restyled_dispatchLayerEvent _ _ _)).
  apply sound_setTimeout.
  apply (sound_restyled n m _ _ (restyled_bringToFront i s1)). exact H1.
Qed.

Lemma sound_hideLayerDetails (n m : nat) (s : t) :
  sound n m s -> sound n m (stateOf (hideLayerDetails s)).
Proof.
  intros Hs. unfold hideLayerDetails.
  match goal with |- context [resetLayerPositions ?x] =>
    assert (H1 : sound n m x)
  end.
  { destruct (overlays (page s)) as [|o l] eqn:E; [exact Hs|].
    apply sound_setTimeout, sound_set_overlays; [|exact Hs].
    rewrite length_alter. apply Hs. }
  match goal with |- context [resetLayerPositions ?x] =>
    pose proof (sound_restyled n m _ _ (restyled_resetLayerPositions x) H1) as H2;
    destruct (resetLayerPositions x) as [s2|s2]
  end; cbn [andThen stateOf] in *; [|exact H2].
  apply (sound_restyled n m _ _ (restyled_dispatchLayerEvent _ _ _)). exact H2.
Qed.

(** The handlers. *)
Lemma sound_set_focusedLayer (n m : nat) (v : option Z) (s : t) :
  inRange v -> sound n m s -> sound n m (set_focusedLayer v s).
Proof.
  intros Hv (S1 & S2 & S4 & S5 & S6 & S8).
  unfold sound, selectionInRange in *. cbn. tauto.
Qed.

Lemma sound_highlightLayer (n m : nat) (i : Z) (s : t) :
  sound n m s -> sound n m (stateOf (highlightLayer i s)).
Proof. apply sound_restyled, restyled_highlightLayer. Qed.

Lemma sound_unhighlightLayer (n m : nat) (i : Z) (s : t) :
  sound n m s -> sound n m (stateOf (unhighlightLayer i s)).
Proof. apply sound_restyled, restyled_unhighlightLayer. Qed.

Lemma sound_dispatchLayerEvent (n m : nat) (name : string) (i : option Z) (s : t) :
  sound n m s -> sound n m (dispatchLayerEvent name i s).
Proof. apply sound_restyled, restyled_dispatchLayerEvent. Qed.

(** A call followed by the dispatch of an event. *)
Lemma sound_then_dispatch (n m : nat) (o : outcome) (name : string) (i : option Z) :
  sound n m (stateOf o) ->
  sound n m (stateOf (let* s := o in Ok (dispatchLayerEvent name i s))).
Proof.
  destruct o as [s|s]; cbn [andThen stateOf]; [|tauto].
  apply sound_dispatchLayerEvent.
Qed.

Lemma sound_handleLayerClick (n m k : nat) (s : t) :
  (k < n)%nat -> sound n m s -> sound n m (stateOf (handleLayerClick k s)).
Proof.
  intros Hk Hs. unfold handleLayerClick. apply sound_then_dispatch.
  destruct (bool_decide _).
  - apply sound_showLayerDetails, Hs.
  - cbn [stateOf]. apply sound_setActiveLayer; [|exact Hs].
    destruct Hs as (_ & _ & [Hn _] & _). unfold layerIndexOf. lia.
Qed.

Lemma sound_handleLayerHover (n m k : nat) (s : t) :
  sound n m s -> sound n m (stateOf (handleLayerHover k s)).
Proof.
  intros Hs. unfold handleLayerHover. apply sound_then_dispatch.
  destruct (negb _); [apply sound_highlightLayer|]; exact Hs.
Qed.

Lemma sound_handleLayerLeave (n m k : nat) (s : t) :
  sound n m s -> sound n m (stateOf (handleLayerLeave k s)).
Proof.
  intros Hs. unfold handleLayerLeave. apply sound_then_dispatch.
  destruct (_ && _); [apply sound_unhighlightLayer|]; exact Hs.
Qed.

Lemma sound_handleLayerFocus (n m k : nat) (s : t) :
  (k < n)%nat -> sound n m s -> sound n m (stateOf (handleLayerFocus k s)).
Proof.
  intros Hk Hs. unfold handleLayerFocus. apply sound_then_dispatch.
  apply sound_highlightLayer, sound_set_focusedLayer; [|exact Hs].
  destruct Hs as (_ & _ & [Hn _] & _). cbn. unfold layerIndexOf. lia.
Qed.

Lemma sound_handleLayerBlur (n m k : nat) (s : t) :
  sound n m s -> sound n m (stateOf (handleLayerBlur k s)).
Proof.
  intros Hs. unfold handleLayerBlur. apply sound_then_dispatch.
  destruct (bool_decide _); [|exact Hs].
  assert (H1 : sound n m (set_focusedLayer None s))
    by (apply sound_set_focusedLayer; [exact I | exact Hs]).
  destruct (negb _); [apply sound_unhighlightLayer|]; exact H1.
Qed.

Lemma sound_updateActiveLayerFromRotation (n m : nat) (rx ry : Q) (s : t) :
  sound n m s -> sound n m (updateActiveLayerFromRotation rx ry s).
Proof.
  intros Hs.
  assert (Ha : (0 <= toNumber (activeLayer (this s)) <= 5)%Z).
  { destruct Hs as (_ & _ & _ & _ & [Ha _] & _).
    destruct (activeLayer (this s)); cbn in *; lia. }
  unfold updateActiveLayerFromRotation.
  destruct (Qltb _ 15).
  { destruct (negb _); [apply sound_setActiveLayer; [lia|]|]; exact Hs. }
  destruct (Qltb 30 rx).
  { destruct (2 <? _)%Z eqn:E; [|exact Hs].
    apply Z.ltb_lt in E. apply sound_setActiveLayer; [lia | exact Hs]. }
  destruct (Qltb rx _); [|exact Hs].
  destruct (_ <? 4)%Z eqn:E; [|exact Hs].
  apply Z.ltb_lt in E. apply sound_setActiveLayer; [lia | exact Hs].
Qed.

Lemma sound_handleRotationUpdate (n m : nat) (rx ry : Q) (s : t) :
  sound n m s -> sound n m (stateOf (handleRotationUpdate rx ry s)).
Proof.
  intros Hs. unfold handleRotationUpdate.
  pose proof (sound_restyled n m _ _ (restyled_updateLayerVisibility rx ry s) Hs) as H1.
  destruct (updateLayerVisibility rx ry s) as [s1|s1]; cbn [andThen stateOf] in *.
  - apply sound_updateActiveLayerFromRotation, H1.
  - exact H1.
Qed.

Lemma sound_handleKeyNavigation (n m : nat) (key : string) (shift : bool) (s : t) :
  sound n m s -> sound n m (stateOf (handleKeyNavigation key shift s)).
Proof.
  intros Hs. unfold handleKeyNavigation.
  destruct (_ && _); [exact Hs|].
  repeat match goal with
         | |- context [if String.eqb ?a ?b then _ else _] => destruct (String.eqb a b)
         end; cbn [stateOf];
    first [ apply sound_cycleLayers, Hs
          | apply sound_navigateLayer, Hs
          | apply sound_showLayerDetails, Hs
          | apply sound_hideLayerDetails, Hs
          | apply sound_setActiveLayer; [lia | exact Hs]
          | exact Hs ].
Qed.

(** The browser. *)
Lemma sound_call (n m : nat) (f : fn) (ct target : node) (e : DomEvent) (s : t) :
  present n m ct -> sound n m s -> sound n m (call f ct target e s).1.
Proof.
  intros Hp Hs. unfold call.
  repeat match goal with
         | |- context [if bool_decide ?P then _ else _] => destruct (bool_decide P)
         end;
    try (destruct ct; cbn [fst present] in *;
         first [ exact Hs
               | apply sound_handleLayerClick; assumption
               | apply sound_handleLayerHover; assumption
               | apply sound_handleLayerLeave; assumption
               | apply sound_handleLayerFocus; assumption
               | apply sound_handleLayerBlur; assumption
               | apply sound_handleIndicatorClick; assumption ]).
  all: try (destruct e; cbn [fst];
            first [exact Hs | apply sound_handleRotationUpdate, Hs]).
  all: destruct f as [name|name serial|site serial]; cbn [fst]; try exact Hs.
  all: repeat match goal with
              | |- context [if String.eqb ?a ?b then _ else _] =>
                  destruct (String.eqb a b)
              end.
  all: try exact Hs.
  all: try (cbn [fst]; apply sound_hideLayerDetails, Hs).
  all: destruct e; try exact Hs.
  all: try (cbn [fst]; apply sound_handleKeyNavigation, Hs).
  all: try (destruct (String.eqb _ _); cbn [fst];
            [apply sound_hideLayerDetails|]; exact Hs).
  all: destruct ct; try exact Hs.
  all: destruct (_ || _); cbn [fst]; [|exact Hs].
  all: apply sound_handleIndicatorClick; assumption.
Qed.

Lemma sound_deliverAt (n m : nat) (x target : node) (e : DomEvent) (s : t) :
  present n m x -> sound n m s -> sound n m (deliverAt x target e s).1.
Proof.
  intros Hp Hs. unfold deliverAt.
  generalize (listenersOf x (eventType e) (listeners (page s))). intros l.
  generalize false. revert s Hs.
  induction l as [|f l IH]; intros s Hs b; cbn [fold_left].
  - exact Hs.
  - pose proof (sound_call n m f x target e s Hp Hs) as H1.
    destruct (call f x target e s) as [s1 stop]. apply IH, H1.
Qed.

Lemma present_parent (n m : nat) (x y : node) :
  parent x = Some y -> present n m y.
Proof. destruct x; cbn; intros [= <-]; exact I. Qed.

Lemma sound_propagate (n m fuel : nat) (x target : node) (e : DomEvent) (s : t) :
  present n m x -> sound n m s -> sound n m (propagate fuel x target e s).
Proof.
  revert x s. induction fuel as [|fuel IH]; intros x s Hp Hs; cbn [propagate];
    pose proof (sound_deliverAt n m x target e s Hp Hs) as H1;
    destruct (deliverAt x target e s) as [s1 stopped]; cbn [fst] in H1.
  - exact H1.
  - destruct (_ || _); [exact H1|].
    destruct (parent x) as [y|] eqn:Ey; [|exact H1].
    apply IH; [apply (present_parent n m x y Ey) | exact H1].
Qed.

Lemma sound_deliver (n m : nat) (target : node) (e : DomEvent) (s : t) :
  present n m target -> sound n m s -> sound n m (deliver target e s).
Proof. apply sound_propagate. Qed.

Lemma sound_runTimer (n m : nat) (cb : TimerCallback) (s : t) :
  sound n m s -> sound n m (runTimer cb s).
Proof.
  intros Hs. destruct cb as [|id]; cbn [runTimer].
  - apply sound_set_isAnimating, Hs.
  - apply sound_set_overlays; [|exact Hs].
    etransitivity; [apply length_filter|]. apply Hs.
Qed.

Lemma sound_advance (n m dt : nat) (s : t) :
  sound n m s -> sound n m (advance dt s).
Proof.
  intros Hs. unfold advance.
  match goal with |- sound n m (fold_left _ ?l ?s0) =>
    assert (H0 : sound n m s0); [|generalize l; generalize dependent s0]
  end.
  { revert Hs. apply sound_restyled. unfold restyled. cbn.
    repeat split; reflexivity || lia. }
  intros s0 Hs0 l. revert s0 Hs0.
  induction l as [|x l IH]; intros s0 Hs0; cbn [fold_left]; [exact Hs0|].
  apply IH, sound_runTimer, Hs0.
Qed.

Lemma sound_animationFrame (n m : nat) (s : t) :
  sound n m s -> sound n m (animationFrame s).
Proof.
  intros Hs. unfold animationFrame.
  match goal with |- sound n m (fold_left _ ?l ?s0) =>
    assert (H0 : sound n m s0); [|generalize l; generalize dependent s0]
  end.
  { revert Hs. apply sound_restyled. unfold restyled. cbn.
    repeat split; reflexivity || lia. }
  intros s0 Hs0 l. revert s0 Hs0.
  induction l as [|x l IH]; intros s0 Hs0; cbn [fold_left]; [exact Hs0|].
  apply IH. destruct x as [id]. cbn [runFrame].
  apply sound_set_overlays; [|exact Hs0].
  rewrite length_fmap. apply Hs0.
Qed.

Lemma sound_fireFocusEvent (n m : nat) (ty : string) (x : node) (s : t) :
  (forall k, x = LayerEl k -> (k < n)%nat) ->
  sound n m s -> sound n m (fireFocusEvent ty x s).
Proof.
  intros Hp (S1 & [S2 S3] & [S4 S4'] & S5 & [S6 S7] & S8).
  destruct (focusFrame_fireFocusEvent ty x s)
    as (F1 & _ & F3 & _ & _ & _ & F7 & F8 & FL & FF).
  unfold sound, selectionInRange.
  rewrite F1, F3, F7, F8, FL, indicatorEls_fireFocusEvent.
  repeat split; try assumption.
  destruct FF as [FF|[FF|(k & -> & FF)]]; rewrite FF; [exact S7 | exact I |].
  specialize (Hp k eq_refl). cbn. unfold layerIndexOf. lia.
Qed.

Lemma sound_focusElsewhere (n m : nat) (s : t) :
  sound n m s -> sound n m (focusElsewhere s).
Proof.
  intros Hs. unfold focusElsewhere.
  destruct (activeElement (page s)) as [old|] eqn:E; [|exact Hs].
  assert (Hp : forall k, old = LayerEl k -> (k < n)%nat).
  { intros k ->. apply Hs, E. }
  pose proof (sound_fireFocusEvent n m "blur" old s Hp Hs)
    as (S1 & S2 & S4 & S5 & S6 & S8).
  unfold sound, selectionInRange in *. cbn. repeat split; try tauto.
  intros k [=].
Qed.

Lemma restyled_set_listeners (f : list registration -> list registration) (s : t) :
  restyled s (set_listeners f s).
Proof. unfold restyled. cbn. repeat split; reflexivity || lia. Qed.

Lemma restyled_fold (A : Type) (f : t -> A -> t) (l : list A) (s : t) :
  (forall s a, restyled s (f s a)) -> restyled s (fold_left f l s).
Proof.
  intros Hf. revert s. induction l as [|a l IH]; intros s; cbn [fold_left].
  - apply restyled_refl.
  - eapply restyled_trans; [apply Hf | apply IH].
Qed.

Lemma sound_destroy (n m : nat) (s : t) :
  sound n m s -> sound n m (stateOf (destroy s)).
Proof.
  intros Hs. unfold destroy.
  match goal with |- context [hideLayerDetails ?x] =>
    assert (H1 : sound n m x)
  end.
  { revert Hs. apply sound_restyled.
    eapply restyled_trans; [|apply restyled_set_listeners].
    eapply restyled_trans; apply restyled_fold; intros s0 a.
    - repeat (eapply restyled_trans; [|apply restyled_set_listeners]).
      apply restyled_refl.
    - apply restyled_set_listeners. }
  match goal with |- context [hideLayerDetails ?x] =>
    pose proof (sound_hideLayerDetails n m x H1) as H2;
    destruct (hideLayerDetails x) as [s2|s2]
  end; cbn [andThen stateOf] in *; [|exact H2].
  destruct H2 as (S1 & S2 & S4 & S5 & S6 & S8).
  unfold sound, selectionInRange in *. cbn. repeat split; tauto.
Qed.

Lemma sound_step (n m : nat) (i : input) (s : t) :
  admissible n m i -> sound n m s -> sound n m (step i s).
Proof.
  intros Hi Hs. destruct i; cbn [step admissible] in *.
  - apply sound_deliver; [exact Hi | exact Hs].
  - apply sound_focusElement, Hs.
  - apply sound_focusElsewhere, Hs.
  - apply sound_advance, Hs.
  - apply sound_animationFrame, Hs.
  - apply sound_setActiveLayer; assumption.
  - apply sound_navigateLayer, Hs.
  - apply sound_cycleLayers, Hs.
  - apply sound_showLayerDetails, Hs.
  - apply sound_hideLayerDetails, Hs.
  - apply sound_highlightLayer, Hs.
  - apply sound_unhighlightLayer, Hs.
  - apply sound_destroy, Hs.
Qed.

Lemma sound_run (n m : nat) (inputs : list input) (s : t) :
  Forall (admissible n m) inputs -> sound n m s -> sound n m (run inputs s).
Proof.
  unfold run. intros Hin. revert s.
  induction Hin as [|i inputs Hi _ IH]; intros s Hs; cbn [fold_left].
  - exact Hs.
  - apply IH, sound_step; assumption.
Qed.

(** ** Loops over the layers *)

(** A loop over the layers [a], ..., [a + len - 1] in document order whose
    body updates the element it visits: it returns normally, and the page
    differs in these elements only. *)
Lemma forEachLayer_seq (g : nat -> LayerElement -> LayerElement)
    (f : nat -> nat -> t -> outcome) (len a : nat) (s : t) :
  (forall i s, (i < 5)%nat -> f i i s = Ok (withLayer i (g i) s)) ->
  (a + len <= 5)%nat ->
  exists s', forEachLayer f (seq a len) a s = Ok s' /\
    s' = set_layerEls (fun _ => layerEls (page s')) s /\
    length (layerEls (page s')) = length (layerEls (page s)) /\
    forall k, layerEls (page s') !! k =
      (if bool_decide (a <= k < a + len)%nat
       then g k <$> layerEls (page s) !! k
       else layerEls (page s) !! k).
Proof.
  intros Hf. revert a s. induction len as [|len IH]; intros a s Hlen.
  - exists s. cbn [seq forEachLayer]. repeat split.
    + destruct s as [th pg]; destruct pg; reflexivity.
    + intros k. rewrite bool_decide_eq_false_2 by lia. reflexivity.
  - cbn [seq forEachLayer]. rewrite Hf by lia. cbn [andThen].
    destruct (IH (S a) (withLayer a (g a) s)) as (s' & E & Hs' & HL & Hk); [lia|].
    exists s'. split; [exact E|]. split; [|split].
    + rewrite Hs' at 1. reflexivity.
    + rewrite HL. cbn. apply length_alter.
    + intros k. rewrite Hk. cbn.
      rewrite list_lookup_alter.
      destruct (decide (a = k)) as [->|Hne].
      * rewrite bool_decide_eq_false_2 by lia.
        rewrite bool_decide_eq_true_2 by lia. reflexivity.
      * destruct (decide (S a <= k < S a + len)%nat).
        -- rewrite !bool_decide_eq_true_2 by lia. reflexivity.
        -- rewrite !bool_decide_eq_false_2 by lia. reflexivity.
Qed.

Lemma forEachLayer_app (f : nat -> nat -> t -> outcome)
    (l1 l2 : list nat) (index : nat) (s : t) :
  forEachLayer f (l1 ++ l2) index s =
    let* s := forEachLayer f l1 index s in forEachLayer f l2 (index + length l1) s.
Proof.
  revert index s. induction l1 as [|r l1 IH]; intros index s; cbn [app forEachLayer length].
  - cbn [andThen]. rewrite Nat.add_0_r. reflexivity.
  - destruct (f r index s) as [s1|s1]; cbn [andThen]; [|reflexivity].
    rewrite IH. replace (S index + length l1)%nat with (index + S (length l1))%nat by lia.
    reflexivity.
Qed.

Lemma fmap_alter_same {B : Type} (p : LayerElement -> B)
    (f : LayerElement -> LayerElement) (k : nat) (l : list LayerElement) :
  (forall x, p (f x) = p x) -> p <$> alter f k l = p <$> l.
Proof.
  intros Hp. apply list_eq. intros j.
  rewrite !list_lookup_fmap, list_lookup_alter.
  destruct (decide (k = j)) as [->|]; [|reflexivity].
  destruct (l !! j); cbn; [rewrite Hp|]; reflexivity.
Qed.

(** What the constructor writes on a layer element. *)
Lemma initializeLayers_ok (s : t) :
  (length (layerEls (page s)) <= 5)%nat ->
  exists s', initializeLayers s = Ok s' /\
    this s' = this (set_layers (seq 0 (length (layerEls (page s)))) (indicators (this s)) s) /\
    s' = set_layerEls (fun _ => layerEls (page s'))
           (set_layers (seq 0 (length (layerEls (page s)))) (indicators (this s)) s) /\
    length (layerEls (page s')) = length (layerEls (page s)) /\
    forall k el', layerEls (page s') !! k = Some el' ->
      tabindex el' = Some "0" /\ role el' = Some "button".
Proof.
  intros Hlen. unfold initializeLayers.
  set (g := fun (i : nat) (el : LayerElement) =>
         match LAYER_CONFIG (layerIndexOf i) with
         | Some c => el_setAriaLabel
                       ("Layer " +:+ pretty (layerIndexOf i) +:+ ": " +:+ name c)
                       (el_setTabindexRole "0" "button" el)
         | None => el
         end).
  match goal with |- context [forEachLayer ?f (layers (this ?s1)) 0%nat ?s1] =>
    destruct (forEachLayer_seq g f (length (layerEls (page s))) 0 s1)
      as (s' & E & Hs' & HL & Hk)
  end.
  { intros i s0 Hi. destruct (LAYER_CONFIG_defined i Hi) as [c Hc].
    unfold g. rewrite Hc. unfold withLayer, set_layerEls, set_page. cbn.
    rewrite list_alter_alter_eq. reflexivity. }
  { lia. }
  exists s'. split; [exact E|]. split; [rewrite Hs' at 1; reflexivity|].
  split; [exact Hs'|]. split; [exact HL|].
  intros k el' Hel'. rewrite Hk in Hel'. cbn in Hel'.
  destruct (bool_decide _) eqn:Hb.
  - destruct (layerEls (page s) !! k) as [el|] eqn:Hel; [|discriminate].
    apply bool_decide_eq_true in Hb.
    cbn in Hel'. injection Hel' as <-. unfold g.
    destruct (LAYER_CONFIG_defined k) as [c Hc]; [lia|]. rewrite Hc. split; reflexivity.
  - apply bool_decide_eq_false in Hb. apply lookup_lt_Some in Hel'. lia.
Qed.

Lemma forEachIndicator_frame (f : nat -> nat -> t -> t) (l : list nat) (index : nat) (s : t) :
  (forall r i s, exists h, f r i s = withIndicator r h s) ->
  let s' := forEachIndicator f l index s in
  s' = set_indicatorEls (fun _ => indicatorEls (page s')) s /\
  length (indicatorEls (page s')) = length (indicatorEls (page s)).
Proof.
  intros Hf. cbv zeta. revert index s.
  induction l as [|r l IH]; intros index s; cbn [forEachIndicator].
  - split; [|reflexivity]. destruct s as [th pg]; destruct pg; reflexivity.
  - destruct (Hf r index s) as [h ->].
    destruct (IH (S index) (withIndicator r h s)) as [E HL]. split.
    + rewrite E at 1. reflexivity.
    + rewrite HL. cbn. apply length_alter.
Qed.

Lemma initializeIndicators_frame (s : t) :
  let s' := initializeIndicators s in
  s' = set_indicatorEls (fun _ => indicatorEls (page s'))
         (set_layers (layers (this s)) (seq 0 (length (indicatorEls (page s)))) s) /\
  length (indicatorEls (page s')) = length (indicatorEls (page s)).
Proof.
  cbv zeta. unfold initializeIndicators.
  match goal with |- context [forEachIndicator ?f ?l 0%nat ?s1] =>
    destruct (forEachIndicator_frame f l 0 s1) as [E HL]
  end.
  { intros r i s0. eexists. reflexivity. }
  split; [exact E | exact HL].
Qed.


Lemma onlyListeners_refl (s : t) : onlyListeners s s.
Proof. destruct s as [th pg]; destruct pg; reflexivity. Qed.

Lemma onlyListeners_trans (s1 s2 s3 : t) :
  onlyListeners s1 s2 -> onlyListeners s2 s3 -> onlyListeners s1 s3.
Proof.
  unfold onlyListeners. intros H1 H2. rewrite H2 at 1. rewrite H1 at 1. reflexivity.
Qed.

Lemma onlyListeners_listen (x : node) (ty : string) (f : fn) (s : t) :
  onlyListeners s (listen x ty f s).
Proof. destruct s as [th pg]; destruct pg; reflexivity. Qed.

Lemma onlyListeners_set_nextFn (v : nat) (s : t) : onlyListeners s (set_nextFn v s).
Proof. destruct s as [th pg]; destruct pg; reflexivity. Qed.

Lemma onlyListeners_fold (A : Type) (f : t -> A -> t) (l : list A) (s : t) :
  (forall s a, onlyListeners s (f s a)) -> onlyListeners s (fold_left f l s).
Proof.
  intros Hf. revert s. induction l as [|a l IH]; intros s; cbn [fold_left].
  - apply onlyListeners_refl.
  - eapply onlyListeners_trans; [apply Hf | apply IH].
Qed.

Ltac only_listeners :=
  repeat first
    [ apply onlyListeners_refl
    | eapply onlyListeners_trans; [|apply onlyListeners_listen]
    | eapply onlyListeners_trans; [|apply onlyListeners_set_nextFn] ].

Lemma initializeEventListeners_frame (s : t) :
  onlyListeners s (initializeEventListeners s).
Proof.
  unfold initializeEventListeners, bind, arrow.
  eapply onlyListeners_trans; [|apply onlyListeners_listen].
  eapply onlyListeners_trans; [|apply onlyListeners_set_nextFn].
  eapply onlyListeners_trans; [|apply onlyListeners_listen].
  eapply onlyListeners_trans; apply onlyListeners_fold; intros s0 a; only_listeners.
Qed.

(** The elements after [setActiveLayer]: only the class [active] changes. *)
Lemma attributes_setActiveLayer {B : Type} (p : LayerElement -> B) (i : Z) (s : t) :
  (forall b x, p (el_setActive b x) = p x) ->
  p <$> layerEls (page (setActiveLayer i s)) = p <$> layerEls (page s).
Proof.
  intros Hp. unfold setActiveLayer.
  case_all; cbn; rewrite ?fmap_alter_same by (intros; apply Hp); try reflexivity;
    rewrite ?fmap_alter_same by (intros; apply Hp); reflexivity.
Qed.

(** The constructor on a page with at most five layers. *)
Lemma new_ok (p : Page) :
  (length (layerEls p) <= 5)%nat ->
  exists s, new p = Ok s /\
    layers (this s) = seq 0 (length (layerEls p)) /\
    indicators (this s) = seq 0 (length (indicatorEls p)) /\
    activeLayer (this s) = Some 3%Z /\
    focusedLayer (this s) = None /\
    isAnimating (this s) = false /\
    length (layerEls (page s)) = length (layerEls p) /\
    length (indicatorEls (page s)) = length (indicatorEls p) /\
    overlays (page s) = overlays p /\
    activeElement (page s) = activeElement p /\
    timers (page s) = timers p /\
    forall k el, layerEls (page s) !! k = Some el ->
      tabindex el = Some "0" /\ role el = Some "button".
Proof.
  intros Hlen. unfold new.
  match goal with |- context [initializeLayers ?s0] =>
    destruct (initializeLayers_ok s0) as (s1 & E1 & T1 & P1 & L1 & A1); [exact Hlen|]
  end.
  rewrite E1. cbn [andThen].
  destruct (initializeIndicators_frame s1) as [P2 L2].
  pose proof (initializeEventListeners_frame (initializeIndicators s1)) as P3.
  remember (initializeIndicators s1) as s2 eqn:D2. clear D2.
  remember (initializeEventListeners s2) as s3 eqn:D3. clear D3.
  unfold onlyListeners in P3.
  assert (T2 : this s2 = this (set_layers (layers (this s1))
                 (seq 0 (length (indicatorEls (page s1)))) s1))
    by (rewrite P2 at 1; reflexivity).
  assert (T3 : this s3 = this s2) by (rewrite P3 at 1; reflexivity).
  assert (E2 : layerEls (page s2) = layerEls (page s1)) by (rewrite P2 at 1; reflexivity).
  assert (E3 : layerEls (page s3) = layerEls (page s2)) by (rewrite P3 at 1; reflexivity).
  assert (I3 : indicatorEls (page s3) = indicatorEls (page s2))
    by (rewrite P3 at 1; reflexivity).
  assert (I1 : indicatorEls (page s1) = indicatorEls p) by (rewrite P1 at 1; reflexivity).
  assert (O : overlays (page s3) = overlays p).
  { rewrite P3 at 1. cbn. rewrite P2 at 1. cbn. rewrite P1 at 1. reflexivity. }
  assert (AE : activeElement (page s3) = activeElement p).
  { rewrite P3 at 1. cbn. rewrite P2 at 1. cbn. rewrite P1 at 1. reflexivity. }
  assert (TM : timers (page s3) = timers p).
  { rewrite P3 at 1. cbn. rewrite P2 at 1. cbn. rewrite P1 at 1. reflexivity. }
  destruct (setActiveLayer_frame 3 s3) as (F1 & F2 & F3 & _ & F5 & F6 & F7 & F8).
  assert (FI : length (indicatorEls (page (setActiveLayer 3 s3))) =
               length (indicatorEls (page s3))).
  { unfold setActiveLayer. case_all; cbn; rewrite ?length_alter; reflexivity. }
  eexists. split; [reflexivity|].
  rewrite F1, F2, F3, F5, F6, F7, F8, FI, activeLayer_setActiveLayer, this_setActiveLayer.
  cbn [this set_activeLayer set_this indicators].
  rewrite O, AE, TM, E3, E2, I3, L2, L1, I1, T3, T2. cbn. rewrite T1, I1. cbn.
  repeat match goal with |- _ /\ _ => split end; try reflexivity.
  intros k el Hel.
  assert (Hf : (fun x => (tabindex x, role x)) <$> layerEls (page (setActiveLayer 3 s3)) =
               (fun x => (tabindex x, role x)) <$> layerEls (page s1)).
  { rewrite attributes_setActiveLayer by reflexivity. rewrite E3, E2. reflexivity. }
  apply (f_equal (fun l => l !! k)) in Hf. rewrite !list_lookup_fmap, Hel in Hf.
  destruct (layerEls (page s1) !! k) as [el1|] eqn:Hel1; [|discriminate].
  destruct (A1 k el1 Hel1) as [<- <-]. cbn in Hf. injection Hf as -> ->. split; reflexivity.
Qed.

(** A sixth [.layer] element has no entry in [LAYER_CONFIG]. *)
Lemma new_throws (p : Page) :
  (5 < length (layerEls p))%nat ->
  exists s, new p = Throw s /\
    listeners (page s) = listeners p /\
    activeLayer (this s) = None /\
    indicators (this s) = [].
Proof.
  intros Hlen. unfold new, initializeLayers.
  cbn [layers this set_layers set_this set_nextFn set_page page layerEls].
  replace (length (layerEls p)) with (5 + S (length (layerEls p) - 6))%nat by lia.
  rewrite seq_app, forEachLayer_app.
  set (g := fun (i : nat) (el : LayerElement) =>
         match LAYER_CONFIG (layerIndexOf i) with
         | Some c => el_setAriaLabel
                       ("Layer " +:+ pretty (layerIndexOf i) +:+ ": " +:+ name c)
                       (el_setTabindexRole "0" "button" el)
         | None => el
         end).
  match goal with |- context [forEachLayer ?f (seq 0 5) 0%nat ?s1] =>
    destruct (forEachLayer_seq g f 5 0 s1) as (s' & E & Hs' & HL & Hk)
  end.
  { intros i s0 Hi. destruct (LAYER_CONFIG_defined i Hi) as [c Hc].
    unfold g. rewrite Hc. unfold withLayer, set_layerEls, set_page. cbn.
    rewrite list_alter_alter_eq. reflexivity. }
  { lia. }
  rewrite E. cbn [andThen seq forEachLayer length Nat.add].
  change (LAYER_CONFIG (layerIndexOf 5)) with (@None LayerConfig).
  cbn [andThen]. eexists. split; [reflexivity|].
  cbn. rewrite Hs'. cbn. repeat split.
Qed.

Lemma sound_new (p : Page) :
  contract p ->
  sound (length (layerEls p)) (length (indicatorEls p)) (stateOf (new p)).
Proof.
  intros (Hn & Hm & Ho & Ha).
  destruct (new_ok p Hn) as (s & E & L & I & A & F & _ & LE & LI & O & AE & _ & _).
  rewrite E. cbn [stateOf]. unfold sound, selectionInRange.
  rewrite L, A, F, LE, LI, O, AE, length_seq. cbn.
  repeat split; try assumption; try lia.
Qed.

(** ** The constructor *)

(** X7.  On a page with at most five [.layer] elements the constructor
    returns normally: the manager holds every layer and every indicator dot
    of the page in document order, layer 3 is active, no layer is focused,
    the latch is free, every layer element has been made focusable
    ([tabindex] 0, role [button]), and the overlays, the focused element and
    the timers of the page are as they were. *)
Theorem constructor_on_at_most_five_layers (p : Page) :
  (length (layerEls p) <= 5)%nat ->
  exists s, new p = Ok s /\
    layers (this s) = seq 0 (length (layerEls p)) /\
    indicators (this s) = seq 0 (length (indicatorEls p)) /\
    activeLayer (this s) = Some 3%Z /\
    focusedLayer (this s) = None /\
    isAnimating (this s) = false /\
    length (layerEls (page s)) = length (layerEls p) /\
    length (indicatorEls (page s)) = length (indicatorEls p) /\
    overlays (page s) = overlays p /\
    activeElement (page s) = activeElement p /\
    timers (page s) = timers p /\
    forall k el, layerEls (page s) !! k = Some el ->
      tabindex el = Some "0" /\ role el = Some "button".
Proof. apply new_ok. Qed.

(** A page with two layers and no dot: layer 3 is made active all the
    same. *)
Lemma constructor_on_at_most_five_layers_witness :
  let p := blankPage 2 0 in
  (length (layerEls p) <= 5)%nat /\
  exists s, new p = Ok s /\
    layers (this s) = seq 0 (length (layerEls p)) /\
    indicators (this s) = seq 0 (length (indicatorEls p)) /\
    activeLayer (this s) = Some 3%Z /\
    focusedLayer (this s) = None /\
    isAnimating (this s) = false /\
    length (layerEls (page s)) = length (layerEls p) /\
    length (indicatorEls (page s)) = length (indicatorEls p) /\
    overlays (page s) = overlays p /\
    activeElement (page s) = activeElement p /\
    timers (page s) = timers p /\
    forall k el, layerEls (page s) !! k = Some el ->
      tabindex el = Some "0" /\ role el = Some "button".
Proof.
  intros p. split; [vm_compute; lia|].
  apply (constructor_on_at_most_five_layers p). vm_compute. lia.
Defined.

(** X8.  On a page with more than five [.layer] elements the constructor
    throws while it labels the sixth, whose [LAYER_CONFIG] entry is missing:
    no listener has been registered, no layer is active and the indicator
    dots have not been collected. *)
Theorem constructor_throws_on_sixth_layer (p : Page) :
  (5 < length (layerEls p))%nat ->
  exists s, new p = Throw s /\
    listeners (page s) = listeners p /\
    activeLayer (this s) = None /\
    indicators (this s) = [].
Proof. apply new_throws. Qed.

Lemma constructor_throws_on_sixth_layer_witness :
  let p := blankPage 6 5 in
  (5 < length (layerEls p))%nat /\
  exists s, new p = Throw s /\
    listeners (page s) = listeners p /\
    activeLayer (this s) = None /\
    indicators (this s) = [].
Proof.
  intros p. split; [vm_compute; lia|].
  apply (constructor_throws_on_sixth_layer p). vm_compute. lia.
Defined.

(** ** Invariants of a manager in use *)

(** X9.  On a page that keeps to the contract, whatever happens after the
    construction (events dispatched at nodes of the page, focus moves, time,
    frames, calls of the public methods, [setActiveLayer] with an index from
    1 to 5, even [destroy]), [activeLayer] and [focusedLayer] are each unset
    or one of 1 to 5. *)
Theorem selection_stays_in_range (p : Page) (inputs : list input) :
  contract p ->
  Forall (admissible (length (layerEls p)) (length (indicatorEls p))) inputs ->
  selectionInRange (run inputs (stateOf (new p))).
Proof.
  intros Hp Hin.
  apply (sound_run _ _ inputs _ Hin (sound_new p Hp)).
Qed.

Lemma selection_stays_in_range_witness :
  let p := blankPage 5 5 in
  let inputs := [Event (LayerEl 4) click; Event Document (keydown "ArrowRight" false);
                 Event (IndicatorEl 0) click; call_cycleLayers (-1);
                 Event Container (rotationUpdateEvent (-45) 0)] in
  (contract p /\
   Forall (admissible (length (layerEls p)) (length (indicatorEls p))) inputs) /\
  selectionInRange (run inputs (stateOf (new p))).
Proof.
  intros p inputs.
  assert (Hp : contract p).
  { split; [vm_compute; lia|]. split; [vm_compute; lia|]. split; [vm_compute; lia|].
    intros k H. discriminate H. }
  assert (Hin : Forall (admissible (length (layerEls p)) (length (indicatorEls p))) inputs).
  { repeat constructor; vm_compute; lia. }
  split; [split; assumption|].
  exact (selection_stays_in_range p inputs Hp Hin).
Defined.

(** X10.  Under the same conditions the document never holds more than one
    detail overlay. *)
Theorem at_most_one_overlay (p : Page) (inputs : list input) :
  contract p ->
  Forall (admissible (length (layerEls p)) (length (indicatorEls p))) inputs ->
  (length (overlays (page (run inputs (stateOf (new p))))) <= 1)%nat.
Proof.
  intros Hp Hin.
  apply (sound_run _ _ inputs _ Hin (sound_new p Hp)).
Qed.

Lemma at_most_one_overlay_witness :
  let p := blankPage 5 5 in
  let inputs := [call_showLayerDetails 3; Advance 500; call_showLayerDetails 4;
                 Event Document (keydown "Escape" false); Advance 500;
                 call_showLayerDetails 1] in
  (contract p /\
   Forall (admissible (length (layerEls p)) (length (indicatorEls p))) inputs) /\
  (length (overlays (page (run inputs (stateOf (new p))))) <= 1)%nat.
Proof.
  intros p inputs.
  assert (Hp : contract p).
  { split; [vm_compute; lia|]. split; [vm_compute; lia|]. split; [vm_compute; lia|].
    intros k H. discriminate H. }
  assert (Hin : Forall (admissible (length (layerEls p)) (length (indicatorEls p))) inputs).
  { repeat constructor. }
  split; [split; assumption|].
  exact (at_most_one_overlay p inputs Hp Hin).
Defined.

(** ** Styles written on every layer *)

(** X11.  For a manager that holds the layers of a page with at most five,
    [hideLayerDetails()] returns normally and, whether or not an overlay is
    open, puts every layer back at the depth of its [LAYER_CONFIG] entry
    with an empty [z-index]: the transform of a highlighted layer or of the
    layer brought to the front is overwritten, and nothing else of the
    element changes. *)
Theorem hideLayerDetails_restores_depths (s : t) :
  layers (this s) = seq 0 (length (layerEls (page s))) ->
  (length (layerEls (page s)) <= 5)%nat ->
  exists s', hideLayerDetails s = Ok s' /\
    forall k el, layerEls (page s) !! k = Some el ->
      exists c, LAYER_CONFIG (layerIndexOf k) = Some c /\
        layerEls (page s') !! k =
          Some (el_setTransformZIndex (TranslateZ (zIndex c)) "" el).
Proof.
  intros Hl Hn. unfold hideLayerDetails.
  match goal with |- context [resetLayerPositions ?x] => set (s1 := x) end.
  assert (H1 : layers (this s1) = layers (this s) /\ layerEls (page s1) = layerEls (page s)).
  { unfold s1. destruct (overlays (page s)); split; reflexivity. }
  destruct H1 as [H1 H2]. clearbody s1.
  unfold resetLayerPositions. rewrite H1, Hl.
  set (g := fun (i : nat) (el : LayerElement) =>
         match LAYER_CONFIG (layerIndexOf i) with
         | Some c => el_setTransformZIndex (TranslateZ (zIndex c)) "" el
         | None => el
         end).
  match goal with |- context [forEachLayer ?f _ 0%nat s1] =>
    destruct (forEachLayer_seq g f (length (layerEls (page s))) 0 s1)
      as (s' & E & Hs' & HL & Hk)
  end.
  { intros i s0 Hi. destruct (LAYER_CONFIG_defined i Hi) as [c Hc].
    unfold g. rewrite Hc. reflexivity. }
  { lia. }
  rewrite E. cbn [andThen]. eexists. split; [reflexivity|].
  intros k el Hel. pose proof (lookup_lt_Some _ _ _ Hel) as Hlt.
  destruct (LAYER_CONFIG_defined k) as [c Hc]; [lia|].
  exists c. split; [exact Hc|].
  cbn. rewrite Hk, H2, Hel. rewrite bool_decide_eq_true_2 by lia.
  cbn. unfold g. rewrite Hc. reflexivity.
Qed.

(** The layer of a fresh manager whose details are open is in front; hiding
    the details puts it back. *)
Lemma hideLayerDetails_restores_depths_witness :
  let s := stateOf (showLayerDetails 3 (stateOf (new (blankPage 5 5)))) in
  (layers (this s) = seq 0 (length (layerEls (page s))) /\
   (length (layerEls (page s)) <= 5)%nat) /\
  exists s', hideLayerDetails s = Ok s' /\
    forall k el, layerEls (page s) !! k = Some el ->
      exists c, LAYER_CONFIG (layerIndexOf k) = Some c /\
        layerEls (page s') !! k =
          Some (el_setTransformZIndex (TranslateZ (zIndex c)) "" el).
Proof.
  intros s.
  assert (H1 : layers (this s) = seq 0 (length (layerEls (page s))))
    by (vm_compute; reflexivity).
  assert (H2 : (length (layerEls (page s)) <= 5)%nat) by (vm_compute; lia).
  split; [split; assumption|].
  exact (hideLayerDetails_restores_depths s H1 H2).
Defined.




(** ** What most methods leave alone *)

Section Frames.
Context {R : t -> t -> Prop} `{!Frame R}.

(** Chains of updates. *)
Ltac frame_setters :=
  repeat first
    [ apply frame_refl
    | match goal with
      | |- R ?s (?f ?s') =>
          apply (frame_trans s s');
          [|first [ apply frame_layerEls | apply frame_indicatorEls
                  | apply frame_dispatched | apply frame_activeLayer
                  | apply frame_focusedLayer | apply frame_activeElement
                  | apply frame_overlays | apply frame_frames
                  | apply frame_removal ]]
      end ].

Lemma frame_setActiveLayer (i : Z) (s : t) : R s (setActiveLayer i s).
Proof.
  unfold setActiveLayer, dispatchLayerEvent, withLayer, withIndicator.
  case_all; frame_setters.
Qed.

Lemma frame_highlightLayer (i : Z) (s : t) : R s (stateOf (highlightLayer i s)).
Proof. unfold highlightLayer, withLayer. case_all; cbn [stateOf]; frame_setters. Qed.

Lemma frame_unhighlightLayer (i : Z) (s : t) : R s (stateOf (unhighlightLayer i s)).
Proof. unfold unhighlightLayer, withLayer. case_all; cbn [stateOf]; frame_setters. Qed.

Lemma frame_dispatchLayerEvent (name : string) (i : option Z) (s : t) :
  R s (dispatchLayerEvent name i s).
Proof. unfold dispatchLayerEvent. frame_setters. Qed.

Lemma frame_then_dispatch (s : t) (o : outcome) (name : string) (i : option Z) :
  R s (stateOf o) ->
  R s (stateOf (let* s := o in Ok (dispatchLayerEvent name i s))).
Proof.
  destruct o as [s1|s1]; cbn [andThen stateOf]; [|tauto].
  intros H. eapply frame_trans; [exact H | apply frame_dispatchLayerEvent].
Qed.

Lemma frame_forEachLayer (f : nat -> nat -> t -> outcome)
    (l : list nat) (index : nat) (s : t) :
  (forall r i s, R s (stateOf (f r i s))) ->
  R s (stateOf (forEachLayer f l index s)).
Proof.
  intros Hf. revert index s. induction l as [|r l IH]; intros index s; cbn [forEachLayer].
  - apply frame_refl.
  - pose proof (Hf r index s) as H1.
    destruct (f r index s) as [s1|s1]; cbn [andThen stateOf] in *; [|exact H1].
    eapply frame_trans; [exact H1 | apply IH].
Qed.

Lemma frame_resetLayerPositions (s : t) : R s (stateOf (resetLayerPositions s)).
Proof.
  unfold resetLayerPositions. apply frame_forEachLayer.
  intros r i s0. unfold withLayer. case_all; cbn [stateOf]; frame_setters.
Qed.

Lemma frame_updateLayerVisibility (rx ry : Q) (s : t) :
  R s (stateOf (updateLayerVisibility rx ry s)).
Proof.
  unfold updateLayerVisibility. apply frame_forEachLayer.
  intros r i s0. unfold withLayer.
  destruct (LAYER_CONFIG _); cbn [stateOf]; frame_setters.
Qed.

Lemma frame_hideLayerDetails (s : t) : R s (stateOf (hideLayerDetails s)).
Proof.
  unfold hideLayerDetails.
  match goal with |- context [resetLayerPositions ?x] => assert (H1 : R s x) end.
  { destruct (overlays (page s)) as [|o l]; frame_setters. }
  match goal with |- context [resetLayerPositions ?x] =>
    pose proof (frame_resetLayerPositions x) as H2;
    destruct (resetLayerPositions x) as [s2|s2]
  end; cbn [andThen stateOf] in *.
  - eapply frame_trans; [exact H1|]. eapply frame_trans; [exact H2|].
    apply frame_dispatchLayerEvent.
  - eapply frame_trans; [exact H1 | exact H2].
Qed.

Lemma frame_handleLayerFocus (k : nat) (s : t) : R s (stateOf (handleLayerFocus k s)).
Proof.
  unfold handleLayerFocus. apply frame_then_dispatch.
  eapply frame_trans; [|apply frame_highlightLayer]. apply frame_focusedLayer.
Qed.

Lemma frame_handleLayerBlur (k : nat) (s : t) : R s (stateOf (handleLayerBlur k s)).
Proof.
  unfold handleLayerBlur. apply frame_then_dispatch.
  destruct (bool_decide _); [|apply frame_refl].
  destruct (negb _); [|cbn [stateOf]; apply frame_focusedLayer].
  eapply frame_trans; [|apply frame_unhighlightLayer]. apply frame_focusedLayer.
Qed.

Lemma frame_callFocusListener (f : fn) (x : node) (s : t) :
  R s (callFocusListener f x s).
Proof.
  unfold callFocusListener. destruct x; try apply frame_refl.
  case_all; first [apply frame_handleLayerFocus | apply frame_handleLayerBlur
                  | apply frame_refl].
Qed.

Lemma frame_fold (A : Type) (f : t -> A -> t) (l : list A) (s : t) :
  (forall s a, R s (f s a)) -> R s (fold_left f l s).
Proof.
  intros Hf. revert s. induction l as [|a l IH]; intros s; cbn [fold_left].
  - apply frame_refl.
  - eapply frame_trans; [apply Hf | apply IH].
Qed.

Lemma frame_fireFocusEvent (ty : string) (x : node) (s : t) :
  R s (fireFocusEvent ty x s).
Proof.
  unfold fireFocusEvent. apply frame_fold. intros s0 f. apply frame_callFocusListener.
Qed.

Lemma frame_focusElement (k : nat) (s : t) : R s (focusElement k s).
Proof.
  unfold focusElement.
  destruct (layerEls (page s) !! k); [|apply frame_refl].
  destruct (bool_decide _); [apply frame_refl|].
  destruct (bool_decide _); [apply frame_refl|].
  eapply frame_trans; [|apply frame_fireFocusEvent].
  destruct (activeElement (page s)).
  - eapply frame_trans; [apply frame_fireFocusEvent | apply frame_activeElement].
  - apply frame_activeElement.
Qed.

Lemma frame_focusOnLayer (i : Z) (s : t) : R s (focusOnLayer i s).
Proof.
  unfold focusOnLayer. destruct (getLayer i s); [apply frame_focusElement | apply frame_refl].
Qed.

Lemma frame_navigateLayer (d : Z) (s : t) : R s (navigateLayer d s).
Proof.
  unfold navigateLayer. destruct (negb _); [|apply frame_refl].
  eapply frame_trans; [apply frame_setActiveLayer | apply frame_focusOnLayer].
Qed.

Lemma frame_cycleLayers (d : Z) (s : t) : R s (cycleLayers d s).
Proof. unfold cycleLayers. apply frame_focusOnLayer. Qed.

Lemma frame_handleIndicatorClick (k : nat) (s : t) : R s (handleIndicatorClick k s).
Proof.
  unfold handleIndicatorClick.
  eapply frame_trans; [apply frame_setActiveLayer | apply frame_focusOnLayer].
Qed.

Lemma frame_handleRotationUpdate (rx ry : Q) (s : t) :
  R s (stateOf (handleRotationUpdate rx ry s)).
Proof.
  unfold handleRotationUpdate.
  pose proof (frame_updateLayerVisibility rx ry s) as H1.
  destruct (updateLayerVisibility rx ry s) as [s1|s1]; cbn [andThen stateOf] in *;
    [|exact H1].
  eapply frame_trans; [exact H1|]. unfold updateActiveLayerFromRotation.
  case_all; first [apply frame_setActiveLayer | apply frame_refl].
Qed.

Lemma frame_handleLayerHover (k : nat) (s : t) : R s (stateOf (handleLayerHover k s)).
Proof.
  unfold handleLayerHover. apply frame_then_dispatch.
  destruct (negb _); [apply frame_highlightLayer | apply frame_refl].
Qed.

Lemma frame_handleLayerLeave (k : nat) (s : t) : R s (stateOf (handleLayerLeave k s)).
Proof.
  unfold handleLayerLeave. apply frame_then_dispatch.
  destruct (_ && _); [apply frame_unhighlightLayer | apply frame_refl].
Qed.

Lemma frame_animationFrame (s : t) : R s (animationFrame s).
Proof.
  unfold animationFrame. eapply frame_trans; [apply frame_frames|].
  apply frame_fold. intros s0 [id]. cbn [runFrame]. apply frame_overlays.
Qed.

Lemma frame_focusElsewhere (s : t) : R s (focusElsewhere s).
Proof.
  unfold focusElsewhere. destruct (activeElement (page s)); [|apply frame_refl].
  eapply frame_trans; [apply frame_fireFocusEvent | apply frame_activeElement].
Qed.

(** What a listener does when a method that opens the details has the
    property [P]. *)
Section Handlers.
Variable P : t -> Prop.
Hypothesis P_frame : forall s s', R s s' -> P s -> P s'.
Hypothesis P_showLayerDetails : forall i s, P s -> P (stateOf (showLayerDetails i s)).

Lemma kept_handleLayerClick (k : nat) (s : t) :
  P s -> P (stateOf (handleLayerClick k s)).
Proof.
  intros Hs. unfold handleLayerClick.
  pose proof (P_showLayerDetails (layerIndexOf k) s Hs) as H1.
  destruct (bool_decide _).
  - destruct (showLayerDetails (layerIndexOf k) s) as [s1|s1];
      cbn [andThen stateOf] in *; [|exact H1].
    revert H1. apply P_frame, frame_dispatchLayerEvent.
  - cbn [andThen stateOf]. revert Hs. apply P_frame.
    eapply frame_trans; [apply frame_setActiveLayer | apply frame_dispatchLayerEvent].
Qed.

Lemma kept_handleKeyNavigation (key : string) (shift : bool) (s : t) :
  P s -> P (stateOf (handleKeyNavigation key shift s)).
Proof.
  intros Hs. unfold handleKeyNavigation.
  destruct (_ && _); [exact Hs|].
  repeat match goal with
         | |- context [if String.eqb ?a ?b then _ else _] => destruct (String.eqb a b)
         end; cbn [stateOf];
    first [ apply P_showLayerDetails, Hs
          | revert Hs; apply P_frame;
            first [ apply frame_cycleLayers | apply frame_navigateLayer
                  | apply frame_hideLayerDetails | apply frame_setActiveLayer
                  | apply frame_refl ] ].
Qed.

Lemma kept_call (f : fn) (ct target : node) (e : DomEvent) (s : t) :
  P s -> P (call f ct target e s).1.
Proof.
  intros Hs. unfold call.
  repeat match goal with
         | |- context [if bool_decide ?Q then _ else _] => destruct (bool_decide Q)
         end;
    try (destruct ct; cbn [fst];
         first [ exact Hs
               | apply kept_handleLayerClick, Hs
               | revert Hs; apply P_frame;
                 first [ apply frame_handleLayerHover | apply frame_handleLayerLeave
                       | apply frame_handleLayerFocus | apply frame_handleLayerBlur
                       | apply frame_handleIndicatorClick ] ]).
  all: try (destruct e; cbn [fst];
            first [exact Hs | revert Hs; apply P_frame, frame_handleRotationUpdate]).
  all: destruct f as [name|name serial|site serial]; cbn [fst]; try exact Hs.
  all: repeat match goal with
              | |- context [if String.eqb ?a ?b then _ else _] =>
                  destruct (String.eqb a b)
              end.
  all: try exact Hs.
  all: try (cbn [fst]; revert Hs; apply P_frame, frame_hideLayerDetails).
  all: destruct e; try exact Hs.
  all: try (cbn [fst]; apply kept_handleKeyNavigation, Hs).
  all: try (destruct (String.eqb _ _); cbn [fst]; [|exact Hs];
            revert Hs; apply P_frame, frame_hideLayerDetails).
  all: destruct ct; try exact Hs.
  all: destruct (_ || _); cbn [fst]; [|exact Hs].
  all: revert Hs; apply P_frame, frame_handleIndicatorClick.
Qed.

Lemma kept_deliverAt (x target : node) (e : DomEvent) (s : t) :
  P s -> P (deliverAt x target e s).1.
Proof.
  intros Hs. unfold deliverAt.
  generalize (listenersOf x (eventType e) (listeners (page s))). intros l.
  generalize false. revert s Hs.
  induction l as [|f l IH]; intros s Hs b; cbn [fold_left].
  - exact Hs.
  - pose proof (kept_call f x target e s Hs) as H1.
    destruct (call f x target e s) as [s1 stop]. apply IH, H1.
Qed.

Lemma kept_propagate (fuel : nat) (x target : node) (e : DomEvent) (s : t) :
  P s -> P (propagate fuel x target e s).
Proof.
  revert x s. induction fuel as [|fuel IH]; intros x s Hs; cbn [propagate];
    pose proof (kept_deliverAt x target e s Hs) as H1;
    destruct (deliverAt x target e s) as [s1 stopped]; cbn [fst] in H1.
  - exact H1.
  - destruct (_ || _); [exact H1|].
    destruct (parent x) as [y|]; [|exact H1]. apply IH, H1.
Qed.

(** Every input, given what time and [destroy] do. *)
Hypothesis P_advance : forall dt s, P s -> P (advance dt s).
Hypothesis P_destroy : forall s, P s -> P (stateOf (destroy s)).

Lemma kept_step (i : input) (s : t) : P s -> P (step i s).
Proof.
  intros Hs. destruct i; cbn [step].
  - apply kept_propagate, Hs.
  - revert Hs. apply P_frame, frame_focusElement.
  - revert Hs. apply P_frame, frame_focusElsewhere.
  - apply P_advance, Hs.
  - revert Hs. apply P_frame, frame_animationFrame.
  - revert Hs. apply P_frame, frame_setActiveLayer.
  - revert Hs. apply P_frame, frame_navigateLayer.
  - revert Hs. apply P_frame, frame_cycleLayers.
  - apply P_showLayerDetails, Hs.
  - revert Hs. apply P_frame, frame_hideLayerDetails.
  - revert Hs. apply P_frame, frame_highlightLayer.
  - revert Hs. apply P_frame, frame_unhighlightLayer.
  - apply P_destroy, Hs.
Qed.

Lemma kept_run (inputs : list input) (s : t) : P s -> P (run inputs s).
Proof.
  unfold run. revert s. induction inputs as [|i inputs IH]; intros s Hs; cbn [fold_left].
  - exact Hs.
  - apply IH, kept_step, Hs.
Qed.

End Handlers.
End Frames.

(** ** A latch that is never released *)

#[local] Instance quiet_Frame : Frame quiet.
Proof.
  split; try (intros; split; [reflexivity | intros e He; left; exact He]).
  - intros s1 s2 s3 [A1 A2] [B1 B2]. split; [congruence|].
    intros e He. destruct (B2 e He) as [H|H]; [apply A2, H | right; exact H].
  - intros id delay s. split; [reflexivity|]. intros e He. cbn in He.
    apply elem_of_insertTimer in He. destruct He as [->|He]; [right; eauto | left; exact He].
Qed.

Lemma stuck_quiet (s s' : t) : quiet s s' -> stuck s -> stuck s'.
Proof.
  intros [A1 A2] [B1 B2]. split; [congruence|].
  intros e He. destruct (A2 e He) as [H|[id H]]; [apply B2, H | rewrite H; discriminate].
Qed.

Lemma stuck_showLayerDetails (i : Z) (s : t) : stuck s -> showLayerDetails i s = Ok s.
Proof. intros [H _]. apply showLayerDetails_latched, H. Qed.

Lemma stuck_advance (dt : nat) (s : t) : stuck s -> stuck (advance dt s).
Proof.
  intros [H1 H2]. unfold advance.
  match goal with |- stuck (fold_left _ ?l ?s0) =>
    assert (Hl : forall e, e ∈ l -> e.2 <> ReleaseLatch);
    [|assert (H0 : stuck s0); [|generalize dependent l; generalize dependent s0]]
  end.
  { intros e He. apply list_elem_of_filter in He. apply H2, He. }
  { split; [exact H1|]. intros e He. cbn in He.
    apply list_elem_of_filter in He. apply H2, He. }
  intros s0 Hs0 l. revert s0 Hs0.
  induction l as [|x l IH]; intros s0 Hs0 Hl; cbn [fold_left]; [exact Hs0|].
  apply IH.
  - assert (Hx : x.2 <> ReleaseLatch) by (apply Hl; left).
    destruct x as [d [|id]]; cbn in *; [congruence|].
    revert Hs0. apply stuck_quiet, frame_overlays.
  - intros e He. apply Hl. right. exact He.
Qed.

Lemma quiet_set_listeners (f : list registration -> list registration) (s : t) :
  quiet s (set_listeners f s).
Proof. split; [reflexivity | intros e He; left; exact He]. Qed.

Lemma quiet_destroy (s : t) : quiet s (stateOf (destroy s)).
Proof.
  unfold destroy.
  match goal with |- context [hideLayerDetails ?x] => assert (H1 : quiet s x) end.
  { unfold unlisten.
    match goal with |- quiet s (set_listeners _ ?x) =>
      apply (frame_trans s x); [|apply quiet_set_listeners]
    end.
    match goal with |- quiet s (fold_left _ _ ?x) =>
      apply (frame_trans s x); apply frame_fold; intros s0 a;
        repeat (eapply frame_trans; [|apply quiet_set_listeners]); apply frame_refl
    end. }
  match goal with |- context [hideLayerDetails ?x] =>
    pose proof (frame_hideLayerDetails (R := quiet) x) as H2;
    destruct (hideLayerDetails x) as [s2|s2]
  end; cbn [andThen stateOf] in *.
  - eapply frame_trans; [exact H1|]. eapply frame_trans; [exact H2|].
    split; [reflexivity | intros e He; left; exact He].
  - eapply frame_trans; [exact H1 | exact H2].
Qed.

Lemma stuck_run (inputs : list input) (s : t) : stuck s -> stuck (run inputs s).
Proof.
  apply (kept_run (R := quiet) stuck).
  - intros s1 s2. apply stuck_quiet.
  - intros i s1 Hs. rewrite (stuck_showLayerDetails i s1 Hs). exact Hs.
  - apply stuck_advance.
  - intros s1. apply stuck_quiet, quiet_destroy.
Qed.

(** X13.  [showLayerDetails(i)] on a layer without a [.layer-content] child,
    with the latch free and no release pending: the call throws after it has
    taken the latch and removed the overlay that was open, and before the
    release of the latch is scheduled.  From then on, whatever happens, the
    latch stays held and every [showLayerDetails] returns at once: no detail
    overlay can be opened again. *)
Theorem missing_content_jams_the_latch (i : Z) (r : nat) (s : t) (inputs : list input) :
  isAnimating (this s) = false ->
  (forall e, e ∈ timers (page s) -> e.2 <> ReleaseLatch) ->
  getLayer i s = Some r ->
  layerEls (page s) !! r ≫= layerContent = None ->
  exists s', showLayerDetails i s = Throw s' /\
    overlays (page s') = tail (overlays (page s)) /\
    timers (page s') = timers (page s) /\
    dispatched (page s') = dispatched (page s) /\
    let w := run inputs s' in
    isAnimating (this w) = true /\ forall j, showLayerDetails j w = Ok w.
Proof.
  intros Hlatch Htimers Hget Hcontent.
  unfold showLayerDetails. rewrite Hlatch, Hget. unfold createDetailOverlay.
  assert (Hget' : getLayer i (set_overlays (fun l => tail l) (set_isAnimating true s))
                  = Some r) by exact Hget.
  rewrite Hget'. cbn [page set_overlays set_isAnimating set_page set_this layerEls].
  rewrite Hcontent. cbn [andThen].
  eexists. split; [reflexivity|]. cbn [page set_page overlays timers dispatched].
  split; [reflexivity|]. split; [reflexivity|]. split; [reflexivity|].
  cbv zeta.
  match goal with |- isAnimating (this (run inputs ?s')) = true /\ _ =>
    assert (Hs : stuck (run inputs s'))
  end.
  { apply stuck_run. split; [reflexivity | exact Htimers]. }
  split; [apply Hs|]. intros j. apply stuck_showLayerDetails, Hs.
Qed.

(** Layer 2 of five has no content: its details are asked for, then half a
    second passes, Escape is pressed and layer 3 is clicked twice. *)
Lemma missing_content_jams_the_latch_witness :
  let s := stateOf (new (withoutContent 1 (blankPage 5 5))) in
  let inputs := [Advance 500; Event Document (keydown "Escape" false);
                 Event (LayerEl 2) click; Event (LayerEl 2) click] in
  (isAnimating (this s) = false /\
   (forall e, e ∈ timers (page s) -> e.2 <> ReleaseLatch) /\
   getLayer 2 s = Some 1%nat /\
   layerEls (page s) !! 1%nat ≫= layerContent = None) /\
  exists s', showLayerDetails 2 s = Throw s' /\
    overlays (page s') = tail (overlays (page s)) /\
    timers (page s') = timers (page s) /\
    dispatched (page s') = dispatched (page s) /\
    let w := run inputs s' in
    isAnimating (this w) = true /\ forall j, showLayerDetails j w = Ok w.
Proof.
  intros s inputs.
  assert (H1 : isAnimating (this s) = false) by (vm_compute; reflexivity).
  assert (H2 : forall e, e ∈ timers (page s) -> e.2 <> ReleaseLatch).
  { intros e He. replace (timers (page s)) with (@nil (nat * TimerCallback)) in He
      by (vm_compute; reflexivity).
    inversion He. }
  assert (H3 : getLayer 2 s = Some 1%nat) by (vm_compute; reflexivity).
  assert (H4 : layerEls (page s) !! 1%nat ≫= layerContent = None)
    by (vm_compute; reflexivity).
  split; [repeat split; assumption|].
  exact (missing_content_jams_the_latch 2 1 s inputs H1 H2 H3 H4).
Defined.

(** ** The listeners of the detail overlays *)

#[local] Instance still_Frame : Frame still.
Proof.
  split; try (intros; split; reflexivity).
  intros s1 s2 s3 [A1 A2] [B1 B2]. split; congruence.
Qed.

(** A step that removes from the registry at most listeners that are no
    [keydown] listeners of the document, and adds none. *)
Lemma documentKeydown_unlisten (x : node) (ty : string) (f : fn) (s : t) :
  x <> Document -> documentKeydown (unlisten x ty f s) = documentKeydown s.
Proof.
  intros Hx. unfold documentKeydown, unlisten, listenersOf, removeEventListener. cbn.
  f_equal. apply list_filter_filter_l.
  intros r [Ht _] ->. apply Hx. exact Ht.
Qed.

Lemma documentKeydown_fold_unlisten (A : Type) (g : t -> A -> t) (l : list A) (s : t) :
  (forall s a, documentKeydown (g s a) = documentKeydown s) ->
  documentKeydown (fold_left g l s) = documentKeydown s.
Proof.
  intros Hg. revert s. induction l as [|a l IH]; intros s; cbn [fold_left].
  - reflexivity.
  - rewrite IH. apply Hg.
Qed.

Lemma documentKeydown_still (s s' : t) :
  still s s' -> documentKeydown s' = documentKeydown s.
Proof. intros [H _]. unfold documentKeydown. rewrite H. reflexivity. Qed.

Lemma documentKeydown_destroy (s : t) :
  documentKeydown (stateOf (destroy s)) = documentKeydown s.
Proof.
  unfold destroy.
  match goal with |- context [hideLayerDetails ?x] =>
    assert (H1 : documentKeydown x = documentKeydown s)
  end.
  { rewrite documentKeydown_unlisten by discriminate.
    rewrite documentKeydown_fold_unlisten
      by (intros s0 a; apply documentKeydown_unlisten; discriminate).
    apply documentKeydown_fold_unlisten. intros s0 a.
    rewrite !documentKeydown_unlisten by discriminate. reflexivity. }
  match goal with |- context [hideLayerDetails ?x] =>
    pose proof (documentKeydown_still _ _ (frame_hideLayerDetails (R := still) x)) as H2;
    destruct (hideLayerDetails x) as [s2|s2]
  end; cbn [andThen stateOf] in *.
  - rewrite <- H1, <- H2. reflexivity.
  - rewrite <- H1, <- H2. reflexivity.
Qed.

Lemma still_advance (dt : nat) (s : t) : still s (advance dt s).
Proof.
  unfold advance. eapply frame_trans; [|apply frame_fold].
  - split; reflexivity.
  - intros s0 [d [|id]]; split; reflexivity.
Qed.

(** Adding a listener takes none away. *)
Lemma listenersOf_add (n x : node) (ty ty' : string) (f g : fn)
    (ls : list registration) :
  g ∈ listenersOf n ty ls -> g ∈ listenersOf n ty (addEventListener x ty' f ls).
Proof.
  unfold listenersOf, addEventListener. destruct (bool_decide _); [auto|].
  rewrite filter_app, fmap_app. intros H. apply elem_of_app. left. exact H.
Qed.

Lemma listenersOf_add_other (n x : node) (ty ty' : string) (f : fn)
    (ls : list registration) :
  x <> n -> listenersOf n ty (addEventListener x ty' f ls) = listenersOf n ty ls.
Proof.
  intros Hx. unfold listenersOf, addEventListener. destruct (bool_decide _); [reflexivity|].
  rewrite filter_app, fmap_app.
  rewrite filter_cons_False by (cbn; intros [H _]; contradiction).
  rewrite filter_nil. cbn. apply app_nil_r.
Qed.

Lemma listenersOf_add_new (n : node) (ty : string) (f : fn) (ls : list registration) :
  Registration n ty f ∉ ls ->
  listenersOf n ty (addEventListener n ty f ls) = listenersOf n ty ls ++ [f].
Proof.
  intros Hnew. unfold listenersOf, addEventListener.
  rewrite bool_decide_eq_false_2 by exact Hnew.
  rewrite filter_app, fmap_app.
  rewrite filter_cons_True by (split; reflexivity).
  rewrite filter_nil. reflexivity.
Qed.

Lemma fresh_add (x : node) (ty : string) (f : fn) (k : nat)
    (ls : list registration) (next : nat) :
  fresh ls next -> serialOf f = Some k -> (k < next)%nat ->
  fresh (addEventListener x ty f ls) next.
Proof.
  intros Hf Hk Hlt r n Hr Hn. unfold addEventListener in Hr.
  destruct (bool_decide _); [apply (Hf r n Hr Hn)|].
  apply elem_of_app in Hr. destruct Hr as [Hr|Hr]; [apply (Hf r n Hr Hn)|].
  apply list_elem_of_singleton in Hr. subst r. cbn in Hn. congruence.
Qed.

Lemma fresh_mono (ls : list registration) (next next' : nat) :
  fresh ls next -> (next <= next')%nat -> fresh ls next'.
Proof. intros Hf Hle r n Hr Hn. specialize (Hf r n Hr Hn). lia. Qed.

Lemma fresh_new_function (x : node) (ty : string) (f : fn)
    (ls : list registration) (next : nat) :
  fresh ls next -> serialOf f = Some next -> Registration x ty f ∉ ls.
Proof. intros Hf Hn Hin. specialize (Hf _ _ Hin Hn). lia. Qed.

Lemma listeners_after_open (i : Z) (x : t) :
  listeners (page (dispatchLayerEvent "layerDetailsShown" (Some i)
                     (setTimeout ReleaseLatch 500 (bringToFront i x)))) =
    listeners (page x).
Proof. unfold bringToFront. destruct (getLayer i x); reflexivity. Qed.

(** The registry after an open that is not ignored. *)
Lemma showLayerDetails_listeners (i : Z) (r : nat) (content : string)
    (c : LayerConfig) (s0 : t) :
  isAnimating (this s0) = false ->
  getLayer i s0 = Some r ->
  layerEls (page s0) !! r ≫= layerContent = Some content ->
  LAYER_CONFIG i = Some c ->
  exists s, showLayerDetails i s0 = Ok s /\
    let n := nextFn (page s0) in
    let id := nextOverlay (page s0) in
    listeners (page s) =
      addEventListener Document "keydown" (Arrow "document.keydown" (S (S n)))
        (addEventListener (OverlayEl id) "click" (Arrow "overlay.click" (S n))
           (addEventListener (CloseButton id) "click" (Arrow "closeButton.click" n)
              (listeners (page s0)))).
Proof.
  intros Hlatch Hget Hcontent Hc.
  unfold showLayerDetails. rewrite Hlatch, Hget.
  unfold createDetailOverlay.
  assert (Hget' : getLayer i (set_overlays (fun l => tail l) (set_isAnimating true s0))
                  = Some r) by exact Hget.
  rewrite Hget'.
  assert (Hcontent' :
            layerEls (page (set_overlays (fun l => tail l) (set_isAnimating true s0))) !! r
              ≫= layerContent = Some content) by exact Hcontent.
  rewrite Hcontent', Hc.
  cbn [andThen]. eexists. split; [reflexivity|].
  cbv zeta. rewrite listeners_after_open. reflexivity.
Qed.

(** Whatever a call of [showLayerDetails] does, it removes no listener of
    the document. *)
Lemma showLayerDetails_keeps (i : Z) (s : t) (g : fn) :
  g ∈ documentKeydown s -> g ∈ documentKeydown (stateOf (showLayerDetails i s)).
Proof.
  intros Hg.
  destruct (isAnimating (this s)) eqn:Hl.
  { unfold showLayerDetails. rewrite Hl. exact Hg. }
  destruct (getLayer i s) as [r|] eqn:Hget.
  2:{ unfold showLayerDetails. rewrite Hl, Hget. exact Hg. }
  assert (Hget' : getLayer i (set_overlays (fun l => tail l) (set_isAnimating true s))
                  = Some r) by exact Hget.
  destruct (layerEls (page s) !! r ≫= layerContent) as [content|] eqn:Hc.
  2:{ assert (Hc' :
        layerEls (page (set_overlays (fun l => tail l) (set_isAnimating true s))) !! r
          ≫= layerContent = None) by exact Hc.
      unfold showLayerDetails, createDetailOverlay. rewrite Hl, Hget, Hget', Hc'.
      exact Hg. }
  destruct (LAYER_CONFIG i) as [c|] eqn:Hcfg.
  2:{ assert (Hc' :
        layerEls (page (set_overlays (fun l => tail l) (set_isAnimating true s))) !! r
          ≫= layerContent = Some content) by exact Hc.
      unfold showLayerDetails, createDetailOverlay. rewrite Hl, Hget, Hget', Hc', Hcfg.
      exact Hg. }
  destruct (showLayerDetails_listeners i r content c s Hl Hget Hc Hcfg) as (s' & E & HL).
  rewrite E. cbn [stateOf]. unfold documentKeydown. rewrite HL.
  repeat apply listenersOf_add. exact Hg.
Qed.

Lemma documentKeydown_run (g : fn) (inputs : list input) (s : t) :
  g ∈ documentKeydown s -> g ∈ documentKeydown (run inputs s).
Proof.
  apply (kept_run (R := still) (fun s => g ∈ documentKeydown s)).
  - intros s1 s2 H. rewrite (documentKeydown_still _ _ H). auto.
  - intros i s1. apply showLayerDetails_keeps.
  - intros dt s1. rewrite (documentKeydown_still _ _ (still_advance dt s1)). auto.
  - intros s1. rewrite documentKeydown_destroy. auto.
Qed.

(** X14.  Every open of a detail overlay that is not ignored registers a
    new [keydown] listener on the document, after those that are there, and
    nothing that happens later takes a [keydown] listener of the document
    away: not [hideLayerDetails], not the removal of the overlay, not the
    next open, not [destroy()].  (Function objects are numbered in the order
    of their creation: those registered so far have numbers below the
    next.) *)
Theorem detail_listeners_accumulate (i : Z) (s : t) (inputs : list input) :
  fresh (listeners (page s)) (nextFn (page s)) ->
  isAnimating (this s) = false -> canOpen i s ->
  exists s', showLayerDetails i s = Ok s' /\
    documentKeydown s' =
      documentKeydown s ++ [Arrow "document.keydown" (S (S (nextFn (page s))))] /\
    forall g, g ∈ documentKeydown s' -> g ∈ documentKeydown (run inputs s').
Proof.
  intros Hfresh Hlatch (r & content & Hget & Hcontent & [c Hc]).
  destruct (showLayerDetails_listeners i r content c s Hlatch Hget Hcontent Hc)
    as (s' & E & HL).
  exists s'. split; [exact E|]. split.
  - unfold documentKeydown. rewrite HL.
    rewrite listenersOf_add_new.
    + rewrite !listenersOf_add_other by discriminate. reflexivity.
    + apply (fresh_new_function _ _ _ _ (S (S (nextFn (page s))))); [|reflexivity].
      eapply fresh_add; [|reflexivity|lia].
      eapply fresh_add; [|reflexivity|lia].
      eapply fresh_mono; [exact Hfresh | lia].
  - intros g Hg. apply documentKeydown_run, Hg.
Qed.

Lemma fresh_check (ls : list registration) (next : nat) :
  forallb (fun r => match serialOf (callback r) with
                    | Some n => (n <? next)%nat
                    | None => true
                    end) ls = true ->
  fresh ls next.
Proof.
  intros H r n Hr Hn. rewrite forallb_forall in H.
  apply list_elem_of_In in Hr. specialize (H r Hr). rewrite Hn in H.
  apply Nat.ltb_lt, H.
Qed.

(** The details of layer 3 opened on a fresh manager, then closed; half a
    second later those of layer 2 are opened and the manager is destroyed. *)
Lemma detail_listeners_accumulate_witness :
  let s := stateOf (new (blankPage 5 5)) in
  let inputs := [call_hideLayerDetails; Advance 500; call_showLayerDetails 2;
                 call_destroy] in
  (fresh (listeners (page s)) (nextFn (page s)) /\
   isAnimating (this s) = false /\ canOpen 3 s) /\
  exists s', showLayerDetails 3 s = Ok s' /\
    documentKeydown s' =
      documentKeydown s ++ [Arrow "document.keydown" (S (S (nextFn (page s))))] /\
    forall g, g ∈ documentKeydown s' -> g ∈ documentKeydown (run inputs s').
Proof.
  intros s inputs.
  assert (H1 : fresh (listeners (page s)) (nextFn (page s)))
    by (apply fresh_check; vm_compute; reflexivity).
  assert (H2 : isAnimating (this s) = false) by (vm_compute; reflexivity).
  split; [split; [exact H1 | split; [exact H2 | exact canOpen_new]]|].
  exact (detail_listeners_accumulate 3 s inputs H1 H2 canOpen_new).
Defined.

End LayerManagerMore.
